(** * invoice_generator.py: a shallow embedding and its verified properties

    The module under study is a client of the invoice-generator.com HTTP API.
    An [InvoiceGenerator] instance accumulates the invoice in its attribute
    dictionary, [_to_json] rewrites that dictionary into the wire object and
    dumps it, [download] posts it and stores the PDF, and the script at the
    bottom of the module turns the rows of a CSV file into invoices.

    Python objects are dynamically typed, and [_to_json] works directly on
    [self.__dict__]; the embedding therefore represents an instance by its
    attribute dictionary (an insertion-ordered association list of dynamic
    values) and every method as a state transformer that may raise. *)

From Stdlib Require Import ZArith List String Ascii Bool Lia.
From Stdlib Require Import Floats.SpecFloat DecimalString.
From stdpp Require Import base gmap strings.

Import ListNotations.
Set Warnings "-register-all".
Local Open Scope string_scope.
Local Open Scope Z_scope.

(** ** Python values *)

(** The run-time values that reach the module.  A [datetime] keeps its time
    of day (in microseconds) next to the calendar date.  Lists, dicts and
    instances are nested by value: every mutable object the module creates
    ([self.items], [self.custom_fields], [self.template], the [Item] and
    [CustomField] instances) is referenced from exactly one place, the
    attribute dictionary of the invoice that owns it. *)
Inductive value : Type :=
| VNone
| VBool (b : bool)
| VInt (n : Z)
| VFloat (x : spec_float)
| VStr (s : string)
| VDate (year month day : Z)
| VDatetime (year month day : Z) (microseconds : Z)
| VList (elements : list value)
| VDict (entries : list (string * value))
| VObj (class_name : string) (attributes : list (string * value)).

(** A dict with string keys, in insertion order. *)
Abbreviation dict := (list (string * value)).

Inductive exn : Type :=
| KeyError (key : string)
| AttributeError (attribute : string)
| TypeError (message : string)
| ValueError (message : string)
| LocaleError (message : string)
| JSONDecodeError
| InvalidJSONError
| ConnectionError
| Exception (message : string).

(** ** Dict operations (generic in the type of the stored values) *)

Section Dict.
Context {A : Type}.

(** [d.get(k)] *)
Fixpoint dict_get (k : string) (d : list (string * A)) : option A :=
  match d with
  | [] => None
  | (k', v) :: rest => if String.eqb k k' then Some v else dict_get k rest
  end.

(** [d[k] = v]: an existing key keeps its position, a new one is appended. *)
Fixpoint dict_set (k : string) (v : A) (d : list (string * A)) : list (string * A) :=
  match d with
  | [] => [(k, v)]
  | (k', v') :: rest =>
      if String.eqb k k' then (k, v) :: rest else (k', v') :: dict_set k v rest
  end.

(** The dict without key [k] (what [d.pop(k)] leaves behind). *)
Fixpoint dict_remove (k : string) (d : list (string * A)) : list (string * A) :=
  match d with
  | [] => []
  | (k', v) :: rest =>
      if String.eqb k k' then rest else (k', v) :: dict_remove k rest
  end.

Definition dict_keys (d : list (string * A)) : list string := map fst d.

(** [for k, v in src.items(): d[k] = v] *)
Definition dict_update (src d : list (string * A)) : list (string * A) :=
  fold_left (fun acc kv => dict_set (fst kv) (snd kv) acc) src d.
End Dict.

(** ** Computations that mutate a state and may raise *)

(** A statement runs on a state [S]; it either returns or raises, and in both
    cases leaves a state behind: an exception does not undo the mutations
    that preceded it. *)
Definition M (S A : Type) : Type := S -> (exn + A) * S.

Definition ret {S A} (a : A) : M S A := fun s => (inr a, s).
Definition raise {S A} (e : exn) : M S A := fun s => (inl e, s).
Definition bind {S A B} (c : M S A) (k : A -> M S B) : M S B :=
  fun s => match c s with
           | (inr a, s') => k a s'
           | (inl e, s') => (inl e, s')
           end.
Definition get_state {S} : M S S := fun s => (inr s, s).
Definition modify {S} (f : S -> S) : M S unit := fun s => (inr tt, f s).

Declare Scope py_scope.
Delimit Scope py_scope with py.
Notation "'let*' x ':=' c 'in' k" := (bind c (fun x => k))
  (at level 10, x pattern, c at level 100, k at level 200,
   right associativity) : py_scope.
Notation "c ';;;' k" := (bind c (fun _ => k))
  (at level 100, k at level 200, right associativity) : py_scope.
Local Open Scope py_scope.

(** Run a statement about one component of a pair of states. *)
Definition on_fst {S T A} (c : M S A) : M (S * T) A :=
  fun st => let '(r, s') := c (fst st) in (r, (s', snd st)).
Definition on_snd {S T A} (c : M T A) : M (S * T) A :=
  fun st => let '(r, t') := c (snd st) in (r, (fst st, t')).

(** ** Attribute access on an instance, seen through its [__dict__] *)

(** [self.name]: none of the attributes the methods read is a class attribute,
    so a name missing from the instance dict is an [AttributeError]. *)
Definition getattr (name : string) : M dict value :=
  fun d => match dict_get name d with
           | Some v => (inr v, d)
           | None => (inl (AttributeError name), d)
           end.

(** [self.name = v] and [object_dict[name] = v] *)
Definition setitem (name : string) (v : value) : M dict unit :=
  modify (dict_set name v).

(** [object_dict[name]] *)
Definition getitem (name : string) : M dict value :=
  fun d => match dict_get name d with
           | Some v => (inr v, d)
           | None => (inl (KeyError name), d)
           end.

(** [object_dict.get(name)]: [None] for a missing key. *)
Definition get (name : string) : M dict value :=
  fun d => (inr (match dict_get name d with Some v => v | None => VNone end), d).

(** [object_dict.pop(name)] *)
Definition pop (name : string) : M dict value :=
  fun d => match dict_get name d with
           | Some v => (inr v, dict_remove name d)
           | None => (inl (KeyError name), d)
           end.

(** ** The classes [Item] and [CustomField] *)

Module Item.
(** [Item.__init__] *)
Definition __init__ (name quantity unit_cost description : value) : value :=
  VObj "Item"
    [("name", name); ("quantity", quantity); ("unit_cost", unit_cost);
     ("description", description)].
End Item.

Module CustomField.
(** [CustomField.__init__] *)
Definition __init__ (name val : value) : value :=
  VObj "CustomField" [("name", name); ("value", val)].
End CustomField.

(** [obj.__dict__]: only instances of user classes have one. *)
Definition __dict__ (v : value) : exn + value :=
  match v with
  | VObj _ attrs => inr (VDict attrs)
  | _ => inl (AttributeError "__dict__")
  end.

(** ** The class [InvoiceGenerator]: constants and constructor *)

Definition URL := "https://invoice-generator.com".
Definition DATE_FORMAT := "%d %b %Y".
Definition LOCALE := "en_US.utf8".
Definition TIMEZONE := "UTC".

Definition TEMPLATE_PARAMETERS : list string :=
  [ "header"; "to_title"; "ship_to_title"; "invoice_number_title";
    "date_title"; "payment_terms_title"; "due_date_title";
    "purchase_order_title"; "quantity_header"; "item_header";
    "unit_cost_header"; "amount_header"; "subtotal_title";
    "discounts_title"; "tax_title"; "shipping_title"; "total_title";
    "amount_paid_title"; "balance_title"; "terms_title"; "notes_title" ].

(** The function object created by the [def __init__] statement.  Python
    evaluates the default of a parameter when the [def] statement runs, so
    the only default that is not a literal, [datetime.now(tz=...)], is a
    field of the function object: the value of the clock at that moment. *)
Record init_function : Type := {
  date_default : value
}.

(** Executing the class body when the clock shows the given instant. *)
Definition class_body (year month day microseconds : Z) : init_function :=
  {| date_default := VDatetime year month day microseconds |}.

(** The arguments of a call [InvoiceGenerator(sender, to, ...)].  The literal
    defaults are filled in by [call_args]; [date] is [None] when the caller
    leaves it out. *)
Record init_args : Type := {
  a_sender : value;
  a_to : value;
  a_logo : value;
  a_ship_to : value;
  a_number : value;
  a_payments_terms : value;
  a_due_date : value;
  a_notes : value;
  a_terms : value;
  a_currency : value;
  a_date : option value;
  a_discounts : value;
  a_tax : value;
  a_shipping : value;
  a_amount_paid : value
}.

Definition call_args (sender to : value) : init_args :=
  {| a_sender := sender; a_to := to; a_logo := VNone; a_ship_to := VNone;
     a_number := VNone; a_payments_terms := VNone; a_due_date := VNone;
     a_notes := VNone; a_terms := VNone; a_currency := VStr "USD";
     a_date := None; a_discounts := VInt 0; a_tax := VInt 0;
     a_shipping := VInt 0; a_amount_paid := VInt 0 |}.

(** [InvoiceGenerator.__init__]: the attribute dictionary of the new
    instance, in the order of the assignments. *)
Definition __init__ (f : init_function) (a : init_args) : dict :=
  let date := match a_date a with Some d => d | None => date_default f end in
  [ ("logo", a_logo a);
    ("sender", a_sender a);
    ("to", a_to a);
    ("ship_to", a_ship_to a);
    ("number", a_number a);
    ("currency", a_currency a);
    ("custom_fields", VList []);
    ("date", date);
    ("payment_terms", a_payments_terms a);
    ("due_date", a_due_date a);
    ("items", VList []);
    ("fields",
      VDict [("tax", VStr "%"); ("discounts", VBool false);
             ("shipping", VBool false)]);
    ("discounts", a_discounts a);
    ("tax", a_tax a);
    ("shipping", a_shipping a);
    ("amount_paid", a_amount_paid a);
    ("notes", a_notes a);
    ("terms", a_terms a);
    ("template", VDict []) ].

(** ** The mutators *)

(** [lst.append(x)] on the value held by an attribute. *)
Definition append (x : value) (lst : value) : exn + value :=
  match lst with
  | VList l => inr (VList (l ++ [x]))
  | _ => inl (AttributeError "append")
  end.

(** [self.<attr>.append(x)]: the list is mutated in place, so the attribute
    sees the longer list. *)
Definition append_to (attr : string) (x : value) : M dict unit :=
  let* lst := getattr attr in
  match append x lst with
  | inr lst' => setitem attr lst'
  | inl e => raise e
  end.

Definition add_custom_field (name val : value) : M dict unit :=
  append_to "custom_fields" (CustomField.__init__ name val).

Definition add_item (name quantity unit_cost description : value) : M dict unit :=
  append_to "items" (Item.__init__ name quantity unit_cost description).

(** [template_parameter in InvoiceGenerator.TEMPLATE_PARAMETERS] *)
Definition is_template_parameter (k : string) : bool :=
  existsb (String.eqb k) TEMPLATE_PARAMETERS.

Definition set_template_text (template_parameter : string) (val : value) : M dict unit :=
  if is_template_parameter template_parameter then
    let* t := getattr "template" in
    match t with
    | VDict entries => setitem "template" (VDict (dict_set template_parameter val entries))
    | _ => raise (TypeError "object does not support item assignment")
    end
  else
    raise (ValueError ("The parameter " ++ template_parameter
                       ++ " is not a valid template parameter. See docs.")).

Definition toggle_subtotal (tax discounts shipping : value) : M dict unit :=
  setitem "fields"
    (VDict [("tax", tax); ("discounts", discounts); ("shipping", shipping)]).

(** ** JSON documents and [json.dumps] *)

Inductive json : Type :=
| JNull
| JBool (b : bool)
| JInt (n : Z)
| JFloat (x : spec_float)
| JStr (s : string)
| JArr (elements : list json)
| JObj (members : list (string * json)).

(** Conversion of the elements of a list, stopping at the first failure. *)
Fixpoint traverse {A B : Type} (f : A -> exn + B) (l : list A) : exn + list B :=
  match l with
  | [] => inr []
  | x :: rest =>
      match f x with
      | inl e => inl e
      | inr y =>
          match traverse f rest with
          | inl e => inl e
          | inr ys => inr (y :: ys)
          end
      end
  end.

Definition not_serializable (type_name : string) : exn :=
  TypeError ("Object of type " ++ type_name ++ " is not JSON serializable").

(** [json.dumps]: the document the text denotes.  Dates and instances of user
    classes have no JSON form; the encoder raises on the first one it meets. *)
Fixpoint dumps (v : value) : exn + json :=
  match v with
  | VNone => inr JNull
  | VBool b => inr (JBool b)
  | VInt n => inr (JInt n)
  | VFloat x => inr (JFloat x)
  | VStr s => inr (JStr s)
  | VDate _ _ _ => inl (not_serializable "date")
  | VDatetime _ _ _ _ => inl (not_serializable "datetime")
  | VList l =>
      match traverse dumps l with
      | inl e => inl e
      | inr js => inr (JArr js)
      end
  | VDict d =>
      match traverse (fun kv => match dumps (snd kv) with
                                | inl e => inl e
                                | inr j => inr (fst kv, j)
                                end) d with
      | inl e => inl e
      | inr ms => inr (JObj ms)
      end
  | VObj c _ => inl (not_serializable c)
  end.

Definition serializable (v : value) : bool :=
  match dumps v with inr _ => true | inl _ => false end.

(** [math.isfinite]: neither NaN nor an infinity. *)
Definition isfinite (x : spec_float) : bool :=
  match x with
  | S754_nan | S754_infinity _ => false
  | _ => true
  end.

(** The documents that [json.dumps(..., allow_nan=False)] accepts, which is
    how [requests] encodes the [json=] argument of a request: those that
    hold neither NaN nor an infinity.  ([json.dumps] as [_to_json] calls it
    accepts them all.) *)
Fixpoint encodable (j : json) : bool :=
  match j with
  | JFloat x => isfinite x
  | JArr l => forallb encodable l
  | JObj members => forallb (fun m => encodable (snd m)) members
  | _ => true
  end.

(** ** Dates and [strftime] *)

(** [str(n)] for an int. *)
Definition str_int (n : Z) : string := NilZero.string_of_int (Z.to_int n).

(** The C conversion [%02d]. *)
Definition pad2 (n : Z) : string :=
  if n <? 10 then "0" ++ str_int n else str_int n.

(** [%04d], as [date.isoformat] prints the year. *)
Definition pad4 (n : Z) : string :=
  if n <? 10 then "000" ++ str_int n
  else if n <? 100 then "00" ++ str_int n
  else if n <? 1000 then "0" ++ str_int n
  else str_int n.

(** Abbreviated month names of the locale [en_US.utf8]. *)
Definition abmon_en (month : Z) : string :=
  nth (Z.to_nat (month - 1))
    ["Jan"; "Feb"; "Mar"; "Apr"; "May"; "Jun";
     "Jul"; "Aug"; "Sep"; "Oct"; "Nov"; "Dec"] "".

(** The interpreter of a format string, for the directives of calendar
    dates; [abmon] is the month table of the locale in force.  A year is
    printed without padding, as the C library does. *)
Fixpoint format_date (abmon : Z -> string) (year month day : Z) (fmt : string) : string :=
  match fmt with
  | EmptyString => ""
  | String "%" (String c rest) =>
      (if Ascii.eqb c "d" then pad2 day
       else if Ascii.eqb c "b" then abmon month
       else if Ascii.eqb c "Y" then str_int year
       else if Ascii.eqb c "m" then pad2 month
       else if Ascii.eqb c "%" then "%"
       else String "%" (String c ""))
      ++ format_date abmon year month day rest
  | String c rest => String c (format_date abmon year month day rest)
  end.

(** [str(d)] for a [date]: the ISO form. *)
Definition isoformat (year month day : Z) : string :=
  pad4 year ++ "-" ++ pad2 month ++ "-" ++ pad2 day.

(** ** The process and its environment *)

Record request : Type := {
  req_url : string;
  req_json : json;
  req_headers : list (string * string)
}.

Record response : Type := {
  status_code : Z;
  content : list Byte.byte;
  (** what [response.json()] returns; [None] when the body is not JSON *)
  json_body : option value
}.

(** What lies outside the module: the locale database of the host, the remote
    service, and the builtins whose results are only passed along. *)
Record runtime : Type := {
  (** abbreviated month names of the locales other than [en_US.utf8] *)
  foreign_abmon : string -> Z -> string;
  (** the answer of the service to the latest request, given all the
      requests it has received (latest first) *)
  service : list request -> exn + response;
  (** the UTC reading (year, month, day, microsecond of the day) of an
      instant of the system clock, given in microseconds *)
  utc : Z -> Z * Z * Z * Z;
  (** the builtin [str], for a parsed JSON body *)
  py_str : value -> string;
  (** [datetime.strptime(s, fmt).date()] as (year, month, day) *)
  strptime : string -> string -> option (Z * Z * Z);
  (** the builtin [float], applied to a string *)
  float : string -> option spec_float
}.

(** The state of the running process that the module reads or writes. *)
Record process : Type := {
  lc_all : string;                        (* the locale in force *)
  locales : list string;                  (* the locales installed on the host *)
  files : gmap string (list Byte.byte);   (* the file system *)
  requests : list request;                (* the requests sent, latest first *)
  slept : Z                               (* seconds spent in time.sleep *)
}.

Definition with_locale (l : string) (p : process) : process :=
  {| lc_all := l; locales := locales p; files := files p;
     requests := requests p; slept := slept p |}.
Definition with_file (path : string) (data : list Byte.byte) (p : process) : process :=
  {| lc_all := lc_all p; locales := locales p;
     files := <[path := data]> (files p);
     requests := requests p; slept := slept p |}.
Definition with_request (r : request) (p : process) : process :=
  {| lc_all := lc_all p; locales := locales p; files := files p;
     requests := r :: requests p; slept := slept p |}.
Definition with_sleep (seconds : Z) (p : process) : process :=
  {| lc_all := lc_all p; locales := locales p; files := files p;
     requests := requests p; slept := slept p + seconds |}.

Definition locale_installed (l : string) (p : process) : bool :=
  existsb (String.eqb l) (locales p).

(** [locale.setlocale(locale.LC_ALL, l)] *)
Definition setlocale (l : string) : M process unit :=
  fun p => if locale_installed l p then (inr tt, with_locale l p)
           else (inl (LocaleError "unsupported locale setting"), p).

(** [open(path, "wb").write(data)], for a path that can be opened and a body
    [data] that has arrived: the file is created or truncated and then holds
    [data].  The file system is a map from paths to contents.  Two failures
    of the host are outside the embedding: [open] raising because the
    directory is missing or not writable, and the read of a streamed body
    breaking off after [open] has already emptied the file.  Nothing below
    is stated for them: the properties of a [download] that raises name the
    step that raised, and each of those steps comes before [open]. *)
Definition write_file (path : string) (data : list Byte.byte) : M process unit :=
  modify (with_file path data).

(** [time.sleep(seconds)] *)
Definition sleep (seconds : Z) : M process unit := modify (with_sleep seconds).

(** The process at an instant of the system clock.  The module never sets
    the clock and reads it in one place, [datetime.now]; how long a
    statement takes is left open.  A property that involves the clock is
    therefore stated for programs of this state in which anything may
    happen, and any time may pass, between two statements. *)
Definition timed : Type := Z * process.

(** Time going by: the clock moves on by [us] microseconds. *)
Definition elapse (us : Z) : M timed unit :=
  fun s => (inr tt, (fst s + us, snd s)).

(** ** Serialization, submission and the batch script *)

Definition lift {S A} (r : exn + A) : M S A :=
  match r with inr a => ret a | inl e => raise e end.

(** [for x in l: body(x)] *)
Fixpoint for_each {S A} (body : A -> M S unit) (l : list A) : M S unit :=
  match l with
  | [] => ret tt
  | x :: rest => body x ;;; for_each body rest
  end.

(** The method calls made on a local object that is dropped afterwards. *)
Definition with_object {S A} (obj : dict) (c : M (dict * S) A) : M S A :=
  fun s => let '(r, (_, s')) := c (obj, s) in (r, s').

(** [for index, x in enumerate(lst): lst[index] = x.__dict__] on the elements
    of a list: the list as the loop leaves it and the exception that stopped
    it, if any.  The elements before the failing one are already replaced. *)
Fixpoint unwrap_all (l : list value) : option exn * list value :=
  match l with
  | [] => (None, [])
  | x :: rest =>
      match __dict__ x with
      | inl e => (Some e, x :: rest)
      | inr d => let '(r, rest') := unwrap_all rest in (r, d :: rest')
      end
  end.

(** The same loop on [object_dict[key]].  The list is updated in place, so
    the entry of the dict holds the rewritten list also when the loop raises.
    A value that is not a list cannot be put there by the methods of the
    class; the embedding answers such a value with a [TypeError]. *)
Definition unwrap_elements (key : string) : M dict unit :=
  let* lst := getitem key in
  match lst with
  | VList l =>
      let '(r, l') := unwrap_all l in
      setitem key (VList l') ;;;
      match r with Some e => raise e | None => ret tt end
  | _ => raise (TypeError "object is not a list")
  end.

Definition date_key := "Date (UTC)".
Definition description := "Description".
Definition amount := "Amount".

(** [v < 0] *)
Definition lt_zero (v : value) : exn + bool :=
  match v with
  | VFloat x => inr (SFltb x (S754_zero false))
  | VInt n => inr (n <? 0)
  | VBool _ => inr false
  | _ => inl (TypeError "'<' not supported")
  end.

Definition set_date (d : value) (a : init_args) : init_args :=
  {| a_sender := a_sender a; a_to := a_to a; a_logo := a_logo a;
     a_ship_to := a_ship_to a; a_number := a_number a;
     a_payments_terms := a_payments_terms a; a_due_date := a_due_date a;
     a_notes := a_notes a; a_terms := a_terms a; a_currency := a_currency a;
     a_date := Some d; a_discounts := a_discounts a; a_tax := a_tax a;
     a_shipping := a_shipping a; a_amount_paid := a_amount_paid a |}.

Section Host.
Variable rt : runtime.

(** The month table that [%b] reads in locale [l]. *)
Definition locale_abmon (l : string) : Z -> string :=
  if String.eqb l LOCALE then abmon_en else foreign_abmon rt l.

(** [d.strftime(fmt)], under the locale in force. *)
Definition strftime (fmt : string) (d : value) : M process value :=
  fun p =>
    match d with
    | VDate y m dd | VDatetime y m dd _ =>
        (inr (VStr (format_date (locale_abmon (lc_all p)) y m dd fmt)), p)
    | _ => (inl (AttributeError "strftime"), p)
    end.

(** The builtin [str]: exact on strings, ints and dates, the runtime's
    elsewhere. *)
Definition str (v : value) : string :=
  match v with
  | VStr s => s
  | VInt n => str_int n
  | VDate y m d => isoformat y m d
  | _ => py_str rt v
  end.

(** [InvoiceGenerator._to_json].  [object_dict] is [self.__dict__] itself,
    the first component of the state; every assignment to [object_dict]
    is an assignment to the instance.  The result is the document that the
    returned text denotes. *)
Definition _to_json : M (dict * process) json :=
  on_snd (setlocale LOCALE) ;;;
  let* sender := on_fst (get "sender") in
  on_fst (setitem "from" sender) ;;;
  let* date := on_fst (getattr "date") in
  let* formatted := on_snd (strftime DATE_FORMAT date) in
  on_fst (setitem "date" formatted) ;;;
  let* due := on_fst (getitem "due_date") in
  match due with
  | VNone => ret tt
  | _ =>
      let* due_date := on_fst (getattr "due_date") in
      let* formatted := on_snd (strftime DATE_FORMAT due_date) in
      on_fst (setitem "due_date" formatted)
  end ;;;
  on_fst (pop "sender") ;;;
  on_fst (unwrap_elements "items") ;;;
  on_fst (unwrap_elements "custom_fields") ;;;
  let* template := on_fst (getattr "template") in
  match template with
  | VDict entries => on_fst (modify (dict_update entries))
  | _ => raise (AttributeError "items")
  end ;;;
  on_fst (pop "template") ;;;
  let* object_dict := on_fst get_state in
  lift (dumps (VDict object_dict)).

(** What [requests.post] returns or raises for the latest request of
    [history] (the requests made so far, latest first).  The library encodes
    the document before it opens a connection and raises [InvalidJSONError]
    for one that holds NaN or an infinity; every other request reaches the
    service. *)
Definition server (history : list request) : exn + response :=
  match history with
  | r :: _ =>
      if encodable (req_json r) then service rt history
      else inl InvalidJSONError
  | [] => service rt []
  end.

(** [requests.post(url, json=body, headers=headers)]: a request that can be
    encoded is sent, which the process records, and the service answers (or
    the connection fails); one that cannot is refused and nothing is sent. *)
Definition post (url : string) (body : json) (headers : list (string * string))
  : M process response :=
  fun p =>
    let r := {| req_url := url; req_json := body; req_headers := headers |} in
    (server (r :: requests p),
     if encodable body then with_request r p else p).

(** [datetime.now(tz=pytz.timezone(TIMEZONE))] *)
Definition datetime_now : M timed value :=
  fun s =>
    let '(y, m, d, us) := utc rt (fst s) in (inr (VDatetime y m d us), s).

(** The [class InvoiceGenerator] statement.  Its body runs once, when the
    module is loaded; the [def __init__] statement in it evaluates the
    default of [date] there and then, and the value becomes part of the
    function object. *)
Definition class_statement : M timed init_function :=
  let* date := datetime_now in
  ret {| date_default := date |}.

(** [response.json()] *)
Definition response_json {S} (r : response) : M S value :=
  match json_body r with
  | Some v => ret v
  | None => raise JSONDecodeError
  end.

(** [InvoiceGenerator.download].  [json.loads(json_string)] gives back the
    document that [_to_json] dumped. *)
Definition download (file_path : string) : M (dict * process) unit :=
  let* json_string := _to_json in
  let* response :=
    on_snd (post URL json_string [("Accept-Language", LOCALE)]) in
  if status_code response =? 200 then
    on_snd (write_file file_path (content response))
  else
    let* body := response_json response in
    raise (Exception
             ("Invoice download request returned the following message:"
              ++ str body ++ " Response code = "
              ++ str_int (status_code response) ++ " ")).

(** [clean(record)]: the record is rewritten in place. *)
Definition clean : M dict unit :=
  let* raw_date := getitem date_key in
  let* parsed :=
    match raw_date with
    | VStr s =>
        match strptime rt s "%m-%d-%Y" with
        | Some (y, m, d) => ret (VDate y m d)
        | None => raise (ValueError "time data does not match format")
        end
    | _ => raise (TypeError "strptime() argument 1 must be str")
    end in
  setitem date_key parsed ;;;
  let* raw_amount := getitem amount in
  let* parsed :=
    match raw_amount with
    | VStr s =>
        match float rt s with
        | Some x => ret (VFloat x)
        | None => raise (ValueError "could not convert string to float")
        end
    | _ => raise (TypeError "float() argument must be a string")
    end in
  setitem amount parsed.

(** The body of the loop of the script, for one row of the reader.
    [records] is a lazy [map], so a row is cleaned when the loop reaches
    it. *)
Definition process_row (f : init_function) (record : dict) : M process unit :=
  let* row := (fun p => let '(r, row) := clean record in
                        (match r with inr _ => inr row | inl e => inl e end, p)) in
  let* a := lift (match dict_get amount row with
                  | Some v => inr v | None => inl (KeyError amount) end) in
  let* negative := lift (lt_zero a) in
  if negative : bool then ret tt
  else
    let* to := lift (match dict_get description row with
                     | Some v => inr v | None => inl (KeyError description) end) in
    let* date := lift (match dict_get date_key row with
                       | Some v => inr v | None => inl (KeyError date_key) end) in
    let invoice :=
      __init__ f (set_date date (call_args (VStr "EA2 Consulting") to)) in
    with_object invoice
      (on_fst (add_item (VStr "Consultative services") (VInt 1) a VNone) ;;;
       download ("invoices/" ++ str date ++ ".pdf")) ;;;
    sleep 1.

(** The script, on the rows that [csv.DictReader] yields. *)
Definition main (f : init_function) (reader : list dict) : M process unit :=
  for_each (process_row f) reader.

(** The module run as a program: the class statement, then the block under
    [if __name__ == "__main__"]. *)
Definition script (reader : list dict) : M timed unit :=
  let* f := class_statement in
  on_snd (main f reader).
End Host.

(** A call [InvoiceGenerator(...)], made at some instant: the new instance.
    The body of [__init__] reads its arguments and the function object, and
    nothing of the process or of the clock. *)
Definition InvoiceGenerator (f : init_function) (a : init_args) : M timed dict :=
  fun s => (inr (__init__ f a), s).

(** ** Sessions: the states an invoice goes through before it is serialized *)

Inductive call : Type :=
| AddItem (name quantity unit_cost description : value)
| AddCustomField (name val : value)
| SetTemplateText (template_parameter : string) (val : value)
| ToggleSubtotal (tax discounts shipping : value).

Definition run_call (c : call) : M dict unit :=
  match c with
  | AddItem n q u ds => add_item n q u ds
  | AddCustomField n x => add_custom_field n x
  | SetTemplateText k x => set_template_text k x
  | ToggleSubtotal t d s => toggle_subtotal t d s
  end.

(** The instance after a sequence of calls; a caller that catches the
    [ValueError] of a rejected template key goes on with the next call. *)
Definition run_calls (cs : list call) (d : dict) : dict :=
  fold_left (fun acc c => snd (run_call c acc)) cs d.

(** The states of an instance between its construction and its
    serialization. *)
Inductive reachable : dict -> Prop :=
| reach_init (f : init_function) (a : init_args) : reachable (__init__ f a)
| reach_call (c : call) (d : dict) :
    reachable d -> reachable (snd (run_call c d)).

(** The arguments of the [add_item] calls of a session, in order. *)
Definition added_items (cs : list call) : list (value * value * value * value) :=
  flat_map (fun c => match c with
                     | AddItem n q u ds => [(n, q, u, ds)]
                     | _ => []
                     end) cs.

(** *** What [_to_json] needs in order to succeed *)

Definition is_date (v : value) : bool :=
  match v with
  | VDate _ _ _ | VDatetime _ _ _ _ => true
  | _ => false
  end.

(** [None] or a date: what the due date has to be. *)
Definition is_date_or_none (v : value) : bool :=
  match v with VNone => true | _ => is_date v end.

Definition values_serializable (d : dict) : bool :=
  forallb (fun kv => serializable (snd kv)) d.

Definition attributes_serializable (x : value) : bool :=
  match x with
  | VObj _ attrs => values_serializable attrs
  | _ => false
  end.

(** One attribute of the instance: the issue date is a date, the due date a
    date or [None], the elements of the two lists are objects with
    serializable attributes, and everything else is serializable. *)
Definition attribute_ready (kv : string * value) : bool :=
  let '(k, v) := kv in
  if String.eqb k "date" then is_date v
  else if String.eqb k "due_date" then is_date_or_none v
  else if String.eqb k "items" || String.eqb k "custom_fields" then
    match v with VList l => forallb attributes_serializable l | _ => false end
  else if String.eqb k "template" then
    match v with VDict t => values_serializable t | _ => false end
  else serializable v.

Definition wire_ready (d : dict) : bool := forallb attribute_ready d.

(** The JSON form of a serializable value ([JNull] stands in for the values
    that have none; the statements below apply it to serializable ones). *)
Definition encode (v : value) : json :=
  match dumps v with inr j => j | inl _ => JNull end.

Definition encode_entry (kv : string * value) : string * json :=
  (fst kv, encode (snd kv)).

(** [needle] occurs in [hay]. *)
Definition occurs_in (needle hay : string) : Prop :=
  exists before after, hay = before ++ needle ++ after.

(** *** A typed view of the reachable states *)

(** The attribute values of an instance that no call has corrupted: the
    scalar attributes as the constructor received them, the issue date, and
    the four containers. *)
Record view : Type := {
  v_args : init_args;
  v_date : value;
  v_custom_fields : list (value * value);
  v_items : list (value * value * value * value);
  v_fields : value;
  v_template : dict
}.

Definition item_object (it : value * value * value * value) : value :=
  let '(n, q, u, ds) := it in Item.__init__ n q u ds.
Definition field_object (cf : value * value) : value :=
  CustomField.__init__ (fst cf) (snd cf).

Definition state_of (v : view) : dict :=
  [ ("logo", a_logo (v_args v));
    ("sender", a_sender (v_args v));
    ("to", a_to (v_args v));
    ("ship_to", a_ship_to (v_args v));
    ("number", a_number (v_args v));
    ("currency", a_currency (v_args v));
    ("custom_fields", VList (map field_object (v_custom_fields v)));
    ("date", v_date v);
    ("payment_terms", a_payments_terms (v_args v));
    ("due_date", a_due_date (v_args v));
    ("items", VList (map item_object (v_items v)));
    ("fields", v_fields v);
    ("discounts", a_discounts (v_args v));
    ("tax", a_tax (v_args v));
    ("shipping", a_shipping (v_args v));
    ("amount_paid", a_amount_paid (v_args v));
    ("notes", a_notes (v_args v));
    ("terms", a_terms (v_args v));
    ("template", VDict (v_template v)) ].

Definition init_view (f : init_function) (a : init_args) : view :=
  {| v_args := a;
     v_date := match a_date a with Some d => d | None => date_default f end;
     v_custom_fields := [];
     v_items := [];
     v_fields := VDict [("tax", VStr "%"); ("discounts", VBool false);
                        ("shipping", VBool false)];
     v_template := [] |}.

(** The effect of a call, on the view. *)
Definition apply_call (c : call) (v : view) : view :=
  match c with
  | AddItem n q u ds =>
      {| v_args := v_args v; v_date := v_date v;
         v_custom_fields := v_custom_fields v;
         v_items := v_items v ++ [(n, q, u, ds)];
         v_fields := v_fields v; v_template := v_template v |}
  | AddCustomField n x =>
      {| v_args := v_args v; v_date := v_date v;
         v_custom_fields := v_custom_fields v ++ [(n, x)];
         v_items := v_items v;
         v_fields := v_fields v; v_template := v_template v |}
  | SetTemplateText k x =>
      if is_template_parameter k then
        {| v_args := v_args v; v_date := v_date v;
           v_custom_fields := v_custom_fields v; v_items := v_items v;
           v_fields := v_fields v;
           v_template := dict_set k x (v_template v) |}
      else v
  | ToggleSubtotal t d s =>
      {| v_args := v_args v; v_date := v_date v;
         v_custom_fields := v_custom_fields v; v_items := v_items v;
         v_fields := VDict [("tax", t); ("discounts", d); ("shipping", s)];
         v_template := v_template v |}
  end.

Definition apply_calls (cs : list call) (v : view) : view :=
  fold_left (fun acc c => apply_call c acc) cs v.

(** The instance after a successful [_to_json]: the wire object, built in
    the attribute dictionary itself. *)
Definition formatted (d : value) : value :=
  match d with
  | VDate y m dd | VDatetime y m dd _ =>
      VStr (format_date abmon_en y m dd DATE_FORMAT)
  | _ => d
  end.

Definition item_dict (it : value * value * value * value) : value :=
  let '(n, q, u, ds) := it in
  VDict [("name", n); ("quantity", q); ("unit_cost", u); ("description", ds)].
Definition field_dict (cf : value * value) : value :=
  VDict [("name", fst cf); ("value", snd cf)].

Definition wire_state (v : view) : dict :=
  [ ("logo", a_logo (v_args v));
    ("to", a_to (v_args v));
    ("ship_to", a_ship_to (v_args v));
    ("number", a_number (v_args v));
    ("currency", a_currency (v_args v));
    ("custom_fields", VList (map field_dict (v_custom_fields v)));
    ("date", formatted (v_date v));
    ("payment_terms", a_payments_terms (v_args v));
    ("due_date", formatted (a_due_date (v_args v)));
    ("items", VList (map item_dict (v_items v)));
    ("fields", v_fields v);
    ("discounts", a_discounts (v_args v));
    ("tax", a_tax (v_args v));
    ("shipping", a_shipping (v_args v));
    ("amount_paid", a_amount_paid (v_args v));
    ("notes", a_notes (v_args v));
    ("terms", a_terms (v_args v));
    ("from", a_sender (v_args v)) ]
  ++ v_template v.

(** The names of the attributes of the wire object that are not overrides. *)
Definition wire_attributes : list string :=
  [ "logo"; "sender"; "to"; "ship_to"; "number"; "currency"; "custom_fields";
    "date"; "payment_terms"; "due_date"; "items"; "fields"; "discounts";
    "tax"; "shipping"; "amount_paid"; "notes"; "terms"; "template"; "from" ].

(** The invariant of the template overrides: distinct keys, all allowed. *)
Definition template_ok (t : dict) : Prop :=
  List.NoDup (dict_keys t) /\ forall k, In k (dict_keys t) -> In k TEMPLATE_PARAMETERS.

(** The two dates of a view are such that [strftime] applies. *)
Definition dates_ready (v : view) : bool :=
  is_date (v_date v) && is_date_or_none (a_due_date (v_args v)).

(** A statement that leaves the files, the requests and the installed
    locales of the process as they are. *)
Definition keeps_world {A} (c : M (dict * process) A) : Prop :=
  forall s r s', c s = (r, s') ->
    files (snd s') = files (snd s) /\
    requests (snd s') = requests (snd s) /\
    locales (snd s') = locales (snd s).

(** The calendar date that [strftime] reads from a date or a datetime. *)
Definition calendar (v : value) : option (Z * Z * Z) :=
  match v with
  | VDate y m d | VDatetime y m d _ => Some (y, m, d)
  | _ => None
  end.

(** The JSON form of the attributes of an [Item]. *)
Definition item_json (it : value * value * value * value) : json :=
  let '(n, q, u, ds) := it in
  JObj [("name", encode n); ("quantity", encode q); ("unit_cost", encode u);
        ("description", encode ds)].

(** *** Rows of the batch script *)

(** What [clean] makes of a row that it accepts. *)
Record transaction : Type := {
  t_date : Z * Z * Z;
  t_description : value;
  t_amount : spec_float
}.

(** The reader yields [record], and [clean] turns it into [t]: the date and
    amount columns hold strings that [strptime] and [float] parse. *)
Definition reads (rt : runtime) (record : dict) (t : transaction) : Prop :=
  exists raw_date raw_amount,
    dict_get date_key record = Some (VStr raw_date) /\
    strptime rt raw_date "%m-%d-%Y" = Some (t_date t) /\
    dict_get amount record = Some (VStr raw_amount) /\
    float rt raw_amount = Some (t_amount t) /\
    dict_get description record = Some (t_description t).

(** The request that [download] sends for a document. *)
Definition submission (document : json) : request :=
  {| req_url := URL; req_json := document;
     req_headers := [("Accept-Language", LOCALE)] |}.

(** ** Sample data *)

Module Sample.
(** 100.0, -50.0 and 0.0 *)
Definition hundred : spec_float := S754_finite false 25 2.
Definition minus_fifty : spec_float := S754_finite true 25 1.
Definition zero : spec_float := S754_zero false.

Definition pdf : list Byte.byte := [Byte.x25; Byte.x50; Byte.x44; Byte.x46].

Definition accepted : response :=
  {| status_code := 200; content := pdf; json_body := None |}.
Definition rejected : response :=
  {| status_code := 404; content := [];
     json_body := Some (VDict [("error", VStr "bad request")]) |}.

(** A host whose service accepts the first request it receives and rejects
    the following ones. *)
Definition rt : runtime :=
  {| foreign_abmon := fun _ _ => "";
     service := fun history =>
                  match history with
                  | [_] => inr accepted
                  | _ => inr rejected
                  end;
     utc := fun t => (2024, 1, 1 + t / 86400000000, t mod 86400000000);
     py_str := fun v =>
                 match v with
                 | VDict [(k, VStr s)] => "{'" ++ k ++ "': '" ++ s ++ "'}"
                 | _ => "<object>"
                 end;
     strptime := fun s _ =>
                   if String.eqb s "01-05-2024" then Some (2024, 1, 5)
                   else if String.eqb s "01-06-2024" then Some (2024, 1, 6)
                   else None;
     float := fun s =>
                if String.eqb s "100" then Some hundred
                else if String.eqb s "-50" then Some minus_fifty
                else if String.eqb s "0" then Some zero
                else if String.eqb s "nan" then Some S754_nan
                else if String.eqb s "inf" then Some (S754_infinity false)
                else None |}.

Definition host : process :=
  {| lc_all := "C"; locales := ["C"; "en_US.utf8"]; files := ∅;
     requests := []; slept := 0 |}.

(** The same host after an earlier request. *)
Definition busy_host : process :=
  with_request (submission JNull) host.

Definition f : init_function := class_body 2023 12 31 0.

Definition session : list call :=
  [ AddItem (VStr "Design") (VInt 2) (VFloat hundred) VNone;
    SetTemplateText "header" (VStr "TAX INVOICE");
    AddItem (VStr "Refund") (VInt (-1)) (VInt 0) (VStr "credit note");
    AddCustomField (VStr "PO") (VStr "7");
    ToggleSubtotal (VStr "%") (VBool true) (VBool false) ].

Definition invoice : dict :=
  run_calls session
    (__init__ f (set_date (VDate 2024 1 5) (call_args (VStr "me") (VStr "you")))).

Definition row (date desc amt : string) : dict :=
  [(date_key, VStr date); (description, VStr desc); (amount, VStr amt)].

Definition row_a : dict := row "01-05-2024" "A" "100".
Definition row_b : dict := row "01-06-2024" "B" "-50".
Definition row_zero : dict := row "01-06-2024" "Z" "0".

Definition transaction_a : transaction :=
  {| t_date := (2024, 1, 5); t_description := VStr "A"; t_amount := hundred |}.
Definition transaction_b : transaction :=
  {| t_date := (2024, 1, 6); t_description := VStr "B"; t_amount := minus_fifty |}.
Definition transaction_zero : transaction :=
  {| t_date := (2024, 1, 6); t_description := VStr "Z"; t_amount := zero |}.
End Sample.

(** ** Further notions for the properties of the remaining code *)

(** A statement that leaves the whole process as it is. *)
Definition keeps_process {A} (c : M (dict * process) A) : Prop :=
  forall s r s', c s = (r, s') -> snd s' = snd s.

(** The attributes that the constructor assigns, in the order of the
    assignments. *)
Definition constructor_attributes : list string :=
  [ "logo"; "sender"; "to"; "ship_to"; "number"; "currency"; "custom_fields";
    "date"; "payment_terms"; "due_date"; "items"; "fields"; "discounts";
    "tax"; "shipping"; "amount_paid"; "notes"; "terms"; "template" ].

(** The members of the document in front of the template overrides. *)
Definition document_attributes : list string :=
  [ "logo"; "to"; "ship_to"; "number"; "currency"; "custom_fields"; "date";
    "payment_terms"; "due_date"; "items"; "fields"; "discounts"; "tax";
    "shipping"; "amount_paid"; "notes"; "terms"; "from" ].

(** The arguments of the [add_custom_field] calls of a session, in order. *)
Definition added_fields (cs : list call) : list (value * value) :=
  flat_map (fun c => match c with
                     | AddCustomField n x => [(n, x)]
                     | _ => []
                     end) cs.

(** The arguments of the last [toggle_subtotal] call of a session. *)
Definition last_toggle (cs : list call) : option (value * value * value) :=
  fold_left (fun acc c => match c with
                          | ToggleSubtotal t d s => Some (t, d, s)
                          | _ => acc
                          end) cs None.

(** The two dates of an instance are such that [strftime] applies. *)
Definition dates_in_place (d : dict) : bool :=
  match dict_get "date" d, dict_get "due_date" d with
  | Some date, Some due => is_date date && is_date_or_none due
  | _, _ => false
  end.

(** The attributes that hold the arguments of the constructor unchanged,
    each with the argument it holds.  The parameter [payments_terms] is
    stored as [payment_terms]. *)
Definition scalar_attributes (a : init_args) : list (string * value) :=
  [ ("logo", a_logo a); ("to", a_to a); ("ship_to", a_ship_to a);
    ("number", a_number a); ("currency", a_currency a);
    ("payment_terms", a_payments_terms a); ("discounts", a_discounts a);
    ("tax", a_tax a); ("shipping", a_shipping a);
    ("amount_paid", a_amount_paid a); ("notes", a_notes a);
    ("terms", a_terms a) ].

(** The call is not a [set_template_text] with a key outside the
    allow-list. *)
Definition accepted_call (c : call) : bool :=
  match c with
  | SetTemplateText k _ => is_template_parameter k
  | _ => true
  end.

(** The attribute that a call works on. *)
Definition target (c : call) : string :=
  match c with
  | AddItem _ _ _ _ => "items"
  | AddCustomField _ _ => "custom_fields"
  | SetTemplateText _ _ => "template"
  | ToggleSubtotal _ _ _ => "fields"
  end.

(** *** The batch script, row by row *)

(** The file that the script writes for a row of the given date. *)
Definition row_path (date : Z * Z * Z) : string :=
  let '(y, m, d) := date in "invoices/" ++ isoformat y m d ++ ".pdf".

(** The document that the script submits for a row: recipient, date and
    amount come from the row, everything else is a constant of the script
    or a default of the constructor. *)
Definition row_document (to : json) (date : Z * Z * Z) (x : spec_float) : json :=
  let '(y, m, d) := date in
  JObj [ ("logo", JNull);
         ("to", to);
         ("ship_to", JNull);
         ("number", JNull);
         ("currency", JStr "USD");
         ("custom_fields", JArr []);
         ("date", JStr (pad2 d ++ " " ++ abmon_en m ++ " " ++ str_int y));
         ("payment_terms", JNull);
         ("due_date", JNull);
         ("items",
           JArr [JObj [("name", JStr "Consultative services");
                       ("quantity", JInt 1);
                       ("unit_cost", JFloat x);
                       ("description", JNull)]]);
         ("fields",
           JObj [("tax", JStr "%"); ("discounts", JBool false);
                 ("shipping", JBool false)]);
         ("discounts", JInt 0);
         ("tax", JInt 0);
         ("shipping", JInt 0);
         ("amount_paid", JInt 0);
         ("notes", JNull);
         ("terms", JNull);
         ("from", JStr "EA2 Consulting") ].

(** The request that the script sends for a transaction. *)
Definition row_request (t : transaction) : request :=
  submission (row_document (encode (t_description t)) (t_date t) (t_amount t)).

(** The rows that the script does not skip. *)
Definition invoiced (t : transaction) : bool :=
  negb (SFltb (t_amount t) (S754_zero false)).

(** The number that a string of decimal digits denotes. *)
Fixpoint digits_value (s : string) (acc : Z) : Z :=
  match s with
  | EmptyString => acc
  | String c rest =>
      digits_value rest (10 * acc + (Z.of_nat (nat_of_ascii c) - 48))
  end.

(** The dates that a [date] object can hold, leap years apart. *)
Definition date_in_range (date : Z * Z * Z) : Prop :=
  let '(y, m, d) := date in
  1 <= y <= 9999 /\ 1 <= m <= 12 /\ 1 <= d <= 31.

(** *** Further sample data *)

Module Cases.
(** An invoice whose issue date was passed as a string. *)
Definition dated_by_string : dict :=
  __init__ Sample.f
    (set_date (VStr "2024-01-05") (call_args (VStr "me") (VStr "you"))).

(** An invoice whose due date was passed as a string. *)
Definition due_by_string : dict :=
  __init__ Sample.f
    {| a_sender := VStr "me"; a_to := VStr "you"; a_logo := VNone;
       a_ship_to := VNone; a_number := VNone; a_payments_terms := VNone;
       a_due_date := VStr "2024-02-05"; a_notes := VNone; a_terms := VNone;
       a_currency := VStr "USD"; a_date := Some (VDate 2024 1 5);
       a_discounts := VInt 0; a_tax := VInt 0; a_shipping := VInt 0;
       a_amount_paid := VInt 0 |}.

(** An invoice with an item whose name is a date object. *)
Definition with_date_item : dict :=
  run_calls [AddItem (VDate 2024 1 5) (VInt 1) (VInt 10) VNone]
    (__init__ Sample.f (call_args (VStr "me") (VStr "you"))).

(** A row whose amount is not a number, and one whose date is not a date. *)
Definition row_bad_amount : dict := Sample.row "01-05-2024" "C" "n/a".
Definition row_bad_date : dict := Sample.row "2024-01-05" "D" "100".

(** An invoice of 9 February 999. *)
Definition dated_999 : dict :=
  __init__ Sample.f
    (set_date (VDate 999 2 9) (call_args (VStr "me") (VStr "you"))).

(** An invoice with an item whose unit cost is NaN. *)
Definition priced_nan : dict :=
  run_calls [AddItem (VStr "Design") (VInt 1) (VFloat S754_nan) VNone]
    (__init__ Sample.f
       (set_date (VDate 2024 1 5) (call_args (VStr "me") (VStr "you")))).

(** Rows whose amount column reads [nan] and [inf]. *)
Definition row_nan : dict := Sample.row "01-05-2024" "N" "nan".
Definition transaction_nan : transaction :=
  {| t_date := (2024, 1, 5); t_description := VStr "N"; t_amount := S754_nan |}.
Definition row_inf : dict := Sample.row "01-06-2024" "I" "inf".
Definition transaction_inf : transaction :=
  {| t_date := (2024, 1, 6); t_description := VStr "I";
     t_amount := S754_infinity false |}.

(** A second row of 5 January. *)
Definition row_a' : dict := Sample.row "01-05-2024" "E" "0".
Definition transaction_a' : transaction :=
  {| t_date := (2024, 1, 5); t_description := VStr "E";
     t_amount := Sample.zero |}.

(** A service that accepts every request and answers with the number of
    requests received so far as the only byte of the body. *)
Definition counting_rt : runtime :=
  {| foreign_abmon := foreign_abmon Sample.rt;
     service := fun history =>
                  inr {| status_code := 200;
                         content := match history with
                                    | [_] => [Byte.x01]
                                    | [_; _] => [Byte.x02]
                                    | _ => [Byte.x00]
                                    end;
                         json_body := None |};
     utc := utc Sample.rt;
     py_str := py_str Sample.rt;
     strptime := strptime Sample.rt;
     float := float Sample.rt |}.

(** A host on which the first request does not get through and the later
    ones are answered by an error page. *)
Definition error_page : response :=
  {| status_code := 500; content := []; json_body := None |}.
Definition failing_rt : runtime :=
  {| foreign_abmon := foreign_abmon Sample.rt;
     service := fun history =>
                  match history with
                  | [_] => inl ConnectionError
                  | _ => inr error_page
                  end;
     utc := utc Sample.rt;
     py_str := py_str Sample.rt;
     strptime := strptime Sample.rt;
     float := float Sample.rt |}.
End Cases.

(** * Verification *)

(** ** Facts about dicts *)

Section DictFacts.
Context {A : Type}.
Implicit Types (d : list (string * A)) (k : string) (v : A).

Lemma dict_get_set_eq k v d : dict_get k (dict_set k v d) = Some v.
Proof.
  induction d as [|[k' v'] d IH]; simpl.
  - now rewrite String.eqb_refl.
  - destruct (String.eqb k k') eqn:E; simpl.
    + now rewrite String.eqb_refl.
    + now rewrite E.
Qed.

Lemma dict_get_set_ne k k' v d :
  k <> k' -> dict_get k' (dict_set k v d) = dict_get k' d.
Proof.
  intros Hne. induction d as [|[k0 v0] d IH]; simpl.
  - destruct (String.eqb_spec k' k); congruence.
  - destruct (String.eqb_spec k k0) as [->|Hk]; simpl.
    + destruct (String.eqb_spec k' k0); congruence.
    + now rewrite IH.
Qed.

Lemma dict_get_None k d : dict_get k d = None <-> ~ In k (dict_keys d).
Proof.
  induction d as [|[k' v'] d IH]; simpl.
  - tauto.
  - destruct (String.eqb_spec k k') as [->|Hk].
    + split; [discriminate | intros H; exfalso; apply H; now left].
    + rewrite IH. split; intros H; [intros [E|E]; congruence | tauto].
Qed.

Lemma dict_get_Some_keys k v d : dict_get k d = Some v -> In k (dict_keys d).
Proof.
  intros H. destruct (in_dec String.string_dec k (dict_keys d)) as [Hin|Hout].
  - exact Hin.
  - apply dict_get_None in Hout. congruence.
Qed.

Lemma dict_keys_set k v d k' :
  In k' (dict_keys (dict_set k v d)) <-> k' = k \/ In k' (dict_keys d).
Proof.
  induction d as [|[k0 v0] d IH]; simpl.
  - intuition congruence.
  - destruct (String.eqb_spec k k0) as [->|Hk]; simpl.
    + intuition congruence.
    + rewrite IH. intuition congruence.
Qed.

Lemma dict_set_fresh k v d :
  ~ In k (dict_keys d) -> dict_set k v d = (d ++ [(k, v)])%list.
Proof.
  induction d as [|[k0 v0] d IH]; simpl; intros Hout.
  - reflexivity.
  - destruct (String.eqb_spec k k0) as [->|Hk].
    + exfalso. apply Hout. now left.
    + rewrite IH; [reflexivity | tauto].
Qed.

Lemma dict_set_NoDup k v d :
  List.NoDup (dict_keys d) -> List.NoDup (dict_keys (dict_set k v d)).
Proof.
  induction d as [|[k0 v0] d IH]; simpl; intros Hnd.
  - constructor; [simpl; tauto | constructor].
  - inversion Hnd as [|? ? Hout Hrest]; subst.
    destruct (String.eqb_spec k k0) as [->|Hk]; simpl.
    + now constructor.
    + constructor; [|now apply IH].
      intros Hin. apply dict_keys_set in Hin. destruct Hin; congruence.
Qed.

Lemma dict_keys_app d1 d2 :
  dict_keys (d1 ++ d2) = (dict_keys d1 ++ dict_keys d2)%list.
Proof. apply map_app. Qed.

Lemma dict_get_app_r k d1 d2 :
  ~ In k (dict_keys d1) -> dict_get k (d1 ++ d2) = dict_get k d2.
Proof.
  induction d1 as [|[k0 v0] d1 IH]; simpl; intros Hout.
  - reflexivity.
  - destruct (String.eqb_spec k k0) as [->|Hk]; [tauto|].
    apply IH. tauto.
Qed.

(** Overrides whose keys are new and pairwise distinct are appended in
    their order. *)
Lemma dict_update_fresh src d :
  List.NoDup (dict_keys src) ->
  (forall k, In k (dict_keys src) -> ~ In k (dict_keys d)) ->
  dict_update src d = (d ++ src)%list.
Proof.
  unfold dict_update. revert d.
  induction src as [|[k v] src IH]; simpl; intros d Hnd Hfresh.
  - now rewrite app_nil_r.
  - inversion Hnd as [|? ? Hout Hrest]; subst.
    rewrite dict_set_fresh by (apply Hfresh; now left).
    rewrite IH; [now rewrite <- app_assoc | exact Hrest |].
    intros k' Hin. rewrite dict_keys_app, in_app_iff. simpl.
    intros [Hd|[->|[]]]; [|tauto].
    apply (Hfresh k'); [now right | exact Hd].
Qed.
End DictFacts.

Lemma dict_get_map_encode (k : string) (d : dict) :
  dict_get k (map encode_entry d) = option_map encode (dict_get k d).
Proof.
  induction d as [|[k' v] d IH]; simpl; [reflexivity|].
  destruct (String.eqb k k'); [reflexivity | exact IH].
Qed.

(** ** The allow-list *)

Lemma is_template_parameter_In (k : string) :
  is_template_parameter k = true <-> In k TEMPLATE_PARAMETERS.
Proof.
  unfold is_template_parameter. rewrite existsb_exists. split.
  - intros [k' [Hin Heq]]. apply String.eqb_eq in Heq. now subst.
  - intros Hin. exists k. split; [exact Hin | apply String.eqb_refl].
Qed.

Lemma template_parameter_not_attribute (k : string) :
  In k TEMPLATE_PARAMETERS -> ~ In k wire_attributes.
Proof.
  intros Hin Hattr.
  assert (H : existsb (fun a => existsb (String.eqb a) wire_attributes)
                TEMPLATE_PARAMETERS = false) by (vm_compute; reflexivity).
  assert (H' : existsb (fun a => existsb (String.eqb a) wire_attributes)
                 TEMPLATE_PARAMETERS = true).
  { apply existsb_exists. exists k. split; [exact Hin|].
    apply existsb_exists. exists k. split; [exact Hattr | apply String.eqb_refl]. }
  congruence.
Qed.

(** ** The calls refine their effect on the view *)

Lemma init_state_of (f : init_function) (a : init_args) :
  __init__ f a = state_of (init_view f a).
Proof. reflexivity. Qed.

Lemma run_call_state_of (c : call) (v : view) :
  snd (run_call c (state_of v)) = state_of (apply_call c v).
Proof.
  destruct c as [n q u ds|n x|k x|t d s]; simpl.
  - unfold add_item, append_to, bind, getattr, state_of; simpl.
    now rewrite map_app.
  - unfold add_custom_field, append_to, bind, getattr, state_of; simpl.
    now rewrite map_app.
  - unfold set_template_text. destruct (is_template_parameter k); reflexivity.
  - reflexivity.
Qed.

Lemma apply_call_template_ok (c : call) (v : view) :
  template_ok (v_template v) -> template_ok (v_template (apply_call c v)).
Proof.
  intros [Hnd Hsub].
  destruct c as [n q u ds|n x|k x|t d s]; simpl; try (split; assumption).
  destruct (is_template_parameter k) eqn:E; simpl; [|split; assumption].
  split; [now apply dict_set_NoDup|].
  intros k' Hin. apply dict_keys_set in Hin. destruct Hin as [->|Hin].
  - now apply is_template_parameter_In.
  - now apply Hsub.
Qed.

Lemma run_calls_state_of (cs : list call) (v : view) :
  run_calls cs (state_of v) = state_of (apply_calls cs v).
Proof.
  unfold run_calls, apply_calls. revert v.
  induction cs as [|c cs IH]; simpl; intros v; [reflexivity|].
  now rewrite run_call_state_of, IH.
Qed.

Lemma apply_calls_template_ok (cs : list call) (v : view) :
  template_ok (v_template v) -> template_ok (v_template (apply_calls cs v)).
Proof.
  unfold apply_calls. revert v.
  induction cs as [|c cs IH]; simpl; intros v Hok; [exact Hok|].
  apply IH. now apply apply_call_template_ok.
Qed.

Lemma reachable_view (d : dict) :
  reachable d -> exists v, d = state_of v /\ template_ok (v_template v).
Proof.
  induction 1 as [f a|c d Hd [v [-> Hok]]].
  - exists (init_view f a). split; [reflexivity|].
    split; simpl; [constructor | tauto].
  - exists (apply_call c v). split.
    + apply run_call_state_of.
    + now apply apply_call_template_ok.
Qed.

Lemma run_calls_reachable (cs : list call) (d : dict) :
  reachable d -> reachable (run_calls cs d).
Proof.
  unfold run_calls. revert d.
  induction cs as [|c cs IH]; simpl; intros d Hd; [exact Hd|].
  apply IH. now constructor.
Qed.

(** ** Serializable values *)

Lemma serializable_dumps (v : value) :
  serializable v = true -> dumps v = inr (encode v).
Proof.
  unfold serializable, encode. destruct (dumps v); [discriminate | reflexivity].
Qed.

Lemma traverse_entries (d : dict) :
  values_serializable d = true ->
  traverse (fun kv => match dumps (snd kv) with
                      | inl e => inl e
                      | inr j => inr (fst kv, j)
                      end) d
  = inr (map encode_entry d).
Proof.
  unfold values_serializable.
  induction d as [|[k v] d IH]; simpl; intros H; [reflexivity|].
  apply andb_true_iff in H. destruct H as [Hv Hd].
  rewrite (serializable_dumps v Hv), (IH Hd). reflexivity.
Qed.

Lemma dumps_dict (d : dict) :
  values_serializable d = true ->
  dumps (VDict d) = inr (JObj (map encode_entry d)).
Proof. intros H. simpl. now rewrite traverse_entries. Qed.

Lemma traverse_dumps (l : list value) :
  forallb serializable l = true -> traverse dumps l = inr (map encode l).
Proof.
  induction l as [|v l IH]; simpl; intros H; [reflexivity|].
  apply andb_true_iff in H. destruct H as [Hv Hl].
  rewrite (serializable_dumps v Hv), (IH Hl). reflexivity.
Qed.

Lemma dumps_list (l : list value) :
  forallb serializable l = true ->
  dumps (VList l) = inr (JArr (map encode l)).
Proof. intros H. simpl. now rewrite traverse_dumps. Qed.

Lemma values_serializable_app (d1 d2 : dict) :
  values_serializable (d1 ++ d2)
  = values_serializable d1 && values_serializable d2.
Proof. apply forallb_app. Qed.

(** ** The loops of [_to_json] on a well-formed instance *)

Lemma unwrap_all_items (l : list (value * value * value * value)) :
  unwrap_all (map item_object l) = (None, map item_dict l).
Proof.
  induction l as [|[[[n q] u] ds] l IH]; simpl; [reflexivity|].
  now rewrite IH.
Qed.

Lemma unwrap_all_fields (l : list (value * value)) :
  unwrap_all (map field_object l) = (None, map field_dict l).
Proof.
  induction l as [|[n x] l IH]; simpl; [reflexivity|].
  now rewrite IH.
Qed.

Lemma serializable_dict (d : dict) :
  values_serializable d = true -> serializable (VDict d) = true.
Proof. intros H. unfold serializable. now rewrite dumps_dict. Qed.

Lemma serializable_list (l : list value) :
  forallb serializable l = true -> serializable (VList l) = true.
Proof. intros H. unfold serializable. now rewrite dumps_list. Qed.

Lemma item_dicts_serializable (l : list (value * value * value * value)) :
  forallb attributes_serializable (map item_object l) = true ->
  forallb serializable (map item_dict l) = true.
Proof.
  induction l as [|[[[n q] u] ds] l IH]; intros H; [reflexivity|].
  cbn [map forallb] in *.
  apply andb_true_iff in H. destruct H as [Hit Hl].
  rewrite (IH Hl), andb_true_r.
  apply serializable_dict. exact Hit.
Qed.

Lemma field_dicts_serializable (l : list (value * value)) :
  forallb attributes_serializable (map field_object l) = true ->
  forallb serializable (map field_dict l) = true.
Proof.
  induction l as [|[n x] l IH]; intros H; [reflexivity|].
  cbn [map forallb] in *.
  apply andb_true_iff in H. destruct H as [Hit Hl].
  rewrite (IH Hl), andb_true_r.
  apply serializable_dict. exact Hit.
Qed.

Lemma traverse_dumps_inv (l : list value) (js : list json) :
  traverse dumps l = inr js -> forallb serializable l = true.
Proof.
  revert js. induction l as [|v l IH]; simpl; intros js H; [reflexivity|].
  unfold serializable at 1. destruct (dumps v); [discriminate|].
  destruct (traverse dumps l) as [e|js'] eqn:E; [discriminate|].
  simpl. now apply (IH js').
Qed.

Lemma serializable_list_inv (l : list value) :
  serializable (VList l) = true -> forallb serializable l = true.
Proof.
  unfold serializable at 1. simpl.
  destruct (traverse dumps l) as [e|js] eqn:E; [discriminate|].
  intros _. now apply (traverse_dumps_inv l js).
Qed.

Lemma traverse_entries_inv (d : dict) (ms : list (string * json)) :
  traverse (fun kv => match dumps (snd kv) with
                      | inl e => inl e
                      | inr j => inr (fst kv, j)
                      end) d = inr ms ->
  values_serializable d = true.
Proof.
  unfold values_serializable.
  revert ms. induction d as [|[k v] d IH]; simpl; intros ms H; [reflexivity|].
  unfold serializable at 1. destruct (dumps v); [discriminate|].
  destruct (traverse _ d) as [e|ms'] eqn:E; [discriminate|].
  simpl. now apply (IH ms').
Qed.

Lemma dumps_dict_inv (d : dict) (j : json) :
  dumps (VDict d) = inr j -> values_serializable d = true.
Proof.
  simpl. destruct (traverse _ d) as [e|ms] eqn:E; [discriminate|].
  intros _. now apply (traverse_entries_inv d ms).
Qed.

Lemma serializable_dict_inv (d : dict) :
  serializable (VDict d) = true -> values_serializable d = true.
Proof.
  unfold serializable at 1. destruct (dumps (VDict d)) as [e|j] eqn:E;
    [discriminate|].
  intros _. now apply (dumps_dict_inv d j).
Qed.

Lemma item_dicts_serializable_inv (l : list (value * value * value * value)) :
  forallb serializable (map item_dict l) = true ->
  forallb attributes_serializable (map item_object l) = true.
Proof.
  induction l as [|[[[n q] u] ds] l IH]; intros H; [reflexivity|].
  cbn [map forallb] in *.
  apply andb_true_iff in H. destruct H as [Hit Hl].
  rewrite (IH Hl), andb_true_r.
  apply serializable_dict_inv in Hit. exact Hit.
Qed.

Lemma field_dicts_serializable_inv (l : list (value * value)) :
  forallb serializable (map field_dict l) = true ->
  forallb attributes_serializable (map field_object l) = true.
Proof.
  induction l as [|[n x] l IH]; intros H; [reflexivity|].
  cbn [map forallb] in *.
  apply andb_true_iff in H. destruct H as [Hit Hl].
  rewrite (IH Hl), andb_true_r.
  apply serializable_dict_inv in Hit. exact Hit.
Qed.

(** ** [_to_json] on a well-formed instance *)

Ltac split_andb H :=
  repeat match type of H with
         | (_ && _) = true =>
             let H1 := fresh "Hs" in
             apply andb_true_iff in H; destruct H as [H1 H]
         end.

(** The record projections that the evaluation of a state goes through. *)
Ltac project_in H :=
  cbn [forallb attribute_ready String.eqb Ascii.eqb Bool.eqb orb snd
       v_args v_date v_items v_custom_fields v_fields v_template
       a_logo a_sender a_to a_ship_to a_number a_currency a_payments_terms
       a_due_date a_discounts a_tax a_shipping a_amount_paid a_notes
       a_terms] in H.

Lemma template_key_fresh (t d : dict) (k : string) :
  template_ok t ->
  (forall a, In a (dict_keys d) -> In a wire_attributes) ->
  In k (dict_keys t) -> ~ In k (dict_keys d).
Proof.
  intros [_ Hsub] Hd Hk Hin.
  apply (template_parameter_not_attribute k); auto.
Qed.

Lemma attribute_not_override (t : dict) (a : string) :
  template_ok t -> In a wire_attributes -> dict_get a t = None.
Proof.
  intros [_ Hsub] Ha. apply dict_get_None. intros Hin.
  apply (template_parameter_not_attribute a); auto.
Qed.

Lemma wire_ready_view (v : view) :
  wire_ready (state_of v) = true ->
  serializable (a_sender (v_args v)) = true /\
  is_date (v_date v) = true /\
  forallb attributes_serializable (map item_object (v_items v)) = true /\
  values_serializable (v_template v) = true /\
  dates_ready v = true.
Proof.
  intros Hready.
  destruct v as [a dt cfs its flds tpl]. destruct a.
  unfold wire_ready, state_of in Hready. project_in Hready.
  split_andb Hready. unfold dates_ready. simpl.
  rewrite Hs6, Hs8. auto.
Qed.

Lemma wire_state_serializable (v : view) :
  wire_ready (state_of v) = true -> values_serializable (wire_state v) = true.
Proof.
  intros Hready.
  destruct v as [a dt cfs its flds tpl]. destruct a.
  unfold wire_ready, state_of in Hready. project_in Hready.
  split_andb Hready.
  pose proof (serializable_list _ (field_dicts_serializable _ Hs5)) as Hcfs.
  pose proof (serializable_list _ (item_dicts_serializable _ Hs9)) as Hits.
  unfold wire_state. rewrite values_serializable_app.
  apply andb_true_iff. split; [|assumption].
  unfold values_serializable.
  cbn [forallb snd v_args v_date v_items v_custom_fields v_fields
       a_logo a_sender a_to a_ship_to a_number a_currency a_payments_terms
       a_due_date a_discounts a_tax a_shipping a_amount_paid a_notes a_terms].
  destruct dt; try discriminate Hs6;
    destruct a_due_date0; try discriminate Hs8.
  all: repeat (apply andb_true_iff; split);
    solve [assumption | reflexivity].
Qed.

(** Conversely, an instance whose wire object is serializable was ready. *)
Lemma wire_ready_intro (v : view) :
  dates_ready v = true ->
  values_serializable (wire_state v) = true ->
  wire_ready (state_of v) = true.
Proof.
  intros Hdates Hwire.
  destruct v as [a dt cfs its flds tpl]. destruct a.
  unfold dates_ready in Hdates. project_in Hdates.
  apply andb_true_iff in Hdates. destruct Hdates as [Hdate Hdue].
  unfold wire_state in Hwire. rewrite values_serializable_app in Hwire.
  apply andb_true_iff in Hwire. destruct Hwire as [Hattrs Htpl].
  unfold values_serializable in Hattrs. project_in Hattrs.
  split_andb Hattrs.
  apply serializable_list_inv, field_dicts_serializable_inv in Hs4.
  apply serializable_list_inv, item_dicts_serializable_inv in Hs8.
  unfold wire_ready, state_of.
  cbn [forallb attribute_ready String.eqb Ascii.eqb Bool.eqb orb
       v_args v_date v_items v_custom_fields v_fields v_template
       a_logo a_sender a_to a_ship_to a_number a_currency a_payments_terms
       a_due_date a_discounts a_tax a_shipping a_amount_paid a_notes a_terms].
  cbn [v_template] in Htpl.
  repeat (apply andb_true_iff; split); solve [assumption | reflexivity].
Qed.

Section Serialization.
Variable rt : runtime.

Local Arguments format_date : simpl never.
Local Arguments dict_update : simpl never.
Local Arguments dumps : simpl never.

(** With dates in place, [_to_json] rewrites the attribute dictionary into
    the wire object and ends with [json.dumps] of it: the instance is
    rewritten whether or not the dump succeeds. *)
Lemma to_json_rewrites (v : view) (p : process) :
  dates_ready v = true ->
  template_ok (v_template v) ->
  locale_installed LOCALE p = true ->
  _to_json rt (state_of v, p)
  = lift (dumps (VDict (wire_state v))) (wire_state v, with_locale LOCALE p).
Proof.
  intros Hdates Hok Hloc.
  destruct v as [a dt cfs its flds tpl]. destruct a.
  unfold dates_ready in Hdates. project_in Hdates.
  apply andb_true_iff in Hdates. destruct Hdates as [Hdate Hdue].
  cbn [v_template] in Hok.
  assert (Hfresh : forall d : dict,
             (forall k, In k (dict_keys d) -> In k wire_attributes) ->
             dict_update tpl d = (d ++ tpl)%list).
  { intros d Hd. apply dict_update_fresh; [apply Hok|].
    intros k Hk. now apply (template_key_fresh tpl d k). }
  unfold _to_json, bind, on_snd, on_fst, setlocale.
  cbn [fst snd]. rewrite Hloc.
  destruct dt; try discriminate Hdate;
    destruct a_due_date0; try discriminate Hdue.
  all: cbn.
  all: rewrite unwrap_all_items; cbn.
  all: rewrite unwrap_all_fields; cbn.
  all: rewrite Hfresh
    by (cbn; intros k Hk; unfold wire_attributes; simpl; tauto).
  all: reflexivity.
Qed.

(** The first serialization of a ready instance succeeds; it returns the
    JSON form of the wire object and leaves the wire object as the state of
    the instance. *)
Lemma to_json_state_of (v : view) (p : process) :
  wire_ready (state_of v) = true ->
  template_ok (v_template v) ->
  locale_installed LOCALE p = true ->
  _to_json rt (state_of v, p)
  = (inr (JObj (map encode_entry (wire_state v))),
     (wire_state v, with_locale LOCALE p)).
Proof.
  intros Hready Hok Hloc.
  rewrite to_json_rewrites; [|apply (wire_ready_view v Hready)|exact Hok|exact Hloc].
  rewrite dumps_dict by now apply wire_state_serializable.
  reflexivity.
Qed.

(** A further serialization stops at the date: the attribute now holds the
    formatted string.  By then ["from"] has been overwritten with the
    result of [object_dict.get("sender")], which is [None]. *)
Lemma to_json_wire_state (v : view) (p : process) :
  is_date (v_date v) = true ->
  template_ok (v_template v) ->
  locale_installed LOCALE p = true ->
  _to_json rt (wire_state v, p)
  = (inl (AttributeError "strftime"),
     (dict_set "from" VNone (wire_state v), with_locale LOCALE p)).
Proof.
  intros Hdate Hok Hloc.
  destruct v as [a dt cfs its flds tpl].
  cbn [v_date v_template] in Hdate, Hok.
  pose proof (attribute_not_override tpl "sender" Hok) as Hsender.
  unfold _to_json, bind, on_snd, on_fst, setlocale.
  cbn [fst snd]. rewrite Hloc.
  destruct dt; try discriminate Hdate.
  all: cbn.
  all: rewrite Hsender by (unfold wire_attributes; simpl; tauto).
  all: reflexivity.
Qed.

(** Without the locale, or with something else than a date where a date is
    expected, the call raises. *)
Lemma to_json_needs_locale (d : dict) (p : process) :
  locale_installed LOCALE p = false ->
  _to_json rt (d, p) = (inl (LocaleError "unsupported locale setting"), (d, p)).
Proof.
  intros Hloc. unfold _to_json, bind, on_snd, setlocale.
  cbn [fst snd]. now rewrite Hloc.
Qed.

Lemma to_json_needs_dates (v : view) (p : process) :
  dates_ready v = false ->
  locale_installed LOCALE p = true ->
  fst (_to_json rt (state_of v, p)) = inl (AttributeError "strftime").
Proof.
  intros Hdates Hloc.
  destruct v as [a dt cfs its flds tpl]. destruct a.
  unfold dates_ready in Hdates. project_in Hdates.
  unfold _to_json, bind, on_snd, on_fst, setlocale.
  cbn [fst snd]. rewrite Hloc.
  destruct dt; destruct a_due_date0; try discriminate Hdates; reflexivity.
Qed.

(** The instances that [_to_json] serializes are exactly the ready ones, on
    a host with the locale. *)
Lemma to_json_returns_iff (d : dict) (p : process) :
  reachable d ->
  (exists document s', _to_json rt (d, p) = (inr document, s')) <->
  (wire_ready d = true /\ locale_installed LOCALE p = true).
Proof.
  intros Hd. destruct (reachable_view d Hd) as [v [-> Hok]]. split.
  - intros [document [s' Hrun]].
    destruct (locale_installed LOCALE p) eqn:Hloc.
    2:{ rewrite to_json_needs_locale in Hrun by exact Hloc. discriminate. }
    destruct (dates_ready v) eqn:Hdates.
    2:{ pose proof (to_json_needs_dates v p Hdates Hloc) as H.
        rewrite Hrun in H. discriminate. }
    split; [|reflexivity].
    rewrite to_json_rewrites in Hrun by assumption.
    apply wire_ready_intro; [exact Hdates|].
    destruct (dumps (VDict (wire_state v))) as [e|j] eqn:Hdumps;
      [discriminate|].
    now apply (dumps_dict_inv _ j).
  - intros [Hready Hloc]. eexists _, _. now apply to_json_state_of.
Qed.

(** *** What [_to_json] leaves alone *)

Lemma keeps_ret {A} (a : A) : keeps_world (ret a).
Proof. intros s r s' H. injection H as <- <-. auto. Qed.

Lemma keeps_raise {A} (e : exn) : keeps_world (@raise _ A e).
Proof. intros s r s' H. injection H as <- <-. auto. Qed.

Lemma keeps_lift {A} (x : exn + A) : keeps_world (lift x).
Proof. destruct x; [apply keeps_raise | apply keeps_ret]. Qed.

Lemma keeps_on_fst {A} (c : M dict A) : keeps_world (on_fst c).
Proof.
  intros [d p] r s' H. unfold on_fst in H. simpl in H.
  destruct (c d) as [r0 d0]. injection H as <- <-. auto.
Qed.

Lemma keeps_bind {A B} (c : M (dict * process) A)
    (k : A -> M (dict * process) B) :
  keeps_world c -> (forall a, keeps_world (k a)) -> keeps_world (bind c k).
Proof.
  intros Hc Hk s r s' H. unfold bind in H.
  destruct (c s) as [[e|a] s1] eqn:E.
  - injection H as <- <-. exact (Hc _ _ _ E).
  - destruct (Hc _ _ _ E) as [H1 [H2 H3]].
    destruct (Hk a _ _ _ H) as [H4 [H5 H6]].
    repeat split; congruence.
Qed.

Lemma keeps_setlocale (l : string) : keeps_world (on_snd (setlocale l)).
Proof.
  intros [d p] r s' H. unfold on_snd, setlocale in H. simpl in H.
  destruct (locale_installed l p); injection H as <- <-; auto.
Qed.

Lemma keeps_strftime (fmt : string) (v : value) :
  keeps_world (on_snd (strftime rt fmt v)).
Proof.
  intros [d p] r s' H. unfold on_snd, strftime in H. simpl in H.
  destruct v; injection H as <- <-; auto.
Qed.

(** [_to_json] touches the locale in force and nothing else of the
    process, on any instance and whether it returns or raises. *)
Lemma to_json_keeps_world : keeps_world (_to_json rt).
Proof.
  unfold _to_json.
  repeat first
    [ apply keeps_on_fst | apply keeps_setlocale | apply keeps_strftime
    | apply keeps_lift | apply keeps_ret | apply keeps_raise
    | apply keeps_bind; [|intros ?]
    | match goal with
      | |- keeps_world (match ?x with _ => _ end) => destruct x
      end ].
Qed.
End Serialization.

(** ** Template overrides *)

(** C8.  In every state that an invoice reaches from its construction
    through [add_item], [add_custom_field], [set_template_text] and
    [toggle_subtotal], the template attribute is a dict whose keys all belong
    to [TEMPLATE_PARAMETERS], a list of 21 names. *)
Theorem template_keys_allowed (d : dict) :
  reachable d ->
  exists t,
    dict_get "template" d = Some (VDict t) /\
    (forall k, In k (dict_keys t) -> In k TEMPLATE_PARAMETERS) /\
    length TEMPLATE_PARAMETERS = 21%nat.
Proof.
  intros Hd. destruct (reachable_view d Hd) as [v [-> [_ Hsub]]].
  exists (v_template v). repeat split; [exact Hsub].
Qed.

Lemma template_keys_allowed_witness :
  let d := snd (run_call (SetTemplateText "header" (VStr "INVOICE"))
                  (__init__ (class_body 2024 1 5 0)
                     (call_args (VStr "me") (VStr "you")))) in
  reachable d /\
  exists t,
    dict_get "template" d = Some (VDict t) /\
    (forall k, In k (dict_keys t) -> In k TEMPLATE_PARAMETERS) /\
    length TEMPLATE_PARAMETERS = 21%nat.
Proof.
  intros d.
  assert (Hd : reachable d) by (apply reach_call, reach_init).
  split; [exact Hd | exact (template_keys_allowed d Hd)].
Defined.

(** C2.  A key outside the allow-list makes [set_template_text] raise a
    [ValueError] whose message contains the key, and the instance is left
    exactly as it was, whatever its state.  A key of the allow-list, on an
    invoice that has not been serialized, makes the call return; afterwards
    the template holds the value under that key, its other keys are as
    before, and so are the other attributes. *)
Theorem set_template_text_allow_list (d : dict) (k : string) (x : value) :
  (~ In k TEMPLATE_PARAMETERS ->
   exists msg,
     set_template_text k x d = (inl (ValueError msg), d) /\ occurs_in k msg) /\
  (In k TEMPLATE_PARAMETERS -> reachable d ->
   exists t t' d',
     dict_get "template" d = Some (VDict t) /\
     set_template_text k x d = (inr tt, d') /\
     dict_get "template" d' = Some (VDict t') /\
     dict_get k t' = Some x /\
     (forall k', k' <> k -> dict_get k' t' = dict_get k' t) /\
     (forall a, a <> "template" -> dict_get a d' = dict_get a d)).
Proof.
  split.
  - intros Hout. unfold set_template_text.
    destruct (is_template_parameter k) eqn:E.
    + apply is_template_parameter_In in E. contradiction.
    + eexists. split; [reflexivity|].
      exists "The parameter ", " is not a valid template parameter. See docs.".
      reflexivity.
  - intros Hin Hd. destruct (reachable_view d Hd) as [v [-> _]].
    apply is_template_parameter_In in Hin.
    exists (v_template v), (dict_set k x (v_template v)),
      (dict_set "template" (VDict (dict_set k x (v_template v))) (state_of v)).
    split; [reflexivity|]. split.
    { unfold set_template_text. rewrite Hin. reflexivity. }
    split; [apply dict_get_set_eq|].
    split; [apply dict_get_set_eq|].
    split.
    + intros k' Hne. apply dict_get_set_ne. congruence.
    + intros a Hne. apply dict_get_set_ne. congruence.
Qed.

Lemma set_template_text_allow_list_witness :
  let d := __init__ (class_body 2024 1 5 0) (call_args (VStr "me") (VStr "you")) in
  (~ In "footer" TEMPLATE_PARAMETERS /\
   exists msg,
     set_template_text "footer" (VStr "x") d = (inl (ValueError msg), d) /\
     occurs_in "footer" msg) /\
  (In "header" TEMPLATE_PARAMETERS /\ reachable d /\
   exists t t' d',
     dict_get "template" d = Some (VDict t) /\
     set_template_text "header" (VStr "x") d = (inr tt, d') /\
     dict_get "template" d' = Some (VDict t') /\
     dict_get "header" t' = Some (VStr "x") /\
     (forall k', k' <> "header" -> dict_get k' t' = dict_get k' t) /\
     (forall a, a <> "template" -> dict_get a d' = dict_get a d)).
Proof.
  intros d.
  assert (Hout : ~ In "footer" TEMPLATE_PARAMETERS).
  { intros H. apply is_template_parameter_In in H. discriminate H. }
  assert (Hin : In "header" TEMPLATE_PARAMETERS) by (simpl; tauto).
  assert (Hd : reachable d) by apply reach_init.
  split.
  - split; [exact Hout|].
    exact (proj1 (set_template_text_allow_list d "footer" (VStr "x")) Hout).
  - split; [exact Hin|]. split; [exact Hd|].
    exact (proj2 (set_template_text_allow_list d "header" (VStr "x")) Hin Hd).
Defined.

(** ** The default issue date *)

(** C10.  The default of [date] is evaluated once, by the class statement.
    Take a program that runs the class statement, lets anything happen and
    any time pass, builds an instance without a [date] argument, lets
    anything happen again, and builds a second one.  Both instances carry
    the reading of the clock at which the class statement ran, hence the
    same date, whatever the clock shows when they are built; and when the
    clock has moved by then, the date of an instance is not the time of its
    construction. *)
Theorem default_date_shared (rt : runtime) (a1 a2 : init_args)
    (between1 between2 : M timed unit) (s0 s1 s2 : timed) :
  a_date a1 = None -> a_date a2 = None ->
  between1 s0 = (inr tt, s1) -> between2 s1 = (inr tt, s2) ->
  exists i1 i2 y m d us,
    (let* f := class_statement rt in
     between1 ;;;
     let* i1 := InvoiceGenerator f a1 in
     between2 ;;;
     let* i2 := InvoiceGenerator f a2 in
     ret (i1, i2)) s0 = (inr (i1, i2), s2) /\
    utc rt (fst s0) = (y, m, d, us) /\
    dict_get "date" i1 = Some (VDatetime y m d us) /\
    dict_get "date" i2 = Some (VDatetime y m d us) /\
    (utc rt (fst s1) <> utc rt (fst s0) ->
     fst (datetime_now rt s1) <> inr (VDatetime y m d us)) /\
    (utc rt (fst s2) <> utc rt (fst s0) ->
     fst (datetime_now rt s2) <> inr (VDatetime y m d us)).
Proof.
  intros H1 H2 Hb1 Hb2.
  destruct (utc rt (fst s0)) as [[[y m] d] us] eqn:Hclock.
  exists (__init__ {| date_default := VDatetime y m d us |} a1),
    (__init__ {| date_default := VDatetime y m d us |} a2), y, m, d, us.
  split.
  { unfold class_statement, datetime_now, InvoiceGenerator, bind, ret.
    rewrite Hclock, Hb1, Hb2. reflexivity. }
  split; [reflexivity|].
  split; [unfold __init__; simpl; now rewrite H1|].
  split; [unfold __init__; simpl; now rewrite H2|].
  split; intros Hmoved Hnow; apply Hmoved; unfold datetime_now in Hnow.
  - destruct (utc rt (fst s1)) as [[[y1 m1] d1] us1].
    cbn [fst] in Hnow. now injection Hnow as -> -> -> ->.
  - destruct (utc rt (fst s2)) as [[[y2 m2] d2] us2].
    cbn [fst] in Hnow. now injection Hnow as -> -> -> ->.
Qed.

Lemma default_date_shared_witness :
  let a1 := call_args (VStr "me") (VStr "you") in
  let a2 := call_args (VStr "us") (VStr "them") in
  let s0 : timed := (0, Sample.host) in
  let s1 : timed := (86400000000, Sample.host) in
  let s2 : timed := (90000000000, Sample.host) in
  a_date a1 = None /\ a_date a2 = None /\
  elapse 86400000000 s0 = (inr tt, s1) /\
  elapse 3600000000 s1 = (inr tt, s2) /\
  fst (datetime_now Sample.rt s1) = inr (VDatetime 2024 1 2 0) /\
  fst (datetime_now Sample.rt s2) = inr (VDatetime 2024 1 2 3600000000) /\
  exists i1 i2 y m d us,
    (let* f := class_statement Sample.rt in
     elapse 86400000000 ;;;
     let* i1 := InvoiceGenerator f a1 in
     elapse 3600000000 ;;;
     let* i2 := InvoiceGenerator f a2 in
     ret (i1, i2)) s0 = (inr (i1, i2), s2) /\
    utc Sample.rt (fst s0) = (y, m, d, us) /\
    dict_get "date" i1 = Some (VDatetime y m d us) /\
    dict_get "date" i2 = Some (VDatetime y m d us) /\
    (utc Sample.rt (fst s1) <> utc Sample.rt (fst s0) ->
     fst (datetime_now Sample.rt s1) <> inr (VDatetime y m d us)) /\
    (utc Sample.rt (fst s2) <> utc Sample.rt (fst s0) ->
     fst (datetime_now Sample.rt s2) <> inr (VDatetime y m d us)).
Proof.
  intros a1 a2 s0 s1 s2.
  split; [reflexivity|]. split; [reflexivity|].
  split; [reflexivity|]. split; [reflexivity|].
  split; [vm_compute; reflexivity|]. split; [vm_compute; reflexivity|].
  exact (default_date_shared Sample.rt a1 a2 (elapse 86400000000)
           (elapse 3600000000) s0 s1 s2 eq_refl eq_refl eq_refl eq_refl).
Defined.

(** ** The serialized document *)

Lemma values_serializable_get (t : dict) (k : string) (x : value) :
  values_serializable t = true -> dict_get k t = Some x ->
  serializable x = true.
Proof.
  unfold values_serializable.
  induction t as [|[k' x'] t IH]; simpl; intros Hs Hget; [discriminate|].
  apply andb_true_iff in Hs. destruct Hs as [Hx Ht].
  destruct (String.eqb k k'); [congruence | now apply IH].
Qed.

(** The attributes of the wire object in front of the overrides. *)
Lemma wire_state_get_override (v : view) (k : string) :
  template_ok (v_template v) ->
  In k (dict_keys (v_template v)) ->
  dict_get k (wire_state v) = dict_get k (v_template v).
Proof.
  intros Hok Hk. unfold wire_state. apply dict_get_app_r.
  apply (template_key_fresh (v_template v) _ k Hok); [|exact Hk].
  simpl. unfold wire_attributes. simpl. tauto.
Qed.

Lemma wire_state_get_attribute (v : view) (a : string) :
  template_ok (v_template v) ->
  In a wire_attributes ->
  dict_get a (wire_state v)
  = dict_get a (firstn 18 (wire_state v)).
Proof.
  intros Hok Ha.
  pose proof (attribute_not_override _ a Hok Ha) as Hnone.
  unfold wire_state. cbn [firstn app].
  cbn [dict_get]. rewrite Hnone.
  repeat match goal with
         | |- context [String.eqb a ?s] => destruct (String.eqb a s); [reflexivity|]
         end.
  reflexivity.
Qed.

(** ** Items *)

Lemma apply_calls_items (cs : list call) (v : view) :
  v_items (apply_calls cs v) = (v_items v ++ added_items cs)%list.
Proof.
  unfold apply_calls. revert v.
  induction cs as [|c cs IH]; simpl; intros v; [now rewrite app_nil_r|].
  rewrite IH.
  destruct c as [n q u ds|n x|k x|t d s]; simpl;
    [now rewrite <- app_assoc | reflexivity | | reflexivity].
  destruct (is_template_parameter k); reflexivity.
Qed.

Lemma encode_item (it : value * value * value * value) :
  attributes_serializable (item_object it) = true ->
  encode (item_dict it) = item_json it.
Proof.
  destruct it as [[[n q] u] ds]. intros H.
  unfold encode, item_dict. rewrite dumps_dict by exact H. reflexivity.
Qed.

Lemma encode_items (l : list (value * value * value * value)) :
  forallb attributes_serializable (map item_object l) = true ->
  encode (VList (map item_dict l)) = JArr (map item_json l).
Proof.
  intros H. unfold encode.
  rewrite dumps_list by now apply item_dicts_serializable.
  f_equal. rewrite map_map.
  induction l as [|it l IH]; [reflexivity|].
  cbn [map forallb] in *. apply andb_true_iff in H. destruct H as [Hit Hl].
  now rewrite encode_item, IH.
Qed.

Lemma items_serializable_nth (l : list (value * value * value * value))
    (i : nat) (it : value * value * value * value) :
  forallb attributes_serializable (map item_object l) = true ->
  nth_error l i = Some it ->
  let '(n, q, u, ds) := it in
  serializable n = true /\ serializable q = true /\
  serializable u = true /\ serializable ds = true.
Proof.
  revert i. induction l as [|it' l IH]; intros i H Hnth.
  - destruct i; discriminate.
  - cbn [map forallb] in H. apply andb_true_iff in H. destruct H as [Hit Hl].
    destruct i as [|i]; simpl in Hnth.
    + injection Hnth as ->. destruct it as [[[n q] u] ds].
      unfold attributes_serializable, item_object, Item.__init__,
        values_serializable in Hit.
      cbn [forallb snd] in Hit. split_andb Hit. auto.
    + now apply (IH i).
Qed.

(** ** Formatted dates *)

Lemma append_empty (s : string) : s ++ "" = s.
Proof.
  induction s as [|c s IH]; [reflexivity|].
  change (String c (s ++ "") = String c s). now rewrite IH.
Qed.

Lemma append_assoc (s1 s2 s3 : string) : (s1 ++ s2) ++ s3 = s1 ++ (s2 ++ s3).
Proof.
  induction s1 as [|c s1 IH]; [reflexivity|].
  change (String c ((s1 ++ s2) ++ s3) = String c (s1 ++ (s2 ++ s3))).
  now rewrite IH.
Qed.

Lemma format_date_DATE_FORMAT (abmon : Z -> string) (y m d : Z) :
  format_date abmon y m d DATE_FORMAT
  = pad2 d ++ " " ++ abmon m ++ " " ++ str_int y.
Proof.
  unfold DATE_FORMAT. cbn [format_date Ascii.eqb Bool.eqb].
  now rewrite append_empty.
Qed.

Lemma in_range (lo len : nat) (n : Z) :
  Z.of_nat lo <= n < Z.of_nat lo + Z.of_nat len ->
  In n (map Z.of_nat (seq lo len)).
Proof.
  intros H. apply in_map_iff. exists (Z.to_nat n).
  split; [lia | apply in_seq; lia].
Qed.

Lemma pad2_length (d : Z) : 1 <= d <= 31 -> String.length (pad2 d) = 2%nat.
Proof.
  intros H.
  assert (Hall : forallb (fun n => Nat.eqb (String.length (pad2 n)) 2)
                   (map Z.of_nat (seq 1 31)) = true) by (vm_compute; reflexivity).
  rewrite forallb_forall in Hall.
  apply Nat.eqb_eq, Hall, in_range. simpl. lia.
Qed.

Lemma abmon_en_length (m : Z) :
  1 <= m <= 12 -> String.length (abmon_en m) = 3%nat.
Proof.
  intros H.
  assert (Hall : forallb (fun n => Nat.eqb (String.length (abmon_en n)) 3)
                   (map Z.of_nat (seq 1 12)) = true) by (vm_compute; reflexivity).
  rewrite forallb_forall in Hall.
  apply Nat.eqb_eq, Hall, in_range. simpl. lia.
Qed.

(** [%Y] prints the year as it is: four digits from the year 1000 on, fewer
    before. *)
Lemma year_length (y : Z) :
  1 <= y <= 9999 ->
  String.length (str_int y)
  = if y <? 1000 then if y <? 100 then if y <? 10 then 1%nat else 2%nat else 3%nat
    else 4%nat.
Proof.
  intros H.
  assert (Hall : forallb (fun n => Nat.eqb (String.length (str_int n))
                                     (if n <? 1000 then
                                        if n <? 100
                                        then if n <? 10 then 1%nat else 2%nat
                                        else 3%nat
                                      else 4%nat))
                   (map Z.of_nat (seq 1 (Z.to_nat 9999))) = true)
    by (vm_compute; reflexivity).
  rewrite forallb_forall in Hall.
  apply Nat.eqb_eq, Hall, in_range. lia.
Qed.

Lemma formatted_calendar (v : value) (y m d : Z) :
  calendar v = Some (y, m, d) ->
  formatted v = VStr (pad2 d ++ " " ++ abmon_en m ++ " " ++ str_int y).
Proof.
  destruct v; cbn [calendar formatted]; intros H; try discriminate;
    injection H as -> -> ->; now rewrite format_date_DATE_FORMAT.
Qed.

Lemma is_date_calendar (v : value) :
  is_date v = true -> exists y m d, calendar v = Some (y, m, d).
Proof. destruct v; simpl; intros H; try discriminate; eauto. Qed.

Section Document.
Variable rt : runtime.

Lemma reachable_to_json (d : dict) (p : process) :
  reachable d -> wire_ready d = true -> locale_installed LOCALE p = true ->
  exists v,
    d = state_of v /\ template_ok (v_template v) /\
    _to_json rt (d, p)
    = (inr (JObj (map encode_entry (wire_state v))),
       (wire_state v, with_locale LOCALE p)).
Proof.
  intros Hd Hready Hloc.
  destruct (reachable_view d Hd) as [v [-> Hok]].
  exists v. split; [reflexivity|]. split; [exact Hok|].
  now apply to_json_state_of.
Qed.

(** C1.  Serializing an invoice returns one JSON object.  It has no member
    named ["sender"] and none named ["template"]; its member ["from"] is
    the JSON form of the sender; and every key of the template overrides
    is a member of the object itself, with the JSON form of the override
    as its value. *)
Theorem to_json_members (d : dict) (p : process) :
  reachable d -> wire_ready d = true -> locale_installed LOCALE p = true ->
  exists members s',
    _to_json rt (d, p) = (inr (JObj members), s') /\
    dict_get "sender" members = None /\
    dict_get "template" members = None /\
    (exists sender j,
       dict_get "sender" d = Some sender /\ dumps sender = inr j /\
       dict_get "from" members = Some j) /\
    (exists t,
       dict_get "template" d = Some (VDict t) /\
       forall k x, dict_get k t = Some x ->
         exists j, dumps x = inr j /\ dict_get k members = Some j).
Proof.
  intros Hd Hready Hloc.
  destruct (reachable_to_json d p Hd Hready Hloc) as [v [-> [Hok Hrun]]].
  destruct (wire_ready_view v Hready) as [Hsender [_ [_ [Htpl _]]]].
  exists (map encode_entry (wire_state v)), (wire_state v, with_locale LOCALE p).
  split; [exact Hrun|].
  rewrite !dict_get_map_encode.
  rewrite (wire_state_get_attribute v "sender" Hok)
    by (unfold wire_attributes; simpl; tauto).
  rewrite (wire_state_get_attribute v "template" Hok)
    by (unfold wire_attributes; simpl; tauto).
  split; [reflexivity|]. split; [reflexivity|]. split.
  - exists (a_sender (v_args v)), (encode (a_sender (v_args v))).
    split; [reflexivity|]. split; [now apply serializable_dumps|].
    rewrite (wire_state_get_attribute v "from" Hok)
      by (unfold wire_attributes; simpl; tauto).
    reflexivity.
  - exists (v_template v). split; [reflexivity|].
    intros k x Hget. exists (encode x). split.
    + apply serializable_dumps.
      now apply (values_serializable_get (v_template v) k).
    + rewrite dict_get_map_encode, wire_state_get_override, Hget;
        [reflexivity | exact Hok | now apply (dict_get_Some_keys k x)].
Qed.
(** C5.  An invoice that is constructed, receives a sequence of calls and is
    serialized has an ["items"] array with one entry per [add_item] call, in
    the order of the calls; the entry at position [i] is an object whose
    [name], [quantity], [unit_cost] and [description] are the JSON forms of
    the arguments of the [i]-th [add_item] call.  The quantities and unit
    costs are any values with a JSON form: no range is checked. *)
Theorem to_json_items (f : init_function) (a : init_args) (cs : list call)
    (p : process) :
  let d := run_calls cs (__init__ f a) in
  wire_ready d = true -> locale_installed LOCALE p = true ->
  exists members s' arr,
    _to_json rt (d, p) = (inr (JObj members), s') /\
    dict_get "items" members = Some (JArr arr) /\
    length arr = length (added_items cs) /\
    forall i n q u ds,
      nth_error (added_items cs) i = Some (n, q, u, ds) ->
      exists jn jq ju jd,
        dumps n = inr jn /\ dumps q = inr jq /\
        dumps u = inr ju /\ dumps ds = inr jd /\
        nth_error arr i
        = Some (JObj [("name", jn); ("quantity", jq); ("unit_cost", ju);
                      ("description", jd)]).
Proof.
  intros d Hready Hloc. subst d.
  rewrite init_state_of, run_calls_state_of in *.
  set (v := apply_calls cs (init_view f a)) in *.
  assert (Hok : template_ok (v_template v)).
  { apply apply_calls_template_ok. split; simpl; [constructor | tauto]. }
  assert (Hitems : v_items v = added_items cs).
  { unfold v. rewrite apply_calls_items. reflexivity. }
  destruct (wire_ready_view v Hready) as [_ [_ [Hits _]]].
  exists (map encode_entry (wire_state v)), (wire_state v, with_locale LOCALE p),
    (map item_json (v_items v)).
  split; [now apply to_json_state_of|].
  split.
  { rewrite dict_get_map_encode.
    rewrite (wire_state_get_attribute v "items" Hok)
      by (unfold wire_attributes; simpl; tauto).
    cbn. f_equal. now apply encode_items. }
  rewrite Hitems in *.
  split; [apply length_map|].
  intros i n q u ds Hnth.
  destruct (items_serializable_nth _ _ _ Hits Hnth) as [Hn [Hq [Hu Hds]]].
  exists (encode n), (encode q), (encode u), (encode ds).
  repeat (split; [now apply serializable_dumps|]).
  rewrite nth_error_map, Hnth. reflexivity.
Qed.
(** C4, as the code has it.  The serialized ["date"] of an invoice whose
    issue date has the calendar components (year, month, day) is the day on
    two digits, a space, the month's entry in the table [abmon_en] (three
    letters), a space and the year in decimal as it is, without padding:
    four digits from the year 1000 on, fewer before.  So is ["due_date"]
    when the invoice has one.  The locale that was in force before the call
    plays no part: any two processes on which the locale of the class is
    installed obtain the same document.  Year 2024, month 1, day 5 give
    ["05 Jan 2024"]; year 999, month 2, day 9 give ["09 Feb 999"]. *)
Theorem to_json_dates (d : dict) (p : process) :
  reachable d -> wire_ready d = true -> locale_installed LOCALE p = true ->
  exists members s',
    _to_json rt (d, p) = (inr (JObj members), s') /\
    (exists v y m dd, dict_get "date" d = Some v /\ calendar v = Some (y, m, dd)) /\
    (forall key v y m dd,
        key = "date" \/ key = "due_date" ->
        dict_get key d = Some v -> calendar v = Some (y, m, dd) ->
        dict_get key members
        = Some (JStr (pad2 dd ++ " " ++ abmon_en m ++ " " ++ str_int y)) /\
        (1 <= dd <= 31 -> String.length (pad2 dd) = 2%nat) /\
        (1 <= m <= 12 -> String.length (abmon_en m) = 3%nat) /\
        (1000 <= y <= 9999 -> String.length (str_int y) = 4%nat) /\
        (1 <= y < 1000 -> (String.length (str_int y) < 4)%nat)) /\
    (forall p', locale_installed LOCALE p' = true ->
                fst (_to_json rt (d, p')) = inr (JObj members)) /\
    pad2 5 ++ " " ++ abmon_en 1 ++ " " ++ str_int 2024 = "05 Jan 2024" /\
    pad2 9 ++ " " ++ abmon_en 2 ++ " " ++ str_int 999 = "09 Feb 999".
Proof.
  intros Hd Hready Hloc.
  destruct (reachable_to_json d p Hd Hready Hloc) as [v [-> [Hok Hrun]]].
  destruct (wire_ready_view v Hready) as [_ [Hdate _]].
  exists (map encode_entry (wire_state v)), (wire_state v, with_locale LOCALE p).
  split; [exact Hrun|]. split.
  { destruct (is_date_calendar _ Hdate) as [y [m [dd Hcal]]].
    exists (v_date v), y, m, dd. split; [reflexivity | exact Hcal]. }
  split.
  { intros key x y m dd Hkey Hget Hcal.
    split; [|split; [apply pad2_length | split; [apply abmon_en_length|]]].
    - rewrite dict_get_map_encode.
      destruct Hkey as [-> | ->];
        (rewrite (wire_state_get_attribute v _ Hok)
          by (unfold wire_attributes; simpl; tauto));
        simpl in Hget; injection Hget as <-;
        cbn; now rewrite (formatted_calendar _ _ _ _ Hcal).
    - split; intros Hy; rewrite year_length by lia.
      + destruct (Z.ltb_spec y 1000); [lia | reflexivity].
      + destruct (Z.ltb_spec y 1000); [|lia].
        destruct (y <? 100); [destruct (y <? 10)|]; lia. }
  split; [|split; reflexivity].
  intros p' Hloc'. now rewrite to_json_state_of.
Qed.

(** C6, as the code has it.  [_to_json] builds the wire object in the
    attribute dictionary of the instance: after a successful call the state
    of the instance is the object whose dump was returned.  The instance is
    therefore modified: it has lost ["sender"] and ["template"], has gained
    ["from"] with the former sender as its value, and its date is a
    string; serializing it once more raises. *)
Theorem to_json_in_place (d : dict) (p : process) :
  reachable d -> wire_ready d = true -> locale_installed LOCALE p = true ->
  exists document d' p',
    _to_json rt (d, p) = (inr document, (d', p')) /\
    dumps (VDict d') = inr document /\
    d' <> d /\
    dict_get "sender" d' = None /\
    dict_get "template" d' = None /\
    dict_get "from" d' = dict_get "sender" d /\
    (exists s, dict_get "date" d' = Some (VStr s)) /\
    exists e, fst (_to_json rt (d', p')) = inl e.
Proof.
  intros Hd Hready Hloc.
  destruct (reachable_to_json d p Hd Hready Hloc) as [v [-> [Hok Hrun]]].
  destruct (wire_ready_view v Hready) as [_ [Hdate _]].
  exists (JObj (map encode_entry (wire_state v))), (wire_state v),
    (with_locale LOCALE p).
  split; [exact Hrun|].
  split; [apply dumps_dict; now apply wire_state_serializable|].
  split.
  { unfold wire_state, state_of. cbn [app]. intros H. inversion H. }
  rewrite !(wire_state_get_attribute v _ Hok)
    by (unfold wire_attributes; simpl; tauto).
  repeat (split; [reflexivity|]).
  split.
  - destruct (is_date_calendar _ Hdate) as [y [m [dd Hcal]]].
    eexists. cbn. now rewrite (formatted_calendar _ _ _ _ Hcal).
  - eexists. now rewrite to_json_wire_state.
Qed.

(** C9, as the code has it.  After a successful serialization, a second call
    on the same instance raises an [AttributeError]: the date attribute is
    now the formatted string, which has no [strftime].  The call stops
    there, before the [pop] of the missing ["sender"] could raise a
    [KeyError], and it has already overwritten ["from"] with [None]. *)
Theorem to_json_twice (d : dict) (p : process) :
  reachable d -> wire_ready d = true -> locale_installed LOCALE p = true ->
  exists document d1 p1,
    _to_json rt (d, p) = (inr document, (d1, p1)) /\
    dict_get "sender" d1 = None /\
    (exists s, dict_get "date" d1 = Some (VStr s)) /\
    _to_json rt (d1, p1)
    = (inl (AttributeError "strftime"), (dict_set "from" VNone d1, p1)).
Proof.
  intros Hd Hready Hloc.
  destruct (reachable_to_json d p Hd Hready Hloc) as [v [-> [Hok Hrun]]].
  destruct (wire_ready_view v Hready) as [_ [Hdate _]].
  exists (JObj (map encode_entry (wire_state v))), (wire_state v),
    (with_locale LOCALE p).
  split; [exact Hrun|].
  rewrite !(wire_state_get_attribute v _ Hok)
    by (unfold wire_attributes; simpl; tauto).
  split; [reflexivity|]. split.
  - destruct (is_date_calendar _ Hdate) as [y [m [dd Hcal]]].
    eexists. cbn. now rewrite (formatted_calendar _ _ _ _ Hcal).
  - now rewrite to_json_wire_state.
Qed.
End Document.

(** ** Submission *)

Section Submission.
Variable rt : runtime.

(** A request that [requests.post] answers is one that it could encode. *)
Lemma server_answer_encodable (r : request) (history : list request)
    (resp : response) :
  server rt (r :: history) = inr resp -> encodable (req_json r) = true.
Proof.
  cbn [server]. destruct (encodable (req_json r)); [reflexivity|discriminate].
Qed.

Lemma server_refuses (r : request) (history : list request) :
  encodable (req_json r) = false ->
  server rt (r :: history) = inl InvalidJSONError.
Proof. cbn [server]. now intros ->. Qed.

Lemma server_service (r : request) (history : list request) :
  encodable (req_json r) = true ->
  server rt (r :: history) = service rt (r :: history).
Proof. cbn [server]. now intros ->. Qed.

Lemma post_submission (document : json) (p : process) :
  post rt URL document [("Accept-Language", LOCALE)] p
  = (server rt (submission document :: requests p),
     if encodable document then with_request (submission document) p else p).
Proof. reflexivity. Qed.

(** What [download] does once [_to_json] has returned. *)
Lemma download_after_to_json (d d1 : dict) (p p1 : process) (document : json)
    (file_path : string) :
  _to_json rt (d, p) = (inr document, (d1, p1)) ->
  download rt file_path (d, p)
  = let sent := if encodable document
                then with_request (submission document) p1 else p1 in
    match server rt (submission document :: requests p) with
    | inl e => (inl e, (d1, sent))
    | inr resp =>
        if status_code resp =? 200
        then (inr tt, (d1, with_file file_path (content resp) sent))
        else match json_body resp with
             | Some body =>
                 (inl (Exception
                         ("Invoice download request returned the following message:"
                          ++ str rt body ++ " Response code = "
                          ++ str_int (status_code resp) ++ " ")),
                  (d1, sent))
             | None => (inl JSONDecodeError, (d1, sent))
             end
    end.
Proof.
  intros Hrun.
  destruct (to_json_keeps_world rt _ _ _ Hrun) as [_ [Hreqs _]].
  cbn [snd] in Hreqs. rewrite <- Hreqs.
  unfold download, bind. rewrite Hrun.
  unfold on_snd. cbn [fst snd]. rewrite post_submission. cbv zeta.
  destruct (server rt _) as [e|resp]; [reflexivity|].
  destruct (status_code resp =? 200); [reflexivity|].
  unfold response_json. destruct (json_body resp); reflexivity.
Qed.

(** C3, as the code has it.  [download] posts the document that [_to_json]
    returns.  When the POST returns an answer of status 200, the call
    returns and the file at the given path holds exactly the bytes of the
    answer, whatever it held before; the other files are untouched.  When
    the POST returns an answer of any other status whose body parses as
    JSON, the call raises an [Exception] whose message contains the status
    code and the text of the parsed body, and the file system is as it was.
    This holds for every state of the instance on which [_to_json]
    returns. *)
Theorem download_outcome (d d' : dict) (p p1 : process) (document : json)
    (file_path : string) (resp : response) :
  _to_json rt (d, p) = (inr document, (d', p1)) ->
  server rt (submission document :: requests p) = inr resp ->
  (status_code resp = 200 ->
   exists p',
     download rt file_path (d, p) = (inr tt, (d', p')) /\
     files p' !! file_path = Some (content resp) /\
     files p' = <[file_path := content resp]> (files p)) /\
  (status_code resp <> 200 ->
   forall body, json_body resp = Some body ->
   exists msg p',
     download rt file_path (d, p) = (inl (Exception msg), (d', p')) /\
     occurs_in (str_int (status_code resp)) msg /\
     occurs_in (str rt body) msg /\
     files p' = files p).
Proof.
  intros Hrun Hresp.
  destruct (to_json_keeps_world rt _ _ _ Hrun) as [Hfiles [Hreqs _]].
  cbn [snd] in Hfiles, Hreqs.
  assert (Henc : encodable document = true)
    by exact (server_answer_encodable _ _ _ Hresp).
  rewrite <- Hreqs in Hresp.
  split.
  - intros H200.
    exists (with_file file_path (content resp)
              (with_request (submission document) p1)).
    split.
    + unfold download, bind. rewrite Hrun.
      unfold on_snd. cbn [fst snd].
      rewrite post_submission, Hresp, Henc, H200. reflexivity.
    + cbn [files with_file with_request]. rewrite Hfiles.
      split; [apply lookup_insert_eq | reflexivity].
  - intros Hnot body Hbody.
    exists ("Invoice download request returned the following message:"
            ++ str rt body ++ " Response code = "
            ++ str_int (status_code resp) ++ " "),
      (with_request (submission document) p1).
    split.
    + unfold download, bind. rewrite Hrun.
      unfold on_snd. cbn [fst snd].
      rewrite post_submission, Hresp, Henc.
      destruct (Z.eqb_spec (status_code resp) 200) as [E|_]; [contradiction|].
      unfold response_json. rewrite Hbody. reflexivity.
    + split; [|split; [|exact Hfiles]].
      * exists ("Invoice download request returned the following message:"
                ++ str rt body ++ " Response code = "), " ".
        now rewrite !append_assoc.
      * exists "Invoice download request returned the following message:",
          (" Response code = " ++ str_int (status_code resp) ++ " ").
        reflexivity.
Qed.
End Submission.

(** ** The batch script *)

Section Batch.
Variable rt : runtime.

Lemma clean_reads (record : dict) (t : transaction) :
  reads rt record t ->
  exists row,
    clean rt record = (inr tt, row) /\
    dict_get amount row = Some (VFloat (t_amount t)) /\
    dict_get description row = Some (t_description t) /\
    dict_get date_key row
    = Some (let '(y, m, d) := t_date t in VDate y m d).
Proof.
  intros [sd [sa [Hd [Hpd [Ha [Hpa Hdesc]]]]]].
  destruct (t_date t) as [[y m] d] eqn:Edate.
  exists (dict_set amount (VFloat (t_amount t))
            (dict_set date_key (VDate y m d) record)).
  split.
  - unfold clean, bind, getitem, setitem, modify, ret.
    rewrite Hd, Hpd.
    rewrite dict_get_set_ne by discriminate.
    rewrite Ha, Hpa. reflexivity.
  - split; [apply dict_get_set_eq|]. split.
    + rewrite !dict_get_set_ne by discriminate. exact Hdesc.
    + rewrite dict_get_set_ne by discriminate. apply dict_get_set_eq.
Qed.

Lemma row_document_encodable (to : json) (date : Z * Z * Z) (x : spec_float) :
  encodable (row_document to date x) = encodable to && isfinite x.
Proof.
  destruct date as [[y m] d]. simpl.
  destruct (encodable to), (isfinite x); reflexivity.
Qed.

Lemma row_request_encodable (t : transaction) :
  encodable (req_json (row_request t))
  = encodable (encode (t_description t)) && isfinite (t_amount t).
Proof. apply row_document_encodable. Qed.

Lemma process_row_skipped (f : init_function) (record : dict)
    (t : transaction) (p : process) :
  reads rt record t ->
  invoiced t = false ->
  process_row rt f record p = (inr tt, p).
Proof.
  intros Hreads Hskip.
  destruct (clean_reads record t Hreads) as [row [Hclean [Ha _]]].
  unfold invoiced in Hskip. apply negb_false_iff in Hskip.
  unfold process_row, bind. rewrite Hclean, Ha.
  cbn [lift ret lt_zero]. now rewrite Hskip.
Qed.

(** What the script does with a row that it does not skip. *)
Lemma process_row_run (f : init_function) (record : dict) (t : transaction)
    (p : process) :
  reads rt record t ->
  invoiced t = true ->
  serializable (t_description t) = true ->
  locale_installed LOCALE p = true ->
  process_row rt f record p
  = let sent := if encodable (req_json (row_request t))
                then with_request (row_request t) (with_locale LOCALE p)
                else with_locale LOCALE p in
    match server rt (row_request t :: requests p) with
    | inl e => (inl e, sent)
    | inr resp =>
        if status_code resp =? 200
        then (inr tt,
              with_sleep 1 (with_file (row_path (t_date t)) (content resp) sent))
        else match json_body resp with
             | Some body =>
                 (inl (Exception
                         ("Invoice download request returned the following message:"
                          ++ str rt body ++ " Response code = "
                          ++ str_int (status_code resp) ++ " ")),
                  sent)
             | None => (inl JSONDecodeError, sent)
             end
    end.
Proof.
  intros Hreads Hkeep Hdesc Hloc.
  destruct (clean_reads record t Hreads) as [row [Hclean [Ha [Hto Hdate]]]].
  unfold invoiced in Hkeep. apply negb_true_iff in Hkeep.
  unfold row_request.
  destruct (t_date t) as [[y m] d].
  set (v := apply_call
              (AddItem (VStr "Consultative services") (VInt 1)
                 (VFloat (t_amount t)) VNone)
              (init_view f (set_date (VDate y m d)
                              (call_args (VStr "EA2 Consulting")
                                 (t_description t))))).
  assert (Hready : wire_ready (state_of v) = true).
  { unfold wire_ready, v. cbn. rewrite Hdesc. reflexivity. }
  assert (Hok : template_ok (v_template v)).
  { split; simpl; [constructor | tauto]. }
  pose proof (to_json_state_of rt v p Hready Hok Hloc) as Hrun.
  assert (Hdoc : JObj (map encode_entry (wire_state v))
                 = row_document (encode (t_description t)) (y, m, d) (t_amount t)).
  { unfold row_document. rewrite <- format_date_DATE_FORMAT. reflexivity. }
  rewrite Hdoc in Hrun.
  unfold process_row, bind. rewrite Hclean, Ha.
  cbn [lift ret lt_zero]. rewrite Hkeep, Hto, Hdate.
  cbn [lift ret]. unfold with_object, bind.
  change (on_fst (add_item (VStr "Consultative services") (VInt 1)
                    (VFloat (t_amount t)) VNone)
            (__init__ f (set_date (VDate y m d)
                           (call_args (VStr "EA2 Consulting")
                              (t_description t))), p))
    with (inr tt : exn + unit, (state_of v, p)).
  cbv iota beta.
  rewrite (download_after_to_json rt _ _ _ _ _ _ Hrun).
  unfold row_path, str. cbn [req_json submission]. cbv zeta.
  destruct (server rt _) as [e|resp]; [reflexivity|].
  destruct (status_code resp =? 200); [reflexivity|].
  destruct (json_body resp); reflexivity.
Qed.

(** C7, as the code has it.  For a row that [clean] accepts, the script
    skips the row exactly when its amount is negative: the process is then
    left as it was (no request, no file, no pause).  Every other row whose
    amount is a finite number, zero included, is submitted: one request is
    sent, for an invoice whose sender is "EA2 Consulting", whose recipient
    is the description of the row and whose only item charges the amount of
    the row once.  A row whose amount is NaN or plus infinity is not skipped
    either, but its invoice never leaves the process: [requests] cannot
    encode the document and raises before anything is sent. *)
Theorem process_row_outcome (f : init_function) (record : dict)
    (t : transaction) (p : process) :
  reads rt record t ->
  serializable (t_description t) = true ->
  locale_installed LOCALE p = true ->
  (SFltb (t_amount t) (S754_zero false) = true ->
   process_row rt f record p = (inr tt, p)) /\
  (SFltb (t_amount t) (S754_zero false) = false ->
   isfinite (t_amount t) = true ->
   encodable (encode (t_description t)) = true ->
   exists members r p',
     process_row rt f record p = (r, p') /\
     requests p' = submission (JObj members) :: requests p /\
     dict_get "from" members = Some (JStr "EA2 Consulting") /\
     dict_get "to" members = Some (encode (t_description t)) /\
     dict_get "items" members
     = Some (JArr [JObj [("name", JStr "Consultative services");
                         ("quantity", JInt 1);
                         ("unit_cost", JFloat (t_amount t));
                         ("description", JNull)]])) /\
  (SFltb (t_amount t) (S754_zero false) = false ->
   isfinite (t_amount t) = false ->
   exists p',
     process_row rt f record p = (inl InvalidJSONError, p') /\
     requests p' = requests p /\
     files p' = files p /\
     slept p' = slept p).
Proof.
  intros Hreads Hdesc Hloc.
  split; [|split].
  - intros Hneg. apply process_row_skipped with (t := t); [exact Hreads|].
    unfold invoiced. now rewrite Hneg.
  - intros Hkeep Hfin Hto.
    assert (Hinv : invoiced t = true) by (unfold invoiced; now rewrite Hkeep).
    assert (Henc : encodable (req_json (row_request t)) = true)
      by (rewrite row_request_encodable, Hto, Hfin; reflexivity).
    pose proof (process_row_run f record t p Hreads Hinv Hdesc Hloc) as Hrow.
    rewrite Henc in Hrow. cbv zeta in Hrow.
    assert (Hreq : exists members,
      row_request t = submission (JObj members) /\
      dict_get "from" members = Some (JStr "EA2 Consulting") /\
      dict_get "to" members = Some (encode (t_description t)) /\
      dict_get "items" members
      = Some (JArr [JObj [("name", JStr "Consultative services");
                          ("quantity", JInt 1);
                          ("unit_cost", JFloat (t_amount t));
                          ("description", JNull)]])).
    { unfold row_request, row_document. destruct (t_date t) as [[y m] d].
      eexists. split; [reflexivity|]. repeat split; reflexivity. }
    destruct Hreq as [members [Hreq Hfields]].
    exists members. rewrite <- Hreq.
    destruct (server rt _) as [e|resp].
    + eexists _, _. split; [exact Hrow|]. split; [reflexivity | exact Hfields].
    + destruct (status_code resp =? 200).
      * eexists _, _. split; [exact Hrow|].
        split; [reflexivity | exact Hfields].
      * destruct (json_body resp);
          (eexists _, _; split; [exact Hrow|];
           split; [reflexivity | exact Hfields]).
  - intros Hkeep Hfin.
    assert (Hinv : invoiced t = true) by (unfold invoiced; now rewrite Hkeep).
    assert (Henc : encodable (req_json (row_request t)) = false)
      by (rewrite row_request_encodable, Hfin; apply andb_false_r).
    pose proof (process_row_run f record t p Hreads Hinv Hdesc Hloc) as Hrow.
    rewrite (server_refuses rt _ _ Henc), Henc in Hrow. cbv zeta in Hrow.
    eexists. split; [exact Hrow|]. repeat split.
Qed.

(** The script handles the rows one after the other and stops at the first
    one that raises. *)
Lemma main_step (f : init_function) (record : dict) (rest : list dict)
    (p : process) :
  main rt f (record :: rest) p
  = match process_row rt f record p with
    | (inr _, p') => main rt f rest p'
    | (inl e, p') => (inl e, p')
    end.
Proof.
  unfold main. cbn [for_each]. unfold bind.
  destruct (process_row rt f record p) as [[e|[]] p']; reflexivity.
Qed.
End Batch.

(** ** The theorems at the sample data *)

Lemma to_json_members_witness :
  reachable Sample.invoice /\
  wire_ready Sample.invoice = true /\
  locale_installed LOCALE Sample.host = true /\
  exists members s',
    _to_json Sample.rt (Sample.invoice, Sample.host) = (inr (JObj members), s') /\
    dict_get "sender" members = None /\
    dict_get "template" members = None /\
    (exists sender j,
       dict_get "sender" Sample.invoice = Some sender /\ dumps sender = inr j /\
       dict_get "from" members = Some j) /\
    (exists t,
       dict_get "template" Sample.invoice = Some (VDict t) /\
       forall k x, dict_get k t = Some x ->
         exists j, dumps x = inr j /\ dict_get k members = Some j).
Proof.
  assert (Hd : reachable Sample.invoice)
    by (apply run_calls_reachable, reach_init).
  assert (Hr : wire_ready Sample.invoice = true) by (vm_compute; reflexivity).
  assert (Hl : locale_installed LOCALE Sample.host = true)
    by (vm_compute; reflexivity).
  split; [exact Hd|]. split; [exact Hr|]. split; [exact Hl|].
  exact (to_json_members Sample.rt Sample.invoice Sample.host Hd Hr Hl).
Defined.

Lemma to_json_dates_witness :
  reachable Sample.invoice /\
  wire_ready Sample.invoice = true /\
  locale_installed LOCALE Sample.host = true /\
  exists members s',
    _to_json Sample.rt (Sample.invoice, Sample.host) = (inr (JObj members), s') /\
    (exists v y m dd,
       dict_get "date" Sample.invoice = Some v /\ calendar v = Some (y, m, dd)) /\
    (forall key v y m dd,
        key = "date" \/ key = "due_date" ->
        dict_get key Sample.invoice = Some v -> calendar v = Some (y, m, dd) ->
        dict_get key members
        = Some (JStr (pad2 dd ++ " " ++ abmon_en m ++ " " ++ str_int y)) /\
        (1 <= dd <= 31 -> String.length (pad2 dd) = 2%nat) /\
        (1 <= m <= 12 -> String.length (abmon_en m) = 3%nat) /\
        (1000 <= y <= 9999 -> String.length (str_int y) = 4%nat) /\
        (1 <= y < 1000 -> (String.length (str_int y) < 4)%nat)) /\
    (forall p', locale_installed LOCALE p' = true ->
                fst (_to_json Sample.rt (Sample.invoice, p')) = inr (JObj members)) /\
    pad2 5 ++ " " ++ abmon_en 1 ++ " " ++ str_int 2024 = "05 Jan 2024" /\
    pad2 9 ++ " " ++ abmon_en 2 ++ " " ++ str_int 999 = "09 Feb 999".
Proof.
  assert (Hd : reachable Sample.invoice)
    by (apply run_calls_reachable, reach_init).
  assert (Hr : wire_ready Sample.invoice = true) by (vm_compute; reflexivity).
  assert (Hl : locale_installed LOCALE Sample.host = true)
    by (vm_compute; reflexivity).
  split; [exact Hd|]. split; [exact Hr|]. split; [exact Hl|].
  exact (to_json_dates Sample.rt Sample.invoice Sample.host Hd Hr Hl).
Defined.

Lemma to_json_items_witness :
  let a := set_date (VDate 2024 1 5) (call_args (VStr "me") (VStr "you")) in
  let d := run_calls Sample.session (__init__ Sample.f a) in
  wire_ready d = true /\
  locale_installed LOCALE Sample.host = true /\
  added_items Sample.session
  = [ (VStr "Design", VInt 2, VFloat Sample.hundred, VNone);
      (VStr "Refund", VInt (-1), VInt 0, VStr "credit note") ] /\
  exists members s' arr,
    _to_json Sample.rt (d, Sample.host) = (inr (JObj members), s') /\
    dict_get "items" members = Some (JArr arr) /\
    length arr = length (added_items Sample.session) /\
    forall i n q u ds,
      nth_error (added_items Sample.session) i = Some (n, q, u, ds) ->
      exists jn jq ju jd,
        dumps n = inr jn /\ dumps q = inr jq /\
        dumps u = inr ju /\ dumps ds = inr jd /\
        nth_error arr i
        = Some (JObj [("name", jn); ("quantity", jq); ("unit_cost", ju);
                      ("description", jd)]).
Proof.
  intros a d.
  assert (Hr : wire_ready d = true) by (vm_compute; reflexivity).
  assert (Hl : locale_installed LOCALE Sample.host = true)
    by (vm_compute; reflexivity).
  split; [exact Hr|]. split; [exact Hl|]. split; [reflexivity|].
  exact (to_json_items Sample.rt Sample.f a Sample.session Sample.host Hr Hl).
Defined.

Lemma to_json_in_place_witness :
  reachable Sample.invoice /\
  wire_ready Sample.invoice = true /\
  locale_installed LOCALE Sample.host = true /\
  exists document d' p',
    _to_json Sample.rt (Sample.invoice, Sample.host) = (inr document, (d', p')) /\
    dumps (VDict d') = inr document /\
    d' <> Sample.invoice /\
    dict_get "sender" d' = None /\
    dict_get "template" d' = None /\
    dict_get "from" d' = dict_get "sender" Sample.invoice /\
    (exists s, dict_get "date" d' = Some (VStr s)) /\
    exists e, fst (_to_json Sample.rt (d', p')) = inl e.
Proof.
  assert (Hd : reachable Sample.invoice)
    by (apply run_calls_reachable, reach_init).
  assert (Hr : wire_ready Sample.invoice = true) by (vm_compute; reflexivity).
  assert (Hl : locale_installed LOCALE Sample.host = true)
    by (vm_compute; reflexivity).
  split; [exact Hd|]. split; [exact Hr|]. split; [exact Hl|].
  exact (to_json_in_place Sample.rt Sample.invoice Sample.host Hd Hr Hl).
Defined.

Lemma to_json_twice_witness :
  reachable Sample.invoice /\
  wire_ready Sample.invoice = true /\
  locale_installed LOCALE Sample.host = true /\
  exists document d1 p1,
    _to_json Sample.rt (Sample.invoice, Sample.host) = (inr document, (d1, p1)) /\
    dict_get "sender" d1 = None /\
    (exists s, dict_get "date" d1 = Some (VStr s)) /\
    _to_json Sample.rt (d1, p1)
    = (inl (AttributeError "strftime"), (dict_set "from" VNone d1, p1)).
Proof.
  assert (Hd : reachable Sample.invoice)
    by (apply run_calls_reachable, reach_init).
  assert (Hr : wire_ready Sample.invoice = true) by (vm_compute; reflexivity).
  assert (Hl : locale_installed LOCALE Sample.host = true)
    by (vm_compute; reflexivity).
  split; [exact Hd|]. split; [exact Hr|]. split; [exact Hl|].
  exact (to_json_twice Sample.rt Sample.invoice Sample.host Hd Hr Hl).
Defined.

Lemma download_outcome_witness :
  (exists document d' p1,
     _to_json Sample.rt (Sample.invoice, Sample.host) = (inr document, (d', p1)) /\
     server Sample.rt (submission document :: requests Sample.host)
     = inr Sample.accepted /\
     status_code Sample.accepted = 200 /\
     exists p',
       download Sample.rt "invoice.pdf" (Sample.invoice, Sample.host)
       = (inr tt, (d', p')) /\
       files p' !! "invoice.pdf" = Some Sample.pdf /\
       files p' = <["invoice.pdf" := Sample.pdf]> (files Sample.host)) /\
  (exists document d' p1,
     _to_json Sample.rt (Sample.invoice, Sample.busy_host)
     = (inr document, (d', p1)) /\
     server Sample.rt (submission document :: requests Sample.busy_host)
     = inr Sample.rejected /\
     status_code Sample.rejected <> 200 /\
     json_body Sample.rejected = Some (VDict [("error", VStr "bad request")]) /\
     exists msg p',
       download Sample.rt "invoice.pdf" (Sample.invoice, Sample.busy_host)
       = (inl (Exception msg), (d', p')) /\
       occurs_in "404" msg /\
       occurs_in "{'error': 'bad request'}" msg /\
       files p' = files Sample.busy_host).
Proof.
  split.
  - eexists _, _, _.
    assert (Hrun : _to_json Sample.rt (Sample.invoice, Sample.host)
                   = (inr ?[document], (?[d'], ?[p1])))
      by (vm_compute; reflexivity).
    split; [exact Hrun|]. split; [reflexivity|]. split; [reflexivity|].
    exact (proj1 (download_outcome Sample.rt _ _ _ _ _ "invoice.pdf"
                    Sample.accepted Hrun eq_refl) eq_refl).
  - eexists _, _, _.
    assert (Hrun : _to_json Sample.rt (Sample.invoice, Sample.busy_host)
                   = (inr ?[document], (?[d'], ?[p1])))
      by (vm_compute; reflexivity).
    assert (Hne : status_code Sample.rejected <> 200) by (simpl; lia).
    split; [exact Hrun|]. split; [reflexivity|]. split; [exact Hne|].
    split; [reflexivity|].
    exact (proj2 (download_outcome Sample.rt _ _ _ _ _ "invoice.pdf"
                    Sample.rejected Hrun eq_refl) Hne _ eq_refl).
Defined.

Lemma process_row_outcome_witness :
  reads Sample.rt Sample.row_a Sample.transaction_a /\
  reads Sample.rt Sample.row_b Sample.transaction_b /\
  reads Sample.rt Cases.row_nan Cases.transaction_nan /\
  serializable (VStr "A") = true /\
  locale_installed LOCALE Sample.host = true /\
  SFltb Sample.minus_fifty (S754_zero false) = true /\
  SFltb Sample.hundred (S754_zero false) = false /\
  isfinite Sample.hundred = true /\
  encodable (encode (VStr "A")) = true /\
  SFltb S754_nan (S754_zero false) = false /\
  isfinite S754_nan = false /\
  process_row Sample.rt Sample.f Sample.row_b Sample.host = (inr tt, Sample.host) /\
  (exists members r p',
     process_row Sample.rt Sample.f Sample.row_a Sample.host = (r, p') /\
     requests p' = submission (JObj members) :: requests Sample.host /\
     dict_get "from" members = Some (JStr "EA2 Consulting") /\
     dict_get "to" members = Some (encode (VStr "A")) /\
     dict_get "items" members
     = Some (JArr [JObj [("name", JStr "Consultative services");
                         ("quantity", JInt 1);
                         ("unit_cost", JFloat Sample.hundred);
                         ("description", JNull)]])) /\
  (exists p',
     process_row Sample.rt Sample.f Cases.row_nan Sample.host
     = (inl InvalidJSONError, p') /\
     requests p' = requests Sample.host /\
     files p' = files Sample.host /\
     slept p' = slept Sample.host).
Proof.
  assert (Ha : reads Sample.rt Sample.row_a Sample.transaction_a).
  { exists "01-05-2024", "100". repeat split; reflexivity. }
  assert (Hb : reads Sample.rt Sample.row_b Sample.transaction_b).
  { exists "01-06-2024", "-50". repeat split; reflexivity. }
  assert (Hn : reads Sample.rt Cases.row_nan Cases.transaction_nan).
  { exists "01-05-2024", "nan". repeat split; reflexivity. }
  assert (Hl : locale_installed LOCALE Sample.host = true)
    by (vm_compute; reflexivity).
  split; [exact Ha|]. split; [exact Hb|]. split; [exact Hn|].
  split; [reflexivity|]. split; [exact Hl|].
  do 6 (split; [reflexivity|]).
  split; [|split].
  - exact (proj1 (process_row_outcome Sample.rt Sample.f Sample.row_b
                    Sample.transaction_b Sample.host Hb eq_refl Hl) eq_refl).
  - exact (proj1 (proj2 (process_row_outcome Sample.rt Sample.f Sample.row_a
                           Sample.transaction_a Sample.host Ha eq_refl Hl))
             eq_refl eq_refl eq_refl).
  - exact (proj2 (proj2 (process_row_outcome Sample.rt Sample.f Cases.row_nan
                           Cases.transaction_nan Sample.host Hn eq_refl Hl))
             eq_refl eq_refl).
Defined.

(** ** Where the code departs from the specification *)

(** C3 fails for an answer whose body is not JSON: on the error page of
    status 500, [download] raises the decoding error of [response.json()],
    not an [Exception] with a message that names the status. *)
Lemma error_page_hides_status :
  exists document d1 p1 p',
    _to_json Cases.failing_rt (Sample.invoice, Sample.busy_host)
    = (inr document, (d1, p1)) /\
    server Cases.failing_rt (submission document :: requests Sample.busy_host)
    = inr Cases.error_page /\
    status_code Cases.error_page = 500 /\
    json_body Cases.error_page = None /\
    download Cases.failing_rt "invoice.pdf" (Sample.invoice, Sample.busy_host)
    = (inl JSONDecodeError, (d1, p')) /\
    forall msg,
      fst (download Cases.failing_rt "invoice.pdf"
             (Sample.invoice, Sample.busy_host))
      <> inl (Exception msg).
Proof.
  eexists _, _, _, _. split; [vm_compute; reflexivity|].
  split; [reflexivity|]. split; [reflexivity|]. split; [reflexivity|].
  split; [vm_compute; reflexivity|].
  intros msg. vm_compute. discriminate.
Qed.

(** C4 fails before the year 1000: the date of 9 February 999 is serialized
    with a year of three digits, ten characters in all. *)
Lemma year_999_is_not_padded :
  exists members s',
    _to_json Sample.rt (Cases.dated_999, Sample.host)
    = (inr (JObj members), s') /\
    dict_get "date" Cases.dated_999 = Some (VDate 999 2 9) /\
    dict_get "date" members = Some (JStr "09 Feb 999") /\
    String.length "09 Feb 999" = 10%nat /\
    String.length "05 Jan 2024" = 11%nat.
Proof.
  eexists _, _. split; [vm_compute; reflexivity|].
  repeat split; reflexivity.
Qed.

(** C6 fails: serializing the sample invoice changes the invoice (its sender
    and its template are gone), and serializing it again does not give the
    same result. *)
Lemma to_json_modifies_invoice :
  exists document d1 p1,
    _to_json Sample.rt (Sample.invoice, Sample.host) = (inr document, (d1, p1)) /\
    d1 <> Sample.invoice /\
    dict_get "sender" Sample.invoice = Some (VStr "me") /\
    dict_get "sender" d1 = None /\
    dict_get "template" d1 = None /\
    fst (_to_json Sample.rt (d1, p1)) <> inr document.
Proof.
  eexists _, _, _. split; [vm_compute; reflexivity|].
  split; [vm_compute; discriminate|].
  split; [reflexivity|]. split; [reflexivity|]. split; [reflexivity|].
  vm_compute. discriminate.
Qed.

(** C9 fails on the kind of the error: the second serialization of the
    sample invoice raises an [AttributeError], not a [KeyError]. *)
Lemma second_to_json_is_not_key_error :
  let after := snd (_to_json Sample.rt (Sample.invoice, Sample.host)) in
  (exists document,
     fst (_to_json Sample.rt (Sample.invoice, Sample.host)) = inr document) /\
  fst (_to_json Sample.rt after) = inl (AttributeError "strftime") /\
  ~ (exists key, fst (_to_json Sample.rt after) = inl (KeyError key)).
Proof.
  intros after. split; [eexists; vm_compute; reflexivity|].
  assert (H : fst (_to_json Sample.rt after) = inl (AttributeError "strftime"))
    by (vm_compute; reflexivity).
  split; [exact H|]. intros [key Hkey]. rewrite H in Hkey. discriminate.
Qed.

(** C7 fails at zero: a row whose amount is 0, hence not strictly positive,
    is invoiced; the request is sent and the file is written. *)
Lemma zero_amount_is_invoiced :
  reads Sample.rt Sample.row_zero Sample.transaction_zero /\
  SFleb (t_amount Sample.transaction_zero) (S754_zero false) = true /\
  SFltb (S754_zero false) (t_amount Sample.transaction_zero) = false /\
  exists document p',
    process_row Sample.rt Sample.f Sample.row_zero Sample.host = (inr tt, p') /\
    requests Sample.host = [] /\
    requests p' = [submission document] /\
    files p' !! "invoices/2024-01-06.pdf" = Some Sample.pdf.
Proof.
  split; [exists "01-06-2024", "0"; repeat split; reflexivity|].
  split; [reflexivity|]. split; [reflexivity|].
  eexists _, _. split; [vm_compute; reflexivity|].
  split; [reflexivity|]. split; [reflexivity|].
  vm_compute. reflexivity.
Qed.

(** The batch of the two rows (A, 100) and (B, -50) sends one request, for
    A. *)
Example batch_of_two :
  exists members p',
    main Sample.rt Sample.f [Sample.row_a; Sample.row_b] Sample.host
    = (inr tt, p') /\
    requests p' = [submission (JObj members)] /\
    dict_get "to" members = Some (JStr "A").
Proof.
  eexists _, _. split; [vm_compute; reflexivity|].
  split; reflexivity.
Qed.

(** * Further properties of the code *)

(** ** What [_to_json] does to the process *)

Section ProcessEffect.
Variable rt : runtime.

Lemma process_kept_ret {A} (a : A) : keeps_process (ret a).
Proof. intros s r s' H. now injection H as <- <-. Qed.

Lemma process_kept_raise {A} (e : exn) : keeps_process (@raise _ A e).
Proof. intros s r s' H. now injection H as <- <-. Qed.

Lemma process_kept_lift {A} (x : exn + A) : keeps_process (lift x).
Proof. destruct x; [apply process_kept_raise | apply process_kept_ret]. Qed.

Lemma process_kept_on_fst {A} (c : M dict A) : keeps_process (on_fst c).
Proof.
  intros [d p] r s' H. unfold on_fst in H. simpl in H.
  destruct (c d) as [r0 d0]. now injection H as <- <-.
Qed.

Lemma process_kept_bind {A B} (c : M (dict * process) A)
    (k : A -> M (dict * process) B) :
  keeps_process c -> (forall a, keeps_process (k a)) -> keeps_process (bind c k).
Proof.
  intros Hc Hk s r s' H. unfold bind in H.
  destruct (c s) as [[e|a] s1] eqn:E.
  - injection H as <- <-. exact (Hc _ _ _ E).
  - rewrite (Hk a _ _ _ H). exact (Hc _ _ _ E).
Qed.

Lemma process_kept_strftime (fmt : string) (v : value) :
  keeps_process (on_snd (strftime rt fmt v)).
Proof.
  intros [d p] r s' H. unfold on_snd, strftime in H. simpl in H.
  destruct v; now injection H as <- <-.
Qed.

Ltac process_kept :=
  repeat first
    [ apply process_kept_on_fst | apply process_kept_strftime
    | apply process_kept_lift | apply process_kept_ret
    | apply process_kept_raise
    | apply process_kept_bind; [|intros ?]
    | match goal with
      | |- keeps_process (match ?x with _ => _ end) => destruct x
      end ].

(** X1.  Whatever the instance and whether the call returns or raises,
    [_to_json] leaves the process with the locale of the class in force and
    restores nothing; nothing else of the process changes.  On a host
    without that locale it raises a [LocaleError] and touches neither the
    instance nor the process. *)
Theorem to_json_process (d : dict) (p : process) :
  if locale_installed LOCALE p
  then snd (snd (_to_json rt (d, p))) = with_locale LOCALE p
  else _to_json rt (d, p)
       = (inl (LocaleError "unsupported locale setting"), (d, p)).
Proof.
  destruct (locale_installed LOCALE p) eqn:Hloc.
  - unfold _to_json. unfold bind at 1. unfold on_snd at 1. unfold setlocale.
    cbn [fst snd]. rewrite Hloc.
    match goal with
    | |- snd (snd (?c ?s)) = _ =>
        assert (K : keeps_process c) by process_kept;
        destruct (c s) as [r s'] eqn:E
    end.
    cbn [snd]. now rewrite (K _ _ _ E).
  - unfold _to_json, bind, on_snd, setlocale. cbn [fst snd]. now rewrite Hloc.
Qed.
End ProcessEffect.

(** ** How [_to_json] fails *)

(** The errors of [json.dumps] are [TypeError]s. *)
Lemma dumps_type_error (v : value) :
  forall e, dumps v = inl e -> exists msg, e = TypeError msg.
Proof.
  revert v. fix IH 1. intros v e.
  destruct v as [| | | | | | |l|d|c attrs]; simpl; try discriminate.
  - intros H. injection H as <-. eexists. reflexivity.
  - intros H. injection H as <-. eexists. reflexivity.
  - destruct (traverse dumps l) as [e'|js] eqn:El; [|discriminate].
    intros H. injection H as <-. revert e' El.
    induction l as [|x l IHl]; simpl; intros e' El; [discriminate|].
    destruct (dumps x) as [e''|y] eqn:Ex.
    + injection El as <-. exact (IH x e'' Ex).
    + destruct (traverse dumps l) as [e''|ys] eqn:El'; [|discriminate].
      injection El as <-. exact (IHl e'' eq_refl).
  - destruct (traverse _ d) as [e'|ms] eqn:El; [|discriminate].
    intros H. injection H as <-. revert e' El.
    induction d as [|[k x] d IHd]; simpl; intros e' El; [discriminate|].
    destruct (dumps x) as [e''|y] eqn:Ex.
    + injection El as <-. exact (IH x e'' Ex).
    + destruct (traverse _ d) as [e''|ys] eqn:El'; [|discriminate].
      injection El as <-. exact (IHd e'' eq_refl).
  - intros H. injection H as <-. eexists. reflexivity.
Qed.

Lemma dates_in_place_view (v : view) :
  dates_in_place (state_of v) = dates_ready v.
Proof. reflexivity. Qed.

Section Failures.
Variable rt : runtime.

Local Arguments format_date : simpl never.
Local Arguments dict_update : simpl never.
Local Arguments dumps : simpl never.

(** X2.  When the issue date of an invoice is not a date (a string, say),
    [_to_json] raises an [AttributeError] at the first [strftime]; by then
    it has added ["from"] to the instance, which keeps its ["sender"], and
    has set the locale. *)
Theorem to_json_bad_date (d : dict) (p : process) (date : value) :
  reachable d ->
  locale_installed LOCALE p = true ->
  dict_get "date" d = Some date ->
  is_date date = false ->
  exists sender,
    dict_get "sender" d = Some sender /\
    dict_get "from" d = None /\
    _to_json rt (d, p)
    = (inl (AttributeError "strftime"),
       (dict_set "from" sender d, with_locale LOCALE p)).
Proof.
  intros Hd Hloc Hget Hdate.
  destruct (reachable_view d Hd) as [v [-> _]].
  destruct v as [a dt cfs its flds tpl].
  simpl in Hget. injection Hget as ->.
  exists (a_sender a). split; [reflexivity|]. split; [reflexivity|].
  unfold _to_json, bind, on_snd, on_fst, setlocale.
  cbn [fst snd]. rewrite Hloc.
  destruct date; try discriminate Hdate; reflexivity.
Qed.

(** X3.  When the issue date is a date but the due date is neither [None]
    nor a date, [_to_json] raises an [AttributeError] at the second
    [strftime]; the instance has then ["from"] added and its issue date
    already replaced by the formatted string. *)
Theorem to_json_bad_due_date (d : dict) (p : process) (date due : value)
    (y m dd : Z) :
  reachable d ->
  locale_installed LOCALE p = true ->
  dict_get "date" d = Some date ->
  calendar date = Some (y, m, dd) ->
  dict_get "due_date" d = Some due ->
  is_date_or_none due = false ->
  exists sender,
    dict_get "sender" d = Some sender /\
    _to_json rt (d, p)
    = (inl (AttributeError "strftime"),
       (dict_set "date" (VStr (format_date abmon_en y m dd DATE_FORMAT))
          (dict_set "from" sender d),
        with_locale LOCALE p)).
Proof.
  intros Hd Hloc Hget Hcal Hgetdue Hdue.
  destruct (reachable_view d Hd) as [v [-> _]].
  destruct v as [a dt cfs its flds tpl]. destruct a.
  simpl in Hget, Hgetdue. injection Hget as ->. injection Hgetdue as ->.
  exists a_sender0. split; [reflexivity|].
  unfold _to_json, bind, on_snd, on_fst, setlocale.
  cbn [fst snd]. rewrite Hloc.
  destruct date; try discriminate Hcal; injection Hcal as -> -> ->;
    destruct due; try discriminate Hdue; reflexivity.
Qed.

(** X4.  When the dates are in place but some attribute of the invoice has
    no JSON form, [_to_json] raises the [TypeError] of [json.dumps] only
    after it has rewritten the instance: ["sender"] and ["template"] are
    gone, ["from"] holds the sender, and a further call raises an
    [AttributeError] even if the offending value is repaired. *)
Theorem to_json_not_serializable (d : dict) (p : process) :
  reachable d ->
  locale_installed LOCALE p = true ->
  dates_in_place d = true ->
  wire_ready d = false ->
  exists msg d',
    _to_json rt (d, p) = (inl (TypeError msg), (d', with_locale LOCALE p)) /\
    dict_get "sender" d' = None /\
    dict_get "template" d' = None /\
    dict_get "from" d' = dict_get "sender" d /\
    (exists s, dict_get "date" d' = Some (VStr s)) /\
    fst (_to_json rt (d', with_locale LOCALE p))
    = inl (AttributeError "strftime").
Proof.
  intros Hd Hloc Hdates Hready.
  destruct (reachable_view d Hd) as [v [-> Hok]].
  rewrite dates_in_place_view in Hdates.
  assert (Hdate : is_date (v_date v) = true).
  { unfold dates_ready in Hdates. now apply andb_true_iff in Hdates. }
  destruct (dumps (VDict (wire_state v))) as [e|j] eqn:Hdumps.
  2:{ apply dumps_dict_inv in Hdumps.
      rewrite (wire_ready_intro v Hdates Hdumps) in Hready. discriminate. }
  destruct (dumps_type_error _ _ Hdumps) as [msg ->].
  exists msg, (wire_state v).
  split.
  { rewrite to_json_rewrites by assumption. now rewrite Hdumps. }
  rewrite !(wire_state_get_attribute v _ Hok)
    by (unfold wire_attributes; simpl; tauto).
  repeat (split; [reflexivity|]).
  split.
  - destruct (is_date_calendar _ Hdate) as [y [m [dd Hcal]]].
    eexists. cbn. now rewrite (formatted_calendar _ _ _ _ Hcal).
  - rewrite to_json_wire_state; [reflexivity|exact Hdate|exact Hok|reflexivity || exact Hloc].
Qed.

(** X5.  After a successful [_to_json] the instance has no ["template"]
    attribute any more: [set_template_text] with a key of the allow-list
    raises an [AttributeError] and stores nothing, while [add_item] still
    returns and appends an [Item] object behind the items that the
    serialization has turned into dicts. *)
Theorem mutators_after_to_json (d : dict) (p : process) (k : string)
    (x n q u ds : value) :
  reachable d -> wire_ready d = true -> locale_installed LOCALE p = true ->
  In k TEMPLATE_PARAMETERS ->
  exists document d1 p1 l,
    _to_json rt (d, p) = (inr document, (d1, p1)) /\
    set_template_text k x d1 = (inl (AttributeError "template"), d1) /\
    dict_get "items" d1 = Some (VList l) /\
    add_item n q u ds d1
    = (inr tt, dict_set "items" (VList (l ++ [Item.__init__ n q u ds])) d1).
Proof.
  intros Hd Hready Hloc Hin.
  destruct (reachable_to_json rt d p Hd Hready Hloc) as [v [-> [Hok Hrun]]].
  apply is_template_parameter_In in Hin.
  exists (JObj (map encode_entry (wire_state v))), (wire_state v),
    (with_locale LOCALE p), (map item_dict (v_items v)).
  split; [exact Hrun|].
  assert (Htemplate : dict_get "template" (wire_state v) = None).
  { now rewrite (wire_state_get_attribute v _ Hok)
      by (unfold wire_attributes; simpl; tauto). }
  assert (Hitems : dict_get "items" (wire_state v)
                   = Some (VList (map item_dict (v_items v)))).
  { now rewrite (wire_state_get_attribute v _ Hok)
      by (unfold wire_attributes; simpl; tauto). }
  split.
  { unfold set_template_text. rewrite Hin.
    unfold bind, getattr. now rewrite Htemplate. }
  split; [exact Hitems|].
  unfold add_item, append_to, bind, getattr. rewrite Hitems. reflexivity.
Qed.
End Failures.

(** ** The shape of the instance and of the document *)

Lemma wire_ready_containers (v : view) :
  wire_ready (state_of v) = true ->
  forallb attributes_serializable (map field_object (v_custom_fields v)) = true /\
  serializable (v_fields v) = true /\
  values_serializable (scalar_attributes (v_args v)) = true.
Proof.
  intros Hready.
  destruct v as [a dt cfs its flds tpl]. destruct a.
  unfold wire_ready, state_of in Hready. project_in Hready.
  split_andb Hready.
  split; [assumption|]. split; [assumption|].
  unfold values_serializable, scalar_attributes.
  cbn [forallb snd a_logo a_to a_ship_to a_number a_currency
       a_payments_terms a_discounts a_tax a_shipping a_amount_paid a_notes
       a_terms].
  repeat (apply andb_true_iff; split); solve [assumption | reflexivity].
Qed.

Lemma apply_calls_fields (cs : list call) (v : view) :
  v_custom_fields (apply_calls cs v)
  = (v_custom_fields v ++ added_fields cs)%list.
Proof.
  unfold apply_calls. revert v.
  induction cs as [|c cs IH]; simpl; intros v; [now rewrite app_nil_r|].
  rewrite IH.
  destruct c as [n q u ds|n x|k x|t d s]; simpl;
    [reflexivity | now rewrite <- app_assoc | | reflexivity].
  destruct (is_template_parameter k); reflexivity.
Qed.

Lemma apply_calls_args (cs : list call) (v : view) :
  v_args (apply_calls cs v) = v_args v.
Proof.
  unfold apply_calls. revert v.
  induction cs as [|c cs IH]; simpl; intros v; [reflexivity|].
  rewrite IH.
  destruct c as [n q u ds|n x|k x|t d s]; simpl; try reflexivity.
  destruct (is_template_parameter k); reflexivity.
Qed.

Lemma fold_toggle_some (cs : list call) (x : value * value * value) :
  fold_left (fun acc c => match c with
                          | ToggleSubtotal t d s => Some (t, d, s)
                          | _ => acc
                          end) cs (Some x)
  = match last_toggle cs with Some y => Some y | None => Some x end.
Proof.
  unfold last_toggle. revert x.
  induction cs as [|c cs IH]; simpl; intros x; [reflexivity|].
  destruct c as [n q u ds|n y|k y|t d s]; try apply IH.
  rewrite !IH. destruct (fold_left _ cs None); reflexivity.
Qed.

Lemma apply_calls_toggle (cs : list call) (v : view) :
  v_fields (apply_calls cs v)
  = match last_toggle cs with
    | Some (t, d, s) => VDict [("tax", t); ("discounts", d); ("shipping", s)]
    | None => v_fields v
    end.
Proof.
  revert v. induction cs as [|c cs IH]; intros v; [reflexivity|].
  change (apply_calls (c :: cs) v) with (apply_calls cs (apply_call c v)).
  rewrite IH.
  destruct c as [n q u ds|n y|k y|t d s]; try reflexivity.
  - unfold last_toggle. simpl.
    destruct (is_template_parameter k); reflexivity.
  - unfold last_toggle at 2. simpl. rewrite fold_toggle_some.
    destruct (last_toggle cs) as [[[t' d'] s']|]; reflexivity.
Qed.

Lemma encode_field (cf : value * value) :
  attributes_serializable (field_object cf) = true ->
  encode (field_dict cf)
  = JObj [("name", encode (fst cf)); ("value", encode (snd cf))].
Proof.
  destruct cf as [n x]. intros H.
  unfold encode at 1, field_dict. rewrite dumps_dict by exact H. reflexivity.
Qed.

Lemma fields_serializable_nth (l : list (value * value)) (i : nat)
    (n x : value) :
  forallb attributes_serializable (map field_object l) = true ->
  nth_error l i = Some (n, x) ->
  serializable n = true /\ serializable x = true /\
  nth_error (map encode (map field_dict l)) i
  = Some (JObj [("name", encode n); ("value", encode x)]).
Proof.
  revert i. induction l as [|cf l IH]; intros i H Hnth.
  - destruct i; discriminate.
  - cbn [map forallb] in H. apply andb_true_iff in H. destruct H as [Hcf Hl].
    destruct i as [|i]; simpl in Hnth.
    + injection Hnth as ->. cbn [map nth_error].
      rewrite (encode_field _ Hcf).
      unfold attributes_serializable, field_object, CustomField.__init__,
        values_serializable in Hcf.
      cbn [forallb snd fst] in Hcf. split_andb Hcf. auto.
    + cbn [map nth_error]. now apply IH.
Qed.

Lemma nodup_append {A : Type} (l k : list A) :
  List.NoDup l -> List.NoDup k -> (forall x, In x l -> ~ In x k) ->
  List.NoDup (l ++ k).
Proof.
  induction l as [|a l IH]; simpl; intros Hl Hk Hdisj; [exact Hk|].
  inversion Hl as [|? ? Hout Hrest]; subst.
  constructor.
  - rewrite in_app_iff. intros [Hin|Hin]; [contradiction|].
    apply (Hdisj a); [now left | exact Hin].
  - apply IH; [exact Hrest | exact Hk |].
    intros x Hx. apply Hdisj. now right.
Qed.

Section Shape.
Variable rt : runtime.

(** X6.  The calls never add, remove or reorder attributes, and never raise
    on an invoice that has not been serialized, unless the call is a
    [set_template_text] with a key outside the allow-list: the instance
    keeps the nineteen attributes of the constructor, its items are [Item]
    objects and its custom fields [CustomField] objects. *)
Theorem calls_keep_shape (d : dict) (c : call) :
  reachable d ->
  dict_keys d = constructor_attributes /\
  dict_keys (snd (run_call c d)) = constructor_attributes /\
  (accepted_call c = true -> fst (run_call c d) = inr tt) /\
  exists its cfs,
    dict_get "items" d = Some (VList (map item_object its)) /\
    dict_get "custom_fields" d = Some (VList (map field_object cfs)).
Proof.
  intros Hd. destruct (reachable_view d Hd) as [v [-> _]].
  split; [reflexivity|]. split.
  { rewrite run_call_state_of. reflexivity. }
  split.
  - destruct c as [n q u ds|n x|k x|t dd s]; try reflexivity.
    simpl. intros Hk. unfold set_template_text. rewrite Hk. reflexivity.
  - exists (v_items v), (v_custom_fields v). split; reflexivity.
Qed.

(** X7.  The document of an invoice has a ["custom_fields"] array with one
    entry per [add_custom_field] call, in the order of the calls; the entry
    at position [i] is an object whose [name] and [value] are the JSON
    forms of the arguments of the [i]-th call. *)
Theorem to_json_custom_fields (f : init_function) (a : init_args)
    (cs : list call) (p : process) :
  let d := run_calls cs (__init__ f a) in
  wire_ready d = true -> locale_installed LOCALE p = true ->
  exists members s' arr,
    _to_json rt (d, p) = (inr (JObj members), s') /\
    dict_get "custom_fields" members = Some (JArr arr) /\
    length arr = length (added_fields cs) /\
    forall i n x,
      nth_error (added_fields cs) i = Some (n, x) ->
      exists jn jx,
        dumps n = inr jn /\ dumps x = inr jx /\
        nth_error arr i = Some (JObj [("name", jn); ("value", jx)]).
Proof.
  intros d Hready Hloc. subst d.
  rewrite init_state_of, run_calls_state_of in *.
  set (v := apply_calls cs (init_view f a)) in *.
  assert (Hok : template_ok (v_template v)).
  { apply apply_calls_template_ok. split; simpl; [constructor | tauto]. }
  assert (Hfields : v_custom_fields v = added_fields cs).
  { unfold v. rewrite apply_calls_fields. reflexivity. }
  destruct (wire_ready_containers v Hready) as [Hcfs _].
  exists (map encode_entry (wire_state v)), (wire_state v, with_locale LOCALE p),
    (map encode (map field_dict (v_custom_fields v))).
  split; [now apply to_json_state_of|].
  split.
  { rewrite dict_get_map_encode.
    rewrite (wire_state_get_attribute v "custom_fields" Hok)
      by (unfold wire_attributes; simpl; tauto).
    cbn. f_equal. unfold encode at 1.
    now rewrite dumps_list by now apply field_dicts_serializable. }
  rewrite Hfields in *.
  split; [now rewrite !length_map|].
  intros i n x Hnth.
  destruct (fields_serializable_nth _ _ _ _ Hcfs Hnth) as [Hn [Hx Harr]].
  exists (encode n), (encode x).
  split; [now apply serializable_dumps|].
  split; [now apply serializable_dumps | exact Harr].
Qed.

(** X8.  [toggle_subtotal] replaces the display toggles wholesale: the
    ["fields"] member of the document holds the three arguments of the last
    [toggle_subtotal] call of the session and nothing of the earlier ones;
    without such a call it holds the toggles of the constructor, a
    percentage tax and no discounts or shipping line. *)
Theorem to_json_toggles (f : init_function) (a : init_args)
    (cs : list call) (p : process) :
  let d := run_calls cs (__init__ f a) in
  wire_ready d = true -> locale_installed LOCALE p = true ->
  exists members s',
    _to_json rt (d, p) = (inr (JObj members), s') /\
    match last_toggle cs with
    | Some (t, ds, s) =>
        exists jt jd js,
          dumps t = inr jt /\ dumps ds = inr jd /\ dumps s = inr js /\
          dict_get "fields" members
          = Some (JObj [("tax", jt); ("discounts", jd); ("shipping", js)])
    | None =>
        dict_get "fields" members
        = Some (JObj [("tax", JStr "%"); ("discounts", JBool false);
                      ("shipping", JBool false)])
    end.
Proof.
  intros d Hready Hloc. subst d.
  rewrite init_state_of, run_calls_state_of in *.
  set (v := apply_calls cs (init_view f a)) in *.
  assert (Hok : template_ok (v_template v)).
  { apply apply_calls_template_ok. split; simpl; [constructor | tauto]. }
  destruct (wire_ready_containers v Hready) as [_ [Hflds _]].
  exists (map encode_entry (wire_state v)), (wire_state v, with_locale LOCALE p).
  split; [now apply to_json_state_of|].
  rewrite dict_get_map_encode.
  rewrite (wire_state_get_attribute v "fields" Hok)
    by (unfold wire_attributes; simpl; tauto).
  cbn [wire_state firstn app dict_get String.eqb Ascii.eqb Bool.eqb option_map].
  unfold v in *. rewrite apply_calls_toggle in *.
  destruct (last_toggle cs) as [[[t ds] s]|].
  - apply serializable_dict_inv in Hflds.
    unfold values_serializable in Hflds. cbn [forallb snd] in Hflds.
    split_andb Hflds.
    exists (encode t), (encode ds), (encode s).
    repeat (split; [now apply serializable_dumps|]).
    unfold encode at 1. rewrite dumps_dict; [reflexivity|].
    unfold values_serializable. cbn [forallb snd].
    now rewrite Hs, Hs0, Hs1.
  - reflexivity.
Qed.

(** X9.  The arguments of the constructor other than the sender and the two
    dates reach the document under the name of their attribute, whatever
    calls were made in between: no call changes them.  The parameter
    [payments_terms] arrives as the member ["payment_terms"]. *)
Theorem to_json_scalars (f : init_function) (a : init_args)
    (cs : list call) (p : process) :
  let d := run_calls cs (__init__ f a) in
  wire_ready d = true -> locale_installed LOCALE p = true ->
  exists members s',
    _to_json rt (d, p) = (inr (JObj members), s') /\
    forall name x,
      In (name, x) (scalar_attributes a) ->
      exists j, dumps x = inr j /\ dict_get name members = Some j.
Proof.
  intros d Hready Hloc. subst d.
  rewrite init_state_of, run_calls_state_of in *.
  set (v := apply_calls cs (init_view f a)) in *.
  assert (Hok : template_ok (v_template v)).
  { apply apply_calls_template_ok. split; simpl; [constructor | tauto]. }
  assert (Hargs : v_args v = a).
  { unfold v. now rewrite apply_calls_args. }
  destruct (wire_ready_containers v Hready) as [_ [_ Hscalars]].
  rewrite Hargs in Hscalars.
  exists (map encode_entry (wire_state v)), (wire_state v, with_locale LOCALE p).
  split; [now apply to_json_state_of|].
  intros name x Hin. exists (encode x).
  assert (Hx : serializable x = true).
  { unfold values_serializable in Hscalars.
    rewrite forallb_forall in Hscalars. exact (Hscalars _ Hin). }
  split; [now apply serializable_dumps|].
  rewrite dict_get_map_encode.
  unfold scalar_attributes in Hin. simpl in Hin.
  repeat (destruct Hin as [Hin|Hin];
          [injection Hin as <- <-;
           rewrite (wire_state_get_attribute v _ Hok)
             by (unfold wire_attributes; simpl; tauto);
           cbn; now rewrite Hargs|]).
  contradiction.
Qed.

(** X10.  The members of the document are the seventeen attributes that
    [_to_json] keeps, in the order of the constructor, then ["from"], then
    the keys of the template overrides in the order that they have in the
    template of the instance; no name occurs twice. *)
Theorem to_json_member_names (d : dict) (p : process) :
  reachable d -> wire_ready d = true -> locale_installed LOCALE p = true ->
  exists members s' t,
    _to_json rt (d, p) = (inr (JObj members), s') /\
    dict_get "template" d = Some (VDict t) /\
    dict_keys members = (document_attributes ++ dict_keys t)%list /\
    List.NoDup (dict_keys members).
Proof.
  intros Hd Hready Hloc.
  destruct (reachable_to_json rt d p Hd Hready Hloc) as [v [-> [Hok Hrun]]].
  exists (map encode_entry (wire_state v)), (wire_state v, with_locale LOCALE p),
    (v_template v).
  split; [exact Hrun|]. split; [reflexivity|].
  assert (Hkeys : dict_keys (map encode_entry (wire_state v))
                  = (document_attributes ++ dict_keys (v_template v))%list).
  { unfold dict_keys. rewrite map_map. unfold wire_state.
    rewrite map_app. reflexivity. }
  split; [exact Hkeys|]. rewrite Hkeys.
  destruct Hok as [Hnd Hsub].
  apply nodup_append.
  - unfold document_attributes.
    repeat (constructor; [simpl; intuition discriminate|]). constructor.
  - exact Hnd.
  - intros k Hattr Hk.
    apply (template_parameter_not_attribute k (Hsub k Hk)).
    unfold document_attributes in Hattr. unfold wire_attributes.
    simpl in *. tauto.
Qed.
End Shape.

(** ** The outcomes of [download] *)

Section Outcomes.
Variable rt : runtime.

(** X11.  [download] returns only when the service has answered 200: if the
    call returns, then [_to_json] returned a document, one request carrying
    it was sent, the answer had status 200 and the file at the path holds
    the bytes of the answer. *)
Theorem download_returns_only_on_200 (d d' : dict) (p p' : process)
    (file_path : string) :
  download rt file_path (d, p) = (inr tt, (d', p')) ->
  exists document p1 resp,
    _to_json rt (d, p) = (inr document, (d', p1)) /\
    server rt (submission document :: requests p) = inr resp /\
    status_code resp = 200 /\
    requests p' = submission document :: requests p /\
    files p' = <[file_path := content resp]> (files p).
Proof.
  intros H.
  destruct (_to_json rt (d, p)) as [[e|document] [d1 p1]] eqn:Hrun.
  { unfold download, bind in H. rewrite Hrun in H. discriminate. }
  destruct (to_json_keeps_world rt _ _ _ Hrun) as [Hfiles [Hreqs _]].
  cbn [snd] in Hfiles, Hreqs.
  rewrite (download_after_to_json rt _ _ _ _ _ file_path Hrun) in H.
  cbv zeta in H.
  destruct (server rt _) as [e|resp] eqn:Hserver; [discriminate|].
  pose proof (server_answer_encodable rt _ _ _ Hserver) as Henc.
  cbn [req_json submission] in Henc. rewrite Henc in H.
  destruct (Z.eqb_spec (status_code resp) 200) as [H200|_].
  2:{ destruct (json_body resp); discriminate. }
  injection H as <- <-.
  exists document, p1, resp.
  repeat split; try assumption.
  - cbn [requests with_file with_request]. now rewrite Hreqs.
  - cbn [files with_file with_request]. now rewrite Hfiles.
Qed.

(** X12.  [download] opens the file only after an answer of status 200.
    Unless [_to_json] returns a document and the POST of it returns such an
    answer, the call raises, on whatever instance, and every file is as it
    was. *)
Theorem download_without_200 (d : dict) (p : process) (file_path : string) :
  (forall document s resp,
      _to_json rt (d, p) = (inr document, s) ->
      server rt (submission document :: requests p) = inr resp ->
      status_code resp <> 200) ->
  exists e d' p',
    download rt file_path (d, p) = (inl e, (d', p')) /\
    files p' = files p.
Proof.
  intros Hnot.
  destruct (_to_json rt (d, p)) as [[e'|document] [d1 p1]] eqn:Hrun.
  - destruct (to_json_keeps_world rt _ _ _ Hrun) as [Hfiles _].
    exists e', d1, p1. split; [|exact Hfiles].
    unfold download, bind. now rewrite Hrun.
  - destruct (to_json_keeps_world rt _ _ _ Hrun) as [Hfiles _].
    cbn [snd] in Hfiles.
    assert (Hsent : files (if encodable document
                           then with_request (submission document) p1
                           else p1) = files p)
      by (destruct (encodable document); exact Hfiles).
    rewrite (download_after_to_json rt _ _ _ _ _ file_path Hrun). cbv zeta.
    specialize (Hnot document (d1, p1)).
    destruct (server rt _) as [e'|resp].
    + eexists _, _, _. split; [reflexivity | exact Hsent].
    + specialize (Hnot resp eq_refl eq_refl).
      destruct (Z.eqb_spec (status_code resp) 200); [contradiction|].
      destruct (json_body resp); eexists _, _, _;
        (split; [reflexivity | exact Hsent]).
Qed.

(** X13.  When [_to_json] raises, [download] raises the same error in the
    same state: no request is sent and no file is written. *)
Theorem download_without_document (d d' : dict) (p p' : process)
    (file_path : string) (e : exn) :
  _to_json rt (d, p) = (inl e, (d', p')) ->
  download rt file_path (d, p) = (inl e, (d', p')) /\
  requests p' = requests p /\
  files p' = files p.
Proof.
  intros Hrun.
  destruct (to_json_keeps_world rt _ _ _ Hrun) as [Hfiles [Hreqs _]].
  split; [|split; assumption].
  unfold download, bind. now rewrite Hrun.
Qed.

(** X14.  Once [_to_json] has returned a document that holds neither NaN
    nor an infinity, [download] sends exactly one request, whatever the
    service then does: a POST of that document to the URL of the class with
    the locale of the class as [Accept-Language] header.  For a document
    that holds one, [requests] raises [InvalidJSONError] before anything is
    sent: the process is as [_to_json] left it, without a request and
    without a file. *)
Theorem download_sends_one_request (d d1 : dict) (p p1 : process)
    (document : json) (file_path : string) :
  _to_json rt (d, p) = (inr document, (d1, p1)) ->
  (encodable document = true ->
   exists r p',
     download rt file_path (d, p) = (r, (d1, p')) /\
     requests p'
     = {| req_url := "https://invoice-generator.com";
          req_json := document;
          req_headers := [("Accept-Language", "en_US.utf8")] |}
       :: requests p) /\
  (encodable document = false ->
   download rt file_path (d, p) = (inl InvalidJSONError, (d1, p1)) /\
   requests p1 = requests p /\
   files p1 = files p).
Proof.
  intros Hrun.
  destruct (to_json_keeps_world rt _ _ _ Hrun) as [Hfiles [Hreqs _]].
  cbn [snd] in Hfiles, Hreqs.
  rewrite (download_after_to_json rt _ _ _ _ _ file_path Hrun). cbv zeta.
  split.
  - intros ->.
    destruct (server rt _) as [e|resp].
    + eexists _, _. split; [reflexivity|].
      cbn [requests with_request]. now rewrite Hreqs.
    + destruct (status_code resp =? 200).
      * eexists _, _. split; [reflexivity|].
        cbn [requests with_file with_request]. now rewrite Hreqs.
      * destruct (json_body resp); eexists _, _;
          (split; [reflexivity|]);
          cbn [requests with_request]; now rewrite Hreqs.
  - intros Henc.
    rewrite (server_refuses rt (submission document) (requests p) Henc), Henc.
    repeat split; assumption.
Qed.

(** X15.  When the service answers another status than 200 with a body that
    is not JSON, [download] raises the decoding error of [response.json()]
    instead of the message with the status code; when the connection fails,
    the error of [requests.post] comes through.  Neither writes a file. *)
Theorem download_other_errors (d d1 : dict) (p p1 : process)
    (document : json) (file_path : string) :
  _to_json rt (d, p) = (inr document, (d1, p1)) ->
  (forall resp,
      server rt (submission document :: requests p) = inr resp ->
      status_code resp <> 200 -> json_body resp = None ->
      exists p',
        download rt file_path (d, p) = (inl JSONDecodeError, (d1, p')) /\
        files p' = files p) /\
  (forall e,
      server rt (submission document :: requests p) = inl e ->
      exists p',
        download rt file_path (d, p) = (inl e, (d1, p')) /\
        files p' = files p).
Proof.
  intros Hrun.
  destruct (to_json_keeps_world rt _ _ _ Hrun) as [Hfiles _].
  cbn [snd] in Hfiles.
  assert (Hsent : files (if encodable document
                         then with_request (submission document) p1
                         else p1) = files p)
    by (destruct (encodable document); exact Hfiles).
  rewrite (download_after_to_json rt _ _ _ _ _ file_path Hrun). cbv zeta.
  split.
  - intros resp -> Hnot ->.
    destruct (Z.eqb_spec (status_code resp) 200); [contradiction|].
    eexists. split; [reflexivity | exact Hsent].
  - intros e ->. eexists. split; [reflexivity | exact Hsent].
Qed.

(** X16.  An invoice can be downloaded once.  Whatever the outcome of the
    first [download] of an invoice that [_to_json] accepts, a second
    [download] of the same instance raises an [AttributeError] before
    anything is sent: the process is exactly as the first call left it. *)
Theorem download_twice (d : dict) (p : process) (path path' : string) :
  reachable d -> wire_ready d = true -> locale_installed LOCALE p = true ->
  exists r d1 p1,
    download rt path (d, p) = (r, (d1, p1)) /\
    download rt path' (d1, p1)
    = (inl (AttributeError "strftime"), (dict_set "from" VNone d1, p1)).
Proof.
  intros Hd Hready Hloc.
  destruct (reachable_to_json rt d p Hd Hready Hloc) as [v [-> [Hok Hrun]]].
  destruct (wire_ready_view v Hready) as [_ [Hdate _]].
  assert (Hagain : forall p1,
             locale_installed LOCALE p1 = true ->
             with_locale LOCALE p1 = p1 ->
             download rt path' (wire_state v, p1)
             = (inl (AttributeError "strftime"),
                (dict_set "from" VNone (wire_state v), p1))).
  { intros p1 Hloc1 Hsame. unfold download, bind.
    rewrite to_json_wire_state by assumption. now rewrite Hsame. }
  rewrite (download_after_to_json rt _ _ _ _ _ path Hrun). cbv zeta.
  destruct (server rt _) as [e|resp].
  - eexists _, _, _. split; [reflexivity|].
    destruct (encodable _); (apply Hagain; [exact Hloc | reflexivity]).
  - destruct (status_code resp =? 200).
    + eexists _, _, _. split; [reflexivity|].
      destruct (encodable _); (apply Hagain; [exact Hloc | reflexivity]).
    + destruct (json_body resp); eexists _, _, _;
        (split; [reflexivity|]);
        (destruct (encodable _); (apply Hagain; [exact Hloc | reflexivity])).
Qed.
End Outcomes.

(** ** [clean] *)

Lemma dict_set_keys {A : Type} (k : string) (v : A) (d : list (string * A)) :
  In k (dict_keys d) -> dict_keys (dict_set k v d) = dict_keys d.
Proof.
  induction d as [|[k' v'] d IH]; simpl; intros Hin; [contradiction|].
  destruct (String.eqb_spec k k') as [->|Hne]; [reflexivity|].
  simpl. f_equal. apply IH. destruct Hin; congruence.
Qed.

Section Clean.
Variable rt : runtime.

(** X17.  On a record whose date and amount columns hold strings that
    [strptime] and [float] accept, [clean] returns and has rewritten the
    record in place: the two columns hold the parsed date and the parsed
    amount, the columns keep their order and every other column keeps its
    value. *)
Theorem clean_accepts (record : dict) (raw_date raw_amount : string)
    (y m d : Z) (x : spec_float) :
  dict_get date_key record = Some (VStr raw_date) ->
  strptime rt raw_date "%m-%d-%Y" = Some (y, m, d) ->
  dict_get amount record = Some (VStr raw_amount) ->
  float rt raw_amount = Some x ->
  exists row,
    clean rt record = (inr tt, row) /\
    dict_get date_key row = Some (VDate y m d) /\
    dict_get amount row = Some (VFloat x) /\
    dict_keys row = dict_keys record /\
    forall k, k <> date_key -> k <> amount -> dict_get k row = dict_get k record.
Proof.
  intros Hd Hpd Ha Hpa.
  exists (dict_set amount (VFloat x) (dict_set date_key (VDate y m d) record)).
  split.
  { unfold clean, bind, getitem, setitem, modify, ret.
    rewrite Hd, Hpd. rewrite dict_get_set_ne by discriminate.
    rewrite Ha, Hpa. reflexivity. }
  split.
  { rewrite dict_get_set_ne by discriminate. apply dict_get_set_eq. }
  split; [apply dict_get_set_eq|]. split.
  - rewrite !dict_set_keys; [reflexivity | |].
    + now apply (dict_get_Some_keys _ (VStr raw_date)).
    + apply dict_keys_set. right.
      now apply (dict_get_Some_keys _ (VStr raw_amount)).
  - intros k Hk1 Hk2. rewrite !dict_get_set_ne by congruence. reflexivity.
Qed.

(** X18.  [clean] is not atomic: when the date parses and the amount does
    not, the call raises the [ValueError] of [float], and the record
    already holds the parsed date instead of the string. *)
Theorem clean_bad_amount (record : dict) (raw_date raw_amount : string)
    (y m d : Z) :
  dict_get date_key record = Some (VStr raw_date) ->
  strptime rt raw_date "%m-%d-%Y" = Some (y, m, d) ->
  dict_get amount record = Some (VStr raw_amount) ->
  float rt raw_amount = None ->
  exists msg row,
    clean rt record = (inl (ValueError msg), row) /\
    row = dict_set date_key (VDate y m d) record /\
    dict_get date_key row = Some (VDate y m d) /\
    dict_get amount row = Some (VStr raw_amount).
Proof.
  intros Hd Hpd Ha Hpa.
  eexists _, (dict_set date_key (VDate y m d) record).
  split.
  { unfold clean, bind, getitem, setitem, modify, ret, raise.
    rewrite Hd, Hpd. rewrite dict_get_set_ne by discriminate.
    rewrite Ha, Hpa. reflexivity. }
  split; [reflexivity|]. split; [apply dict_get_set_eq|].
  now rewrite dict_get_set_ne by discriminate.
Qed.

(** X19.  [clean] cannot be applied twice: on a record that it has cleaned,
    the date column holds a date object, [strptime] rejects it with a
    [TypeError], and the record stays as the first call left it. *)
Theorem clean_twice (record : dict) (raw_date raw_amount : string)
    (y m d : Z) (x : spec_float) :
  dict_get date_key record = Some (VStr raw_date) ->
  strptime rt raw_date "%m-%d-%Y" = Some (y, m, d) ->
  dict_get amount record = Some (VStr raw_amount) ->
  float rt raw_amount = Some x ->
  exists row msg,
    clean rt record = (inr tt, row) /\
    clean rt row = (inl (TypeError msg), row).
Proof.
  intros Hd Hpd Ha Hpa.
  exists (dict_set amount (VFloat x) (dict_set date_key (VDate y m d) record)).
  eexists. split.
  { unfold clean, bind, getitem, setitem, modify, ret.
    rewrite Hd, Hpd. rewrite dict_get_set_ne by discriminate.
    rewrite Ha, Hpa. reflexivity. }
  unfold clean, bind, getitem, raise.
  rewrite dict_get_set_ne by discriminate.
  rewrite dict_get_set_eq. reflexivity.
Qed.
End Clean.

(** ** The batch script *)

Section Script.
Variable rt : runtime.

Lemma main_app (f : init_function) (l1 l2 : list dict) (p : process) :
  main rt f (l1 ++ l2) p
  = match main rt f l1 p with
    | (inr _, p1) => main rt f l2 p1
    | (inl e, p1) => (inl e, p1)
    end.
Proof.
  revert p. induction l1 as [|r l1 IH]; intros p; [reflexivity|].
  cbn [app]. rewrite !main_step.
  destruct (process_row rt f r p) as [[e|[]] p1]; [reflexivity | apply IH].
Qed.

(** X20.  For a row that is not skipped and that the service accepts with
    status 200, the script sends one request with the document of the row
    (the constants of the script, the defaults of the constructor, and the
    description, date and amount of the row), writes the answer to
    [invoices/YYYY-MM-DD.pdf], pauses one second and goes on. *)
Theorem process_row_invoiced (f : init_function) (record : dict)
    (t : transaction) (p : process) (resp : response) :
  reads rt record t ->
  invoiced t = true ->
  serializable (t_description t) = true ->
  locale_installed LOCALE p = true ->
  server rt (row_request t :: requests p) = inr resp ->
  status_code resp = 200 ->
  exists p',
    process_row rt f record p = (inr tt, p') /\
    requests p' = row_request t :: requests p /\
    files p' = <[row_path (t_date t) := content resp]> (files p) /\
    slept p' = slept p + 1 /\
    lc_all p' = LOCALE.
Proof.
  intros Hreads Hkeep Hdesc Hloc Hserver H200.
  rewrite (process_row_run rt f record t p) by assumption.
  cbv zeta.
  rewrite Hserver, H200, (server_answer_encodable rt _ _ _ Hserver).
  eexists. split; [reflexivity|]. repeat split.
Qed.

(** X21.  When the service refuses the invoice of a row, the script stops
    with the exception of [download]: the request has been sent, no file is
    written and there is no pause. *)
Theorem process_row_refused (f : init_function) (record : dict)
    (t : transaction) (p : process) (resp : response) (body : value) :
  reads rt record t ->
  invoiced t = true ->
  serializable (t_description t) = true ->
  locale_installed LOCALE p = true ->
  server rt (row_request t :: requests p) = inr resp ->
  status_code resp <> 200 ->
  json_body resp = Some body ->
  exists msg p',
    process_row rt f record p = (inl (Exception msg), p') /\
    requests p' = row_request t :: requests p /\
    files p' = files p /\
    slept p' = slept p /\
    forall rest, main rt f (record :: rest) p = (inl (Exception msg), p').
Proof.
  intros Hreads Hkeep Hdesc Hloc Hserver Hnot Hbody.
  pose proof (process_row_run rt f record t p Hreads Hkeep Hdesc Hloc) as Hrow.
  cbv zeta in Hrow.
  rewrite Hserver, Hbody, (server_answer_encodable rt _ _ _ Hserver) in Hrow.
  destruct (Z.eqb_spec (status_code resp) 200); [contradiction|].
  eexists _, _. split; [exact Hrow|].
  repeat (split; [reflexivity|]).
  intros rest. rewrite main_step, Hrow. reflexivity.
Qed.

(** X22.  A row that [clean] rejects aborts the batch: the error of [clean]
    comes out of the script, the rows before it have been handled, and the
    rows after it are never looked at. *)
Theorem main_aborts_at_malformed_row (f : init_function)
    (before after : list dict) (record : dict) (p p1 : process) (e : exn) :
  main rt f before p = (inr tt, p1) ->
  fst (clean rt record) = inl e ->
  main rt f (before ++ record :: after) p = (inl e, p1).
Proof.
  intros Hbefore Hclean.
  rewrite main_app, Hbefore, main_step.
  unfold process_row, bind.
  destruct (clean rt record) as [[e'|[]] row]; simpl in Hclean;
    [|discriminate].
  injection Hclean as ->. reflexivity.
Qed.
End Script.

(** ** The files of the batch *)

Lemma append_inj_length (a a' b b' : string) :
  String.length a = String.length a' ->
  a ++ b = a' ++ b' -> a = a' /\ b = b'.
Proof.
  revert a'. induction a as [|c a IH]; intros [|c' a'] Hlen H;
    try discriminate.
  - now split.
  - change (String c (a ++ b) = String c' (a' ++ b')) in H.
    injection H as -> H. injection Hlen as Hlen.
    destruct (IH a' Hlen H) as [-> ->]. now split.
Qed.

Lemma pad4_spec (y : Z) :
  1 <= y <= 9999 ->
  String.length (pad4 y) = 4%nat /\ digits_value (pad4 y) 0 = y.
Proof.
  intros H.
  assert (Hall : forallb (fun n => Nat.eqb (String.length (pad4 n)) 4
                                   && (digits_value (pad4 n) 0 =? n))
                   (map Z.of_nat (seq 1 (Z.to_nat 9999))) = true)
    by (vm_compute; reflexivity).
  rewrite forallb_forall in Hall.
  assert (Hin : In y (map Z.of_nat (seq 1 (Z.to_nat 9999)))) by (apply in_range; lia).
  apply Hall, andb_true_iff in Hin. destruct Hin as [Hlen Hval].
  split; [now apply Nat.eqb_eq | now apply Z.eqb_eq].
Qed.

Lemma pad2_spec (n : Z) :
  1 <= n <= 31 ->
  String.length (pad2 n) = 2%nat /\ digits_value (pad2 n) 0 = n.
Proof.
  intros H.
  assert (Hall : forallb (fun n => Nat.eqb (String.length (pad2 n)) 2
                                   && (digits_value (pad2 n) 0 =? n))
                   (map Z.of_nat (seq 1 31)) = true)
    by (vm_compute; reflexivity).
  rewrite forallb_forall in Hall.
  assert (Hin : In n (map Z.of_nat (seq 1 31))) by (apply in_range; lia).
  apply Hall, andb_true_iff in Hin. destruct Hin as [Hlen Hval].
  split; [now apply Nat.eqb_eq | now apply Z.eqb_eq].
Qed.

(** X23.  The script names the file of a row after the date of the row
    alone, and the name determines the date: two rows are written to the
    same file exactly when they have the same date. *)
Theorem row_path_injective (date date' : Z * Z * Z) :
  date_in_range date -> date_in_range date' ->
  (row_path date = row_path date' <-> date = date').
Proof.
  destruct date as [[y m] d], date' as [[y' m'] d'].
  intros [Hy [Hm Hd]] [Hy' [Hm' Hd']].
  split; [|now intros ->].
  unfold row_path, isoformat. intros H.
  destruct (pad4_spec y Hy) as [Ly Vy], (pad4_spec y' Hy') as [Ly' Vy'].
  destruct (pad2_spec m) as [Lm Vm]; [lia|].
  destruct (pad2_spec m') as [Lm' Vm']; [lia|].
  destruct (pad2_spec d Hd) as [Ld Vd], (pad2_spec d' Hd') as [Ld' Vd'].
  apply (append_inj_length "invoices/" "invoices/") in H; [|reflexivity].
  destruct H as [_ H]. rewrite !append_assoc in H.
  apply append_inj_length in H; [|congruence]. destruct H as [Ey H].
  apply (append_inj_length "-" "-") in H; [|reflexivity].
  destruct H as [_ H].
  apply append_inj_length in H; [|congruence]. destruct H as [Em H].
  apply (append_inj_length "-" "-") in H; [|reflexivity].
  destruct H as [_ H].
  apply append_inj_length in H; [|congruence]. destruct H as [Ed _].
  congruence.
Qed.

Section Files.
Variable rt : runtime.

(** X24.  With a service that accepts every request, the script handles
    every row that [clean] accepts, provided that the amounts of the rows
    it does not skip are finite numbers: it returns, it has sent one request
    per row whose amount is not negative, in the order of the rows, it has
    paused one second after each of them, and the only files it has written
    are those of these rows. *)
Theorem main_with_accepting_service (f : init_function) (records : list dict)
    (ts : list transaction) (p : process) :
  Forall2 (reads rt) records ts ->
  Forall (fun t => serializable (t_description t) = true) ts ->
  Forall (fun t => encodable (encode (t_description t)) = true) ts ->
  Forall (fun t => invoiced t = true -> isfinite (t_amount t) = true) ts ->
  (forall history,
      exists resp, service rt history = inr resp /\ status_code resp = 200) ->
  locale_installed LOCALE p = true ->
  exists p',
    main rt f records p = (inr tt, p') /\
    requests p' = (rev (map row_request (List.filter invoiced ts)) ++ requests p)%list /\
    slept p' = slept p + Z.of_nat (length (List.filter invoiced ts)) /\
    forall path,
      (forall t, In t (List.filter invoiced ts) -> path <> row_path (t_date t)) ->
      files p' !! path = files p !! path.
Proof.
  intros Hreads Hdesc Hto Hfin Hservice. revert p.
  induction Hreads as [|record t records ts Hread Hrest IH]; intros p Hloc.
  - exists p. repeat split. simpl. lia.
  - inversion Hdesc as [|? ? Ht Hts]; subst.
    inversion Hto as [|? ? Htt Htts]; subst.
    inversion Hfin as [|? ? Hft Hfts]; subst.
    rewrite main_step. cbn [List.filter].
    destruct (invoiced t) eqn:Hkeep.
    + assert (Henc : encodable (req_json (row_request t)) = true)
        by (rewrite row_request_encodable, Htt, (Hft eq_refl); reflexivity).
      rewrite (process_row_run rt f record t p) by assumption.
      cbv zeta. rewrite Henc, (server_service rt _ _ Henc).
      destruct (Hservice (row_request t :: requests p)) as [resp [-> H200]].
      rewrite H200. cbn [Z.eqb Pos.eqb].
      set (p1 := with_sleep 1 _).
      destruct (IH Hts Htts Hfts p1 Hloc) as [p' [Hmain [Hreqs [Hslept Hfiles]]]].
      exists p'. split; [exact Hmain|]. split; [|split].
      * rewrite Hreqs. cbn [map rev]. rewrite <- List.app_assoc. reflexivity.
      * rewrite Hslept. cbn [length]. unfold p1. cbn [slept with_sleep with_file with_request with_locale]. lia.
      * intros path Hpath. rewrite Hfiles.
        -- unfold p1. cbn [files with_sleep with_file with_request with_locale].
           apply lookup_insert_ne. intros E. apply (Hpath t); [now left | now rewrite E].
        -- intros t' Hin. apply Hpath. now right.
    + rewrite (process_row_skipped rt f record t p) by assumption.
      apply (IH Hts Htts Hfts p Hloc).
Qed.

(** X25.  Two rows of the same date share their file: when both are
    invoiced and accepted, the file of that date holds the answer to the
    second row, and the answer to the first is lost. *)
Theorem same_date_overwrites (f : init_function) (r1 r2 : dict)
    (t1 t2 : transaction) (p : process) (resp1 resp2 : response) :
  reads rt r1 t1 -> reads rt r2 t2 ->
  t_date t1 = t_date t2 ->
  invoiced t1 = true -> invoiced t2 = true ->
  serializable (t_description t1) = true ->
  serializable (t_description t2) = true ->
  locale_installed LOCALE p = true ->
  server rt (row_request t1 :: requests p) = inr resp1 ->
  status_code resp1 = 200 ->
  server rt (row_request t2 :: row_request t1 :: requests p) = inr resp2 ->
  status_code resp2 = 200 ->
  exists p',
    main rt f [r1; r2] p = (inr tt, p') /\
    requests p' = row_request t2 :: row_request t1 :: requests p /\
    files p' !! row_path (t_date t1) = Some (content resp2).
Proof.
  intros Hr1 Hr2 Hsame Hk1 Hk2 Hd1 Hd2 Hloc Hs1 H1 Hs2 H2.
  rewrite main_step.
  rewrite (process_row_run rt f r1 t1 p) by assumption.
  cbv zeta.
  rewrite Hs1, H1, (server_answer_encodable rt _ _ _ Hs1). cbn [Z.eqb Pos.eqb].
  rewrite main_step.
  rewrite (process_row_run rt f r2 t2) by assumption.
  cbv zeta. cbn [requests with_sleep with_file with_request with_locale].
  rewrite Hs2, H2, (server_answer_encodable rt _ _ _ Hs2). cbn [Z.eqb Pos.eqb].
  eexists. split; [reflexivity|]. split; [reflexivity|].
  cbn [files with_sleep with_file with_request with_locale].
  rewrite Hsame. apply lookup_insert_eq.
Qed.

(** X29.  [float] accepts the texts [nan] and [inf], and neither amount is
    negative, so the script does not skip such a row: it builds the invoice
    and [requests] refuses to encode it.  The batch stops there with
    [InvalidJSONError]; nothing has been sent or written for the row, and
    the rows after it are never looked at. *)
Theorem main_aborts_at_nan_amount (f : init_function)
    (before after : list dict) (record : dict) (t : transaction)
    (p p1 : process) :
  main rt f before p = (inr tt, p1) ->
  reads rt record t ->
  invoiced t = true ->
  isfinite (t_amount t) = false ->
  serializable (t_description t) = true ->
  locale_installed LOCALE p1 = true ->
  exists p',
    main rt f (before ++ record :: after) p = (inl InvalidJSONError, p') /\
    requests p' = requests p1 /\
    files p' = files p1 /\
    slept p' = slept p1.
Proof.
  intros Hbefore Hreads Hkeep Hfin Hdesc Hloc.
  assert (Henc : encodable (req_json (row_request t)) = false)
    by (rewrite row_request_encodable, Hfin; apply andb_false_r).
  rewrite main_app, Hbefore, main_step.
  rewrite (process_row_run rt f record t p1) by assumption.
  cbv zeta. rewrite (server_refuses rt _ _ Henc), Henc.
  eexists. split; [reflexivity|]. repeat split.
Qed.

(** X30.  The script passes the date of the row to every invoice it builds,
    so the default of [date], and with it the time at which the module was
    loaded, plays no part in a batch: run as a program at any instant, the
    module has the outcome that the loop has with any function object, and
    leaves the process as the loop does. *)
Theorem script_ignores_default_date (f : init_function) (reader : list dict)
    (now : Z) (p : process) :
  fst (script rt reader (now, p)) = fst (main rt f reader p) /\
  snd (snd (script rt reader (now, p))) = snd (main rt f reader p).
Proof.
  assert (Hany : forall f1 f2 l q, main rt f1 l q = main rt f2 l q).
  { intros f1 f2 l. induction l as [|record l IH]; intros q; [reflexivity|].
    rewrite !main_step.
    replace (process_row rt f2 record q) with (process_row rt f1 record q)
      by reflexivity.
    destruct (process_row rt f1 record q) as [[e|[]] q']; [reflexivity|].
    apply IH. }
  unfold script, bind, class_statement, datetime_now, bind, ret, on_snd.
  cbn [fst snd].
  destruct (utc rt now) as [[[y m] d] us]. cbn [fst snd].
  rewrite (Hany _ f).
  destruct (main rt f reader p) as [r p']. split; reflexivity.
Qed.
End Files.

(** ** How the calls combine *)

Lemma dict_set_twice {A : Type} (k : string) (x y : A) (d : list (string * A)) :
  dict_set k y (dict_set k x d) = dict_set k y d.
Proof.
  induction d as [|[k' v'] d IH]; simpl.
  - now rewrite String.eqb_refl.
  - destruct (String.eqb k k') eqn:E; simpl.
    + now rewrite String.eqb_refl.
    + now rewrite E, IH.
Qed.

(** X26.  Each call works on one attribute and leaves every other attribute
    of the instance alone, in whatever state the instance is and whether
    the call returns or raises. *)
Theorem call_touches_own_attribute (c : call) (d : dict) (k : string) :
  k <> target c ->
  dict_get k (snd (run_call c d)) = dict_get k d.
Proof.
  intros Hk.
  destruct c as [n q u ds|n x|key x|t dd s]; simpl in *.
  - unfold add_item, append_to, bind, getattr.
    destruct (dict_get "items" d) as [lst|]; [|reflexivity].
    destruct (append _ lst); [reflexivity|].
    simpl. apply dict_get_set_ne. congruence.
  - unfold add_custom_field, append_to, bind, getattr.
    destruct (dict_get "custom_fields" d) as [lst|]; [|reflexivity].
    destruct (append _ lst); [reflexivity|].
    simpl. apply dict_get_set_ne. congruence.
  - unfold set_template_text.
    destruct (is_template_parameter key); [|reflexivity].
    unfold bind, getattr.
    destruct (dict_get "template" d) as [tpl|]; [|reflexivity].
    destruct tpl; try reflexivity.
    simpl. apply dict_get_set_ne. congruence.
  - unfold toggle_subtotal. simpl. apply dict_get_set_ne. congruence.
Qed.

(** X27.  On an invoice that has not been serialized, two calls that work
    on different attributes can be made in either order: the instance is
    the same afterwards. *)
Theorem calls_commute (c1 c2 : call) (d : dict) :
  reachable d ->
  target c1 <> target c2 ->
  snd (run_call c2 (snd (run_call c1 d)))
  = snd (run_call c1 (snd (run_call c2 d))).
Proof.
  intros Hd Hne. destruct (reachable_view d Hd) as [v [-> _]].
  rewrite !run_call_state_of. f_equal.
  destruct c1 as [n q u ds|n x|k x|t dd s], c2 as [n' q' u' ds'|n' x'|k' x'|t' dd' s'];
    simpl in *; try congruence; try reflexivity;
    try (destruct (is_template_parameter k); reflexivity);
    try (destruct (is_template_parameter k'); reflexivity).
Qed.

(** X28.  Setting a template text again overwrites it: after two
    [set_template_text] calls with the same key the instance is as if only
    the second had been made, so the template holds the key once, with the
    last value. *)
Theorem set_template_text_last_wins (d : dict) (k : string) (x y : value) :
  reachable d ->
  snd (set_template_text k y (snd (set_template_text k x d)))
  = snd (set_template_text k y d).
Proof.
  intros Hd. destruct (reachable_view d Hd) as [v [-> _]].
  change (set_template_text k x) with (run_call (SetTemplateText k x)).
  change (set_template_text k y) with (run_call (SetTemplateText k y)).
  rewrite !run_call_state_of. f_equal. simpl.
  destruct (is_template_parameter k) eqn:E; simpl; rewrite ?E; simpl;
    rewrite ?dict_set_twice; reflexivity.
Qed.

(** ** The further properties at the sample data *)

Lemma to_json_bad_date_witness :
  reachable Cases.dated_by_string /\
  locale_installed LOCALE Sample.host = true /\
  dict_get "date" Cases.dated_by_string = Some (VStr "2024-01-05") /\
  is_date (VStr "2024-01-05") = false /\
  exists sender,
    dict_get "sender" Cases.dated_by_string = Some sender /\
    dict_get "from" Cases.dated_by_string = None /\
    _to_json Sample.rt (Cases.dated_by_string, Sample.host)
    = (inl (AttributeError "strftime"),
       (dict_set "from" sender Cases.dated_by_string,
        with_locale LOCALE Sample.host)).
Proof.
  assert (Hd : reachable Cases.dated_by_string) by apply reach_init.
  assert (Hl : locale_installed LOCALE Sample.host = true)
    by (vm_compute; reflexivity).
  split; [exact Hd|]. split; [exact Hl|].
  split; [reflexivity|]. split; [reflexivity|].
  exact (to_json_bad_date Sample.rt _ _ _ Hd Hl eq_refl eq_refl).
Defined.

Lemma to_json_bad_due_date_witness :
  reachable Cases.due_by_string /\
  locale_installed LOCALE Sample.host = true /\
  dict_get "date" Cases.due_by_string = Some (VDate 2024 1 5) /\
  calendar (VDate 2024 1 5) = Some (2024, 1, 5) /\
  dict_get "due_date" Cases.due_by_string = Some (VStr "2024-02-05") /\
  is_date_or_none (VStr "2024-02-05") = false /\
  exists sender,
    dict_get "sender" Cases.due_by_string = Some sender /\
    _to_json Sample.rt (Cases.due_by_string, Sample.host)
    = (inl (AttributeError "strftime"),
       (dict_set "date" (VStr (format_date abmon_en 2024 1 5 DATE_FORMAT))
          (dict_set "from" sender Cases.due_by_string),
        with_locale LOCALE Sample.host)).
Proof.
  assert (Hd : reachable Cases.due_by_string) by apply reach_init.
  assert (Hl : locale_installed LOCALE Sample.host = true)
    by (vm_compute; reflexivity).
  split; [exact Hd|]. split; [exact Hl|].
  do 4 (split; [reflexivity|]).
  exact (to_json_bad_due_date Sample.rt _ _ _ _ _ _ _ Hd Hl
           eq_refl eq_refl eq_refl eq_refl).
Defined.

Lemma to_json_not_serializable_witness :
  reachable Cases.with_date_item /\
  locale_installed LOCALE Sample.host = true /\
  dates_in_place Cases.with_date_item = true /\
  wire_ready Cases.with_date_item = false /\
  exists msg d',
    _to_json Sample.rt (Cases.with_date_item, Sample.host)
    = (inl (TypeError msg), (d', with_locale LOCALE Sample.host)) /\
    dict_get "sender" d' = None /\
    dict_get "template" d' = None /\
    dict_get "from" d' = dict_get "sender" Cases.with_date_item /\
    (exists s, dict_get "date" d' = Some (VStr s)) /\
    fst (_to_json Sample.rt (d', with_locale LOCALE Sample.host))
    = inl (AttributeError "strftime").
Proof.
  assert (Hd : reachable Cases.with_date_item)
    by (apply run_calls_reachable, reach_init).
  assert (Hl : locale_installed LOCALE Sample.host = true)
    by (vm_compute; reflexivity).
  assert (Hdates : dates_in_place Cases.with_date_item = true)
    by (vm_compute; reflexivity).
  assert (Hready : wire_ready Cases.with_date_item = false)
    by (vm_compute; reflexivity).
  split; [exact Hd|]. split; [exact Hl|].
  split; [exact Hdates|]. split; [exact Hready|].
  exact (to_json_not_serializable Sample.rt _ _ Hd Hl Hdates Hready).
Defined.

Lemma mutators_after_to_json_witness :
  reachable Sample.invoice /\
  wire_ready Sample.invoice = true /\
  locale_installed LOCALE Sample.host = true /\
  In "header" TEMPLATE_PARAMETERS /\
  exists document d1 p1 l,
    _to_json Sample.rt (Sample.invoice, Sample.host) = (inr document, (d1, p1)) /\
    set_template_text "header" (VStr "BILL") d1
    = (inl (AttributeError "template"), d1) /\
    dict_get "items" d1 = Some (VList l) /\
    add_item (VStr "Late fee") (VInt 1) (VInt 5) VNone d1
    = (inr tt,
       dict_set "items"
         (VList (l ++ [Item.__init__ (VStr "Late fee") (VInt 1) (VInt 5) VNone]))
         d1).
Proof.
  assert (Hd : reachable Sample.invoice)
    by (apply run_calls_reachable, reach_init).
  assert (Hr : wire_ready Sample.invoice = true) by (vm_compute; reflexivity).
  assert (Hl : locale_installed LOCALE Sample.host = true)
    by (vm_compute; reflexivity).
  assert (Hin : In "header" TEMPLATE_PARAMETERS) by (simpl; tauto).
  split; [exact Hd|]. split; [exact Hr|]. split; [exact Hl|].
  split; [exact Hin|].
  exact (mutators_after_to_json Sample.rt _ _ "header" (VStr "BILL")
           (VStr "Late fee") (VInt 1) (VInt 5) VNone Hd Hr Hl Hin).
Defined.

Lemma calls_keep_shape_witness :
  let c := AddItem (VStr "Late fee") (VInt 1) (VInt 5) VNone in
  reachable Sample.invoice /\
  accepted_call c = true /\
  dict_keys Sample.invoice = constructor_attributes /\
  dict_keys (snd (run_call c Sample.invoice)) = constructor_attributes /\
  fst (run_call c Sample.invoice) = inr tt /\
  exists its cfs,
    dict_get "items" Sample.invoice = Some (VList (map item_object its)) /\
    dict_get "custom_fields" Sample.invoice
    = Some (VList (map field_object cfs)).
Proof.
  intros c.
  assert (Hd : reachable Sample.invoice)
    by (apply run_calls_reachable, reach_init).
  destruct (calls_keep_shape Sample.invoice c Hd) as [H1 [H2 [H3 H4]]].
  split; [exact Hd|]. split; [reflexivity|].
  split; [exact H1|]. split; [exact H2|].
  split; [exact (H3 eq_refl) | exact H4].
Defined.

Lemma to_json_custom_fields_witness :
  let a := set_date (VDate 2024 1 5) (call_args (VStr "me") (VStr "you")) in
  let d := run_calls Sample.session (__init__ Sample.f a) in
  wire_ready d = true /\
  locale_installed LOCALE Sample.host = true /\
  added_fields Sample.session = [(VStr "PO", VStr "7")] /\
  exists members s' arr,
    _to_json Sample.rt (d, Sample.host) = (inr (JObj members), s') /\
    dict_get "custom_fields" members = Some (JArr arr) /\
    length arr = length (added_fields Sample.session) /\
    forall i n x,
      nth_error (added_fields Sample.session) i = Some (n, x) ->
      exists jn jx,
        dumps n = inr jn /\ dumps x = inr jx /\
        nth_error arr i = Some (JObj [("name", jn); ("value", jx)]).
Proof.
  intros a d.
  assert (Hr : wire_ready d = true) by (vm_compute; reflexivity).
  assert (Hl : locale_installed LOCALE Sample.host = true)
    by (vm_compute; reflexivity).
  split; [exact Hr|]. split; [exact Hl|]. split; [reflexivity|].
  exact (to_json_custom_fields Sample.rt Sample.f a Sample.session
           Sample.host Hr Hl).
Defined.

Lemma to_json_toggles_witness :
  let a := set_date (VDate 2024 1 5) (call_args (VStr "me") (VStr "you")) in
  let d := run_calls Sample.session (__init__ Sample.f a) in
  wire_ready d = true /\
  locale_installed LOCALE Sample.host = true /\
  last_toggle Sample.session = Some (VStr "%", VBool true, VBool false) /\
  exists members s',
    _to_json Sample.rt (d, Sample.host) = (inr (JObj members), s') /\
    exists jt jd js,
      dumps (VStr "%") = inr jt /\ dumps (VBool true) = inr jd /\
      dumps (VBool false) = inr js /\
      dict_get "fields" members
      = Some (JObj [("tax", jt); ("discounts", jd); ("shipping", js)]).
Proof.
  intros a d.
  assert (Hr : wire_ready d = true) by (vm_compute; reflexivity).
  assert (Hl : locale_installed LOCALE Sample.host = true)
    by (vm_compute; reflexivity).
  split; [exact Hr|]. split; [exact Hl|]. split; [reflexivity|].
  exact (to_json_toggles Sample.rt Sample.f a Sample.session
           Sample.host Hr Hl).
Defined.

Lemma to_json_scalars_witness :
  let a := set_date (VDate 2024 1 5) (call_args (VStr "me") (VStr "you")) in
  let d := run_calls Sample.session (__init__ Sample.f a) in
  wire_ready d = true /\
  locale_installed LOCALE Sample.host = true /\
  exists members s',
    _to_json Sample.rt (d, Sample.host) = (inr (JObj members), s') /\
    forall name x,
      In (name, x) (scalar_attributes a) ->
      exists j, dumps x = inr j /\ dict_get name members = Some j.
Proof.
  intros a d.
  assert (Hr : wire_ready d = true) by (vm_compute; reflexivity).
  assert (Hl : locale_installed LOCALE Sample.host = true)
    by (vm_compute; reflexivity).
  split; [exact Hr|]. split; [exact Hl|].
  exact (to_json_scalars Sample.rt Sample.f a Sample.session
           Sample.host Hr Hl).
Defined.

Lemma to_json_member_names_witness :
  reachable Sample.invoice /\
  wire_ready Sample.invoice = true /\
  locale_installed LOCALE Sample.host = true /\
  exists members s' t,
    _to_json Sample.rt (Sample.invoice, Sample.host) = (inr (JObj members), s') /\
    dict_get "template" Sample.invoice = Some (VDict t) /\
    dict_keys members = (document_attributes ++ dict_keys t)%list /\
    List.NoDup (dict_keys members).
Proof.
  assert (Hd : reachable Sample.invoice)
    by (apply run_calls_reachable, reach_init).
  assert (Hr : wire_ready Sample.invoice = true) by (vm_compute; reflexivity).
  assert (Hl : locale_installed LOCALE Sample.host = true)
    by (vm_compute; reflexivity).
  split; [exact Hd|]. split; [exact Hr|]. split; [exact Hl|].
  exact (to_json_member_names Sample.rt _ _ Hd Hr Hl).
Defined.

Lemma download_returns_only_on_200_witness :
  exists d' p',
    download Sample.rt "invoice.pdf" (Sample.invoice, Sample.host)
    = (inr tt, (d', p')) /\
    exists document p1 resp,
      _to_json Sample.rt (Sample.invoice, Sample.host)
      = (inr document, (d', p1)) /\
      server Sample.rt (submission document :: requests Sample.host) = inr resp /\
      status_code resp = 200 /\
      requests p' = submission document :: requests Sample.host /\
      files p' = <["invoice.pdf" := content resp]> (files Sample.host).
Proof.
  eexists _, _.
  assert (Hrun : download Sample.rt "invoice.pdf" (Sample.invoice, Sample.host)
                 = (inr tt, (?[d'], ?[p'])))
    by (vm_compute; reflexivity).
  split; [exact Hrun|].
  exact (download_returns_only_on_200 Sample.rt _ _ _ _ _ Hrun).
Defined.

Lemma download_without_200_witness :
  (forall document s resp,
      _to_json Sample.rt (Sample.invoice, Sample.busy_host) = (inr document, s) ->
      server Sample.rt (submission document :: requests Sample.busy_host)
      = inr resp ->
      status_code resp <> 200) /\
  exists e d' p',
    download Sample.rt "invoice.pdf" (Sample.invoice, Sample.busy_host)
    = (inl e, (d', p')) /\
    files p' = files Sample.busy_host.
Proof.
  assert (Hnot : forall document s resp,
             _to_json Sample.rt (Sample.invoice, Sample.busy_host)
             = (inr document, s) ->
             server Sample.rt (submission document :: requests Sample.busy_host)
             = inr resp ->
             status_code resp <> 200).
  { intros document s resp Hrun Hserver.
    vm_compute in Hrun. injection Hrun as <- <-.
    vm_compute in Hserver. injection Hserver as <-. simpl. lia. }
  split; [exact Hnot|].
  exact (download_without_200 Sample.rt Sample.invoice Sample.busy_host
           "invoice.pdf" Hnot).
Defined.

Lemma download_without_document_witness :
  exists e d' p',
    _to_json Sample.rt (Cases.dated_by_string, Sample.host) = (inl e, (d', p')) /\
    download Sample.rt "invoice.pdf" (Cases.dated_by_string, Sample.host)
    = (inl e, (d', p')) /\
    requests p' = requests Sample.host /\
    files p' = files Sample.host.
Proof.
  eexists _, _, _.
  assert (Hrun : _to_json Sample.rt (Cases.dated_by_string, Sample.host)
                 = (inl ?[e], (?[d'], ?[p'])))
    by (vm_compute; reflexivity).
  split; [exact Hrun|].
  exact (download_without_document Sample.rt _ _ _ _ "invoice.pdf" _ Hrun).
Defined.

Lemma download_sends_one_request_witness :
  (exists document d1 p1,
     _to_json Sample.rt (Sample.invoice, Sample.busy_host)
     = (inr document, (d1, p1)) /\
     encodable document = true /\
     exists r p',
       download Sample.rt "invoice.pdf" (Sample.invoice, Sample.busy_host)
       = (r, (d1, p')) /\
       requests p'
       = {| req_url := "https://invoice-generator.com";
            req_json := document;
            req_headers := [("Accept-Language", "en_US.utf8")] |}
         :: requests Sample.busy_host) /\
  (exists document d1 p1,
     _to_json Sample.rt (Cases.priced_nan, Sample.host)
     = (inr document, (d1, p1)) /\
     encodable document = false /\
     download Sample.rt "invoice.pdf" (Cases.priced_nan, Sample.host)
     = (inl InvalidJSONError, (d1, p1)) /\
     requests p1 = requests Sample.host /\
     files p1 = files Sample.host).
Proof.
  split.
  - eexists _, _, _.
    assert (Hrun : _to_json Sample.rt (Sample.invoice, Sample.busy_host)
                   = (inr ?[document], (?[d1], ?[p1])))
      by (vm_compute; reflexivity).
    split; [exact Hrun|]. split; [reflexivity|].
    exact (proj1 (download_sends_one_request Sample.rt _ _ _ _ _
                    "invoice.pdf" Hrun) eq_refl).
  - eexists _, _, _.
    assert (Hrun : _to_json Sample.rt (Cases.priced_nan, Sample.host)
                   = (inr ?[document], (?[d1], ?[p1])))
      by (vm_compute; reflexivity).
    split; [exact Hrun|]. split; [reflexivity|].
    exact (proj2 (download_sends_one_request Sample.rt _ _ _ _ _
                    "invoice.pdf" Hrun) eq_refl).
Defined.

Lemma download_other_errors_witness :
  (exists document d1 p1,
     _to_json Cases.failing_rt (Sample.invoice, Sample.busy_host)
     = (inr document, (d1, p1)) /\
     server Cases.failing_rt (submission document :: requests Sample.busy_host)
     = inr Cases.error_page /\
     status_code Cases.error_page <> 200 /\
     json_body Cases.error_page = None /\
     exists p',
       download Cases.failing_rt "invoice.pdf" (Sample.invoice, Sample.busy_host)
       = (inl JSONDecodeError, (d1, p')) /\
       files p' = files Sample.busy_host) /\
  (exists document d1 p1,
     _to_json Cases.failing_rt (Sample.invoice, Sample.host)
     = (inr document, (d1, p1)) /\
     server Cases.failing_rt (submission document :: requests Sample.host)
     = inl ConnectionError /\
     exists p',
       download Cases.failing_rt "invoice.pdf" (Sample.invoice, Sample.host)
       = (inl ConnectionError, (d1, p')) /\
       files p' = files Sample.host).
Proof.
  split.
  - eexists _, _, _.
    assert (Hrun : _to_json Cases.failing_rt (Sample.invoice, Sample.busy_host)
                   = (inr ?[document], (?[d1], ?[p1])))
      by (vm_compute; reflexivity).
    assert (Hne : status_code Cases.error_page <> 200) by (simpl; lia).
    split; [exact Hrun|]. split; [reflexivity|]. split; [exact Hne|].
    split; [reflexivity|].
    exact (proj1 (download_other_errors Cases.failing_rt _ _ _ _ _
                    "invoice.pdf" Hrun) Cases.error_page eq_refl Hne eq_refl).
  - eexists _, _, _.
    assert (Hrun : _to_json Cases.failing_rt (Sample.invoice, Sample.host)
                   = (inr ?[document], (?[d1], ?[p1])))
      by (vm_compute; reflexivity).
    split; [exact Hrun|]. split; [reflexivity|].
    exact (proj2 (download_other_errors Cases.failing_rt _ _ _ _ _
                    "invoice.pdf" Hrun) ConnectionError eq_refl).
Defined.

Lemma download_twice_witness :
  reachable Sample.invoice /\
  wire_ready Sample.invoice = true /\
  locale_installed LOCALE Sample.host = true /\
  exists r d1 p1,
    download Sample.rt "first.pdf" (Sample.invoice, Sample.host)
    = (r, (d1, p1)) /\
    download Sample.rt "second.pdf" (d1, p1)
    = (inl (AttributeError "strftime"), (dict_set "from" VNone d1, p1)).
Proof.
  assert (Hd : reachable Sample.invoice)
    by (apply run_calls_reachable, reach_init).
  assert (Hr : wire_ready Sample.invoice = true) by (vm_compute; reflexivity).
  assert (Hl : locale_installed LOCALE Sample.host = true)
    by (vm_compute; reflexivity).
  split; [exact Hd|]. split; [exact Hr|]. split; [exact Hl|].
  exact (download_twice Sample.rt _ _ "first.pdf" "second.pdf" Hd Hr Hl).
Defined.

Lemma clean_accepts_witness :
  dict_get date_key Sample.row_a = Some (VStr "01-05-2024") /\
  strptime Sample.rt "01-05-2024" "%m-%d-%Y" = Some (2024, 1, 5) /\
  dict_get amount Sample.row_a = Some (VStr "100") /\
  float Sample.rt "100" = Some Sample.hundred /\
  exists row,
    clean Sample.rt Sample.row_a = (inr tt, row) /\
    dict_get date_key row = Some (VDate 2024 1 5) /\
    dict_get amount row = Some (VFloat Sample.hundred) /\
    dict_keys row = dict_keys Sample.row_a /\
    forall k, k <> date_key -> k <> amount ->
              dict_get k row = dict_get k Sample.row_a.
Proof.
  do 4 (split; [reflexivity|]).
  exact (clean_accepts Sample.rt Sample.row_a "01-05-2024" "100" 2024 1 5
           Sample.hundred eq_refl eq_refl eq_refl eq_refl).
Defined.

Lemma clean_bad_amount_witness :
  dict_get date_key Cases.row_bad_amount = Some (VStr "01-05-2024") /\
  strptime Sample.rt "01-05-2024" "%m-%d-%Y" = Some (2024, 1, 5) /\
  dict_get amount Cases.row_bad_amount = Some (VStr "n/a") /\
  float Sample.rt "n/a" = None /\
  exists msg row,
    clean Sample.rt Cases.row_bad_amount = (inl (ValueError msg), row) /\
    row = dict_set date_key (VDate 2024 1 5) Cases.row_bad_amount /\
    dict_get date_key row = Some (VDate 2024 1 5) /\
    dict_get amount row = Some (VStr "n/a").
Proof.
  do 4 (split; [reflexivity|]).
  exact (clean_bad_amount Sample.rt Cases.row_bad_amount "01-05-2024" "n/a"
           2024 1 5 eq_refl eq_refl eq_refl eq_refl).
Defined.

Lemma clean_twice_witness :
  dict_get date_key Sample.row_a = Some (VStr "01-05-2024") /\
  strptime Sample.rt "01-05-2024" "%m-%d-%Y" = Some (2024, 1, 5) /\
  dict_get amount Sample.row_a = Some (VStr "100") /\
  float Sample.rt "100" = Some Sample.hundred /\
  exists row msg,
    clean Sample.rt Sample.row_a = (inr tt, row) /\
    clean Sample.rt row = (inl (TypeError msg), row).
Proof.
  do 4 (split; [reflexivity|]).
  exact (clean_twice Sample.rt Sample.row_a "01-05-2024" "100" 2024 1 5
           Sample.hundred eq_refl eq_refl eq_refl eq_refl).
Defined.

Lemma sample_reads_a : reads Sample.rt Sample.row_a Sample.transaction_a.
Proof. exists "01-05-2024", "100". repeat split; reflexivity. Defined.

Lemma sample_reads_b : reads Sample.rt Sample.row_b Sample.transaction_b.
Proof. exists "01-06-2024", "-50". repeat split; reflexivity. Defined.

Lemma sample_reads_a' : reads Sample.rt Cases.row_a' Cases.transaction_a'.
Proof. exists "01-05-2024", "0". repeat split; reflexivity. Defined.

Lemma process_row_invoiced_witness :
  reads Sample.rt Sample.row_a Sample.transaction_a /\
  invoiced Sample.transaction_a = true /\
  serializable (t_description Sample.transaction_a) = true /\
  locale_installed LOCALE Sample.host = true /\
  server Sample.rt (row_request Sample.transaction_a :: requests Sample.host)
  = inr Sample.accepted /\
  status_code Sample.accepted = 200 /\
  exists p',
    process_row Sample.rt Sample.f Sample.row_a Sample.host = (inr tt, p') /\
    requests p' = row_request Sample.transaction_a :: requests Sample.host /\
    files p' = <["invoices/2024-01-05.pdf" := Sample.pdf]> (files Sample.host) /\
    slept p' = slept Sample.host + 1 /\
    lc_all p' = LOCALE.
Proof.
  assert (Hl : locale_installed LOCALE Sample.host = true)
    by (vm_compute; reflexivity).
  split; [exact sample_reads_a|]. split; [reflexivity|].
  split; [reflexivity|]. split; [exact Hl|].
  split; [reflexivity|]. split; [reflexivity|].
  exact (process_row_invoiced Sample.rt Sample.f Sample.row_a
           Sample.transaction_a Sample.host Sample.accepted
           sample_reads_a eq_refl eq_refl Hl eq_refl eq_refl).
Defined.

Lemma process_row_refused_witness :
  reads Sample.rt Sample.row_a Sample.transaction_a /\
  invoiced Sample.transaction_a = true /\
  serializable (t_description Sample.transaction_a) = true /\
  locale_installed LOCALE Sample.busy_host = true /\
  server Sample.rt
    (row_request Sample.transaction_a :: requests Sample.busy_host)
  = inr Sample.rejected /\
  status_code Sample.rejected <> 200 /\
  json_body Sample.rejected = Some (VDict [("error", VStr "bad request")]) /\
  exists msg p',
    process_row Sample.rt Sample.f Sample.row_a Sample.busy_host
    = (inl (Exception msg), p') /\
    requests p' = row_request Sample.transaction_a :: requests Sample.busy_host /\
    files p' = files Sample.busy_host /\
    slept p' = slept Sample.busy_host /\
    forall rest,
      main Sample.rt Sample.f (Sample.row_a :: rest) Sample.busy_host
      = (inl (Exception msg), p').
Proof.
  assert (Hl : locale_installed LOCALE Sample.busy_host = true)
    by (vm_compute; reflexivity).
  assert (Hne : status_code Sample.rejected <> 200) by (simpl; lia).
  split; [exact sample_reads_a|]. split; [reflexivity|].
  split; [reflexivity|]. split; [exact Hl|].
  split; [reflexivity|]. split; [exact Hne|]. split; [reflexivity|].
  exact (process_row_refused Sample.rt Sample.f Sample.row_a
           Sample.transaction_a Sample.busy_host Sample.rejected _
           sample_reads_a eq_refl eq_refl Hl eq_refl Hne eq_refl).
Defined.

Lemma main_aborts_at_malformed_row_witness :
  exists p1 e,
    main Sample.rt Sample.f [Sample.row_b] Sample.host = (inr tt, p1) /\
    fst (clean Sample.rt Cases.row_bad_date) = inl e /\
    main Sample.rt Sample.f
      ([Sample.row_b] ++ Cases.row_bad_date :: [Sample.row_a]) Sample.host
    = (inl e, p1).
Proof.
  eexists _, _.
  assert (Hbefore : main Sample.rt Sample.f [Sample.row_b] Sample.host
                    = (inr tt, ?[p1]))
    by (vm_compute; reflexivity).
  assert (Hclean : fst (clean Sample.rt Cases.row_bad_date) = inl ?[e])
    by (vm_compute; reflexivity).
  split; [exact Hbefore|]. split; [exact Hclean|].
  exact (main_aborts_at_malformed_row Sample.rt Sample.f [Sample.row_b]
           [Sample.row_a] Cases.row_bad_date Sample.host _ _ Hbefore Hclean).
Defined.

Lemma row_path_injective_witness :
  date_in_range (2024, 1, 5) /\ date_in_range (2024, 1, 6) /\
  row_path (2024, 1, 5) = "invoices/2024-01-05.pdf" /\
  (row_path (2024, 1, 5) = row_path (2024, 1, 6)
   <-> (2024, 1, 5) = (2024, 1, 6)).
Proof.
  assert (H1 : date_in_range (2024, 1, 5)) by (simpl; lia).
  assert (H2 : date_in_range (2024, 1, 6)) by (simpl; lia).
  split; [exact H1|]. split; [exact H2|]. split; [reflexivity|].
  exact (row_path_injective (2024, 1, 5) (2024, 1, 6) H1 H2).
Defined.

Lemma main_with_accepting_service_witness :
  let records := [Sample.row_a; Sample.row_b; Cases.row_a'] in
  let ts := [Sample.transaction_a; Sample.transaction_b; Cases.transaction_a'] in
  Forall2 (reads Cases.counting_rt) records ts /\
  Forall (fun t => serializable (t_description t) = true) ts /\
  Forall (fun t => encodable (encode (t_description t)) = true) ts /\
  Forall (fun t => invoiced t = true -> isfinite (t_amount t) = true) ts /\
  (forall history,
      exists resp,
        service Cases.counting_rt history = inr resp /\ status_code resp = 200) /\
  locale_installed LOCALE Sample.host = true /\
  List.filter invoiced ts = [Sample.transaction_a; Cases.transaction_a'] /\
  exists p',
    main Cases.counting_rt Sample.f records Sample.host = (inr tt, p') /\
    requests p'
    = (rev (map row_request (List.filter invoiced ts)) ++ requests Sample.host)%list /\
    slept p' = slept Sample.host + Z.of_nat (length (List.filter invoiced ts)) /\
    forall path,
      (forall t, In t (List.filter invoiced ts) -> path <> row_path (t_date t)) ->
      files p' !! path = files Sample.host !! path.
Proof.
  intros records ts.
  assert (Hreads : Forall2 (reads Cases.counting_rt) records ts).
  { repeat constructor.
    - exact sample_reads_a.
    - exact sample_reads_b.
    - exact sample_reads_a'. }
  assert (Hdesc : Forall (fun t => serializable (t_description t) = true) ts)
    by (repeat constructor).
  assert (Hto : Forall (fun t => encodable (encode (t_description t)) = true) ts)
    by (repeat constructor).
  assert (Hfin : Forall (fun t => invoiced t = true -> isfinite (t_amount t) = true)
                   ts)
    by (repeat constructor).
  assert (Hservice : forall history,
             exists resp,
               service Cases.counting_rt history = inr resp
               /\ status_code resp = 200).
  { intros history. eexists. split; reflexivity. }
  assert (Hl : locale_installed LOCALE Sample.host = true)
    by (vm_compute; reflexivity).
  split; [exact Hreads|]. split; [exact Hdesc|]. split; [exact Hto|].
  split; [exact Hfin|]. split; [exact Hservice|].
  split; [exact Hl|]. split; [reflexivity|].
  exact (main_with_accepting_service Cases.counting_rt Sample.f records ts
           Sample.host Hreads Hdesc Hto Hfin Hservice Hl).
Defined.

Lemma same_date_overwrites_witness :
  reads Cases.counting_rt Sample.row_a Sample.transaction_a /\
  reads Cases.counting_rt Cases.row_a' Cases.transaction_a' /\
  t_date Sample.transaction_a = t_date Cases.transaction_a' /\
  invoiced Sample.transaction_a = true /\
  invoiced Cases.transaction_a' = true /\
  locale_installed LOCALE Sample.host = true /\
  exists p',
    main Cases.counting_rt Sample.f [Sample.row_a; Cases.row_a'] Sample.host
    = (inr tt, p') /\
    requests p'
    = row_request Cases.transaction_a' :: row_request Sample.transaction_a
      :: requests Sample.host /\
    files p' !! "invoices/2024-01-05.pdf" = Some [Byte.x02].
Proof.
  assert (Hl : locale_installed LOCALE Sample.host = true)
    by (vm_compute; reflexivity).
  split; [exact sample_reads_a|]. split; [exact sample_reads_a'|].
  do 3 (split; [reflexivity|]). split; [exact Hl|].
  exact (same_date_overwrites Cases.counting_rt Sample.f Sample.row_a
           Cases.row_a' Sample.transaction_a Cases.transaction_a' Sample.host
           _ _ sample_reads_a sample_reads_a' eq_refl eq_refl eq_refl
           eq_refl eq_refl Hl eq_refl eq_refl eq_refl eq_refl).
Defined.

Lemma call_touches_own_attribute_witness :
  let c := AddItem (VStr "Late fee") (VInt 1) (VInt 5) VNone in
  "template" <> target c /\
  dict_get "template" (snd (run_call c Sample.invoice))
  = dict_get "template" Sample.invoice.
Proof.
  intros c.
  assert (Hne : "template" <> target c) by discriminate.
  split; [exact Hne|].
  exact (call_touches_own_attribute c Sample.invoice "template" Hne).
Defined.

Lemma calls_commute_witness :
  let c1 := AddItem (VStr "Late fee") (VInt 1) (VInt 5) VNone in
  let c2 := SetTemplateText "notes_title" (VStr "Remarks") in
  reachable Sample.invoice /\
  target c1 <> target c2 /\
  snd (run_call c2 (snd (run_call c1 Sample.invoice)))
  = snd (run_call c1 (snd (run_call c2 Sample.invoice))).
Proof.
  intros c1 c2.
  assert (Hd : reachable Sample.invoice)
    by (apply run_calls_reachable, reach_init).
  assert (Hne : target c1 <> target c2) by discriminate.
  split; [exact Hd|]. split; [exact Hne|].
  exact (calls_commute c1 c2 Sample.invoice Hd Hne).
Defined.

Lemma set_template_text_last_wins_witness :
  reachable Sample.invoice /\
  snd (set_template_text "header" (VStr "BILL")
         (snd (set_template_text "header" (VStr "NOTE") Sample.invoice)))
  = snd (set_template_text "header" (VStr "BILL") Sample.invoice).
Proof.
  assert (Hd : reachable Sample.invoice)
    by (apply run_calls_reachable, reach_init).
  split; [exact Hd|].
  exact (set_template_text_last_wins Sample.invoice "header" (VStr "NOTE")
           (VStr "BILL") Hd).
Defined.

Lemma main_aborts_at_nan_amount_witness :
  reads Sample.rt Cases.row_inf Cases.transaction_inf /\
  invoiced Cases.transaction_inf = true /\
  isfinite (t_amount Cases.transaction_inf) = false /\
  serializable (t_description Cases.transaction_inf) = true /\
  exists p1,
    main Sample.rt Sample.f [Sample.row_a] Sample.host = (inr tt, p1) /\
    locale_installed LOCALE p1 = true /\
    exists p',
      main Sample.rt Sample.f
        ([Sample.row_a] ++ Cases.row_inf :: [Sample.row_zero]) Sample.host
      = (inl InvalidJSONError, p') /\
      requests p' = requests p1 /\
      files p' = files p1 /\
      slept p' = slept p1.
Proof.
  assert (Hreads : reads Sample.rt Cases.row_inf Cases.transaction_inf).
  { exists "01-06-2024", "inf". repeat split; reflexivity. }
  split; [exact Hreads|]. do 3 (split; [reflexivity|]).
  eexists.
  assert (Hbefore : main Sample.rt Sample.f [Sample.row_a] Sample.host
                    = (inr tt, ?[p1]))
    by (vm_compute; reflexivity).
  split; [exact Hbefore|]. split; [vm_compute; reflexivity|].
  exact (main_aborts_at_nan_amount Sample.rt Sample.f [Sample.row_a]
           [Sample.row_zero] Cases.row_inf Cases.transaction_inf Sample.host _
           Hbefore Hreads eq_refl eq_refl eq_refl eq_refl).
Defined.
